(** * Pdf2Docx: the conversion orchestration and validation pipeline

    A shallow embedding of [pdf_to_docx/config.py], [pdf_to_docx/utils.py],
    [pdf_to_docx/converter.py] and [pdf_to_docx/cli.py].

    Python integers are [Z]; [Optional[T]] is [option T]; paths are lists of
    path components; the file system is a finite map from paths to nodes.
    Effectful code runs in a small monad that threads a state, may raise a
    Python exception and records every call that leaves the process (file
    system, PyMuPDF, pdf2docx, logging, printing, the progress callback) in a
    list of events. *)

From Stdlib Require Import Ascii QArith.
From stdpp Require Import gmap strings list pretty.

Local Open Scope Z_scope.

(** ** Python strings *)

Module PyStr.

(** The line feed of the ["\n"] escapes. *)
Definition nl : string := String "010"%char "".

(** [s[n:]] for [0 <= n]. *)
Fixpoint drop (n : nat) (s : string) : string :=
  match n, s with
  | O, _ => s
  | S n', String _ s' => drop n' s'
  | S _, EmptyString => EmptyString
  end.

(** [s[:n]] for [0 <= n]. *)
Fixpoint take (n : nat) (s : string) : string :=
  match n, s with
  | O, _ => EmptyString
  | S n', String a s' => String a (take n' s')
  | S _, EmptyString => EmptyString
  end.

(** [s.rfind(c)]: the highest index of [c] in [s], or [-1]. *)
Fixpoint rfind (c : ascii) (s : string) : Z :=
  match s with
  | EmptyString => -1
  | String a s' =>
      let i := rfind c s' in
      if 0 <=? i then i + 1
      else if Ascii.eqb a c then 0 else -1
  end.

(** [c in s] for a one-character [c]. *)
Fixpoint contains (c : ascii) (s : string) : bool :=
  match s with
  | EmptyString => false
  | String a s' => Ascii.eqb a c || contains c s'
  end.

(** [s.startswith(c)] for a one-character [c]. *)
Definition startswith (c : ascii) (s : string) : bool :=
  match s with
  | String a _ => Ascii.eqb a c
  | EmptyString => false
  end.

Definition lower_char (a : ascii) : ascii :=
  let n := Ascii.N_of_ascii a in
  if ((65 <=? n) && (n <=? 90))%N then Ascii.ascii_of_N (n + 32) else a.

(** [s.lower()] on the ASCII letters, the only ones that can lower to the
    letters of [".pdf"] and [".docx"]. *)
Fixpoint lower (s : string) : string :=
  match s with
  | EmptyString => EmptyString
  | String a s' => String (lower_char a) (lower s')
  end.

(** [sep.join(l)]. *)
Fixpoint join (sep : string) (l : list string) : string :=
  match l with
  | [] => ""
  | [x] => x
  | x :: l' => x +:+ sep +:+ join sep l'
  end.

(** [s.split(c)] for a one-character [c]. *)
Fixpoint split (c : ascii) (s : string) : list string :=
  match s with
  | EmptyString => [""]
  | String a s' =>
      if Ascii.eqb a c then "" :: split c s'
      else match split c s' with
           | w :: ws => String a w :: ws
           | [] => [String a ""]
           end
  end.

(** Truthiness of a string: non-empty. *)
Definition truthy (s : string) : bool :=
  match s with EmptyString => false | _ => true end.

(** [repr(s)] for a string without quotes or escapes. *)
Definition repr (s : string) : string := "'" +:+ s +:+ "'".

(** [str(b)] for a [bool]. *)
Definition of_bool (b : bool) : string := if b then "True" else "False".

Definition len (s : string) : Z := Z.of_nat (String.length s).

End PyStr.

(** ** Exceptions *)

(** The exceptions that reach this code. [RuntimeError] carries the
    [__cause__] set by [raise ... from e]. [OSError] stands for what the
    operating system layer raises ([FileNotFoundError], [PermissionError],
    ...), [LibraryError] for an [Exception] raised inside pdf2docx or PyMuPDF.
    [KeyboardInterrupt] is the one that is not an [Exception]. *)
#[warnings="-register-all"]
Inductive exn : Type :=
| ValueError (msg : string)
| RuntimeError (msg : string) (cause : option exn)
| OSError (msg : string)
| LibraryError (msg : string)
| KeyboardInterrupt.

(** [isinstance(e, Exception)]. *)
Definition is_Exception (e : exn) : bool :=
match e with
| KeyboardInterrupt => false
| _ => true
end.

(** [str(e)]. *)
Definition exn_str (e : exn) : string :=
match e with
| ValueError m | RuntimeError m _ | OSError m | LibraryError m => m
| KeyboardInterrupt => ""
end.

(** ** pathlib *)

(** A path is the list of its components, outermost first; [[]] is [Path(".")],
    the directory all other paths are resolved against, so that an absolute
    path and the relative path with the same components name the same node. *)
Abbreviation Path := (list string).

Module Pathlib.

(** [Path(s)]: split at the separator, drop empty and ["."] components. *)
Definition of_string (s : string) : Path :=
  filter (λ c, c ≠ "" ∧ c ≠ ".") (PyStr.split "/"%char s).

(** [str(p)]. *)
Definition str (p : Path) : string :=
  match p with
  | [] => "."
  | _ => PyStr.join "/" p
  end.

(** [repr(p)]. *)
Definition repr (p : Path) : string := "PosixPath(" +:+ PyStr.repr (str p) +:+ ")".

(** [p.name]: the final component, [""] for [Path(".")]. *)
Definition name (p : Path) : string := List.last p "".

(** [p.parent]. *)
Definition parent (p : Path) : Path := removelast p.

(** The suffix of a file name: from its last dot, when that dot is neither
    the first nor the last character. *)
Definition name_suffix (nm : string) : string :=
  let i := PyStr.rfind "."%char nm in
  if (0 <? i) && (i <? PyStr.len nm - 1) then PyStr.drop (Z.to_nat i) nm
  else "".

(** [p.suffix]. *)
Definition suffix (p : Path) : string := name_suffix (name p).

(** [p.with_suffix(sfx)]: replaces the suffix of the final component, or
    fails with the [ValueError] of pathlib. *)
Definition with_suffix (p : Path) (sfx : string) : exn + Path :=
  if PyStr.contains "/"%char sfx then
    inl (ValueError ("Invalid suffix " +:+ PyStr.repr sfx))
  else if (PyStr.truthy sfx && negb (PyStr.startswith "."%char sfx))
          || bool_decide (sfx = ".") then
    inl (ValueError ("Invalid suffix " +:+ PyStr.repr sfx))
  else
    let nm := name p in
    if negb (PyStr.truthy nm) then
      inl (ValueError (repr p +:+ " has an empty name"))
    else
      let old_suffix := suffix p in
      let nm' :=
        if negb (PyStr.truthy old_suffix) then nm +:+ sfx
        else PyStr.take (String.length nm - String.length old_suffix) nm +:+ sfx in
      inr (removelast p ++ [nm']).

(** The path whose final component is that of [p] followed by [x]: the
    [<path>x] of the backup names. *)
Definition append_name (p : Path) (x : string) : Path :=
  removelast p ++ [name p +:+ x].

(** The part of a file name before its suffix. *)
Definition name_stem (nm : string) : string :=
  PyStr.take (String.length nm - String.length (name_suffix nm)) nm.

(** A well-formed final component: not empty and without separator, as
    every component of a parsed path is. *)
Definition wf_name (p : Path) : Prop :=
  name p ≠ "" ∧ PyStr.contains "/"%char (name p) = false.

End Pathlib.

(** ** config.py *)

Module Config.

(** The [ConversionConfig] dataclass. The table thresholds are forwarded
    and never read here. *)
Record ConversionConfig : Type := {
  start_page : Z;
  end_page : option Z;
  multi_processing : bool;
  cpu_count : option Z;
  preserve_layout : bool;
  preserve_images : bool;
  preserve_tables : bool;
  overwrite : bool;
  create_backup : bool;
  table_settings : list (string * Q);
  verbose : bool;
  log_file : option Path
}.

Definition default_table_settings : list (string * Q) :=
  [("min_border_vertical", (1 # 2)%Q);
   ("min_border_horizontal", (1 # 2)%Q);
   ("intersection_threshold", (1 # 4)%Q);
   ("min_words_vertical", (3 # 1)%Q);
   ("min_words_horizontal", (1 # 1)%Q)].

Definition DEFAULT_CONFIG : ConversionConfig := {|
  start_page := 0;
  end_page := None;
  multi_processing := false;
  cpu_count := None;
  preserve_layout := true;
  preserve_images := true;
  preserve_tables := true;
  overwrite := false;
  create_backup := false;
  table_settings := default_table_settings;
  verbose := true;
  log_file := None
|}.

Definition err_start_page : string := "start_page must be non-negative".
Definition err_end_page : string := "end_page must be >= start_page".
Definition err_cpu_count : string := "cpu_count must be >= 1".

(** [ConversionConfig.validate]: the three checks run one after the other,
    each appending to [errors]. *)
Definition validate (self : ConversionConfig) : list string :=
  let errors := [] in
  let errors :=
    if start_page self <? 0 then errors ++ [err_start_page] else errors in
  let errors :=
    match end_page self with
    | Some e => if e <? start_page self then errors ++ [err_end_page] else errors
    | None => errors
    end in
  let errors :=
    match cpu_count self with
    | Some n => if n <? 1 then errors ++ [err_cpu_count] else errors
    | None => errors
    end in
  errors.

(** The three violations. *)
Definition bad_start (c : ConversionConfig) : Prop := start_page c < 0.
Definition bad_range (c : ConversionConfig) : Prop :=
  ∃ e, end_page c = Some e ∧ e < start_page c.
Definition bad_cpu (c : ConversionConfig) : Prop :=
  ∃ n, cpu_count c = Some n ∧ n < 1.

End Config.

(** ** The world outside the process *)

(** What PyMuPDF reports of a document it could open. *)
Record Doc : Type := {
  doc_pages : nat;
  doc_encrypted : bool;
  doc_metadata : list (string * string)
}.

(** A node of the file system: a regular file with its size and what
    [fitz.open] makes of its content (the message of the exception it raises,
    or the document), or a directory. *)
Inductive node : Type :=
| File (st_size : Z) (content : string + Doc)
| Dir.

(** The file system below [Path(".")], which itself always exists and is a
    directory. *)
Abbreviation FS := (gmap Path node).

(** A progress callback, known by its identity only; a call of it
    returns. *)
Inductive callback : Type := Callback (id : nat).

Inductive level : Type := DEBUG | INFO | WARNING | ERROR.

(** The calls that leave the process, in the order they are made. *)
Inductive event : Type :=
| EvExists (p : Path)
| EvIsFile (p : Path)
| EvIsDir (p : Path)
| EvStat (p : Path)
| EvMkdir (p : Path)
| EvCopy (src dst : Path)
| EvFitzOpen (p : Path)
| EvFitzClose (p : Path)
| EvSessionOpen (p : Path) (ok : bool)
| EvSessionConvert (p out : Path) (start : Z) (stop : option Z)
| EvSessionClose (p : Path)
| EvLogSetup (verbose : bool) (log_file : option Path)
| EvLog (logger : string) (lvl : level) (msg : string)
| EvCallback (cb : callback) (current total : Z)
| EvPrint (to_stderr : bool) (msg : string)
| EvTraceback.

(** The collaborators whose behaviour this code does not decide: whether the
    operating system refuses a [mkdir] or a copy (the message of the
    [OSError]), and what pdf2docx does when a session is opened and when it
    converts (the exception it raises, if any, and the file system it leaves
    behind). [format_file_size] is the function of [utils.py], whose floating
    point arithmetic and formatting are kept abstract. *)
Class Services : Type := {
  mkdir_error : FS → Path → option string;
  copy_error : FS → Path → Path → option string;
  session_open : FS → Path → option exn;
  session_convert : FS → Path → Path → Z → option Z → option exn * FS;
  format_file_size : Z → string
}.

(** ** The monad *)

(** The outcome of a call: a value, a raised exception, or [OutOfFuel] when
    the bounded model of a loop ran out of steps. *)
Inductive result (A : Type) : Type :=
| Ok (a : A)
| Raise (e : exn)
| OutOfFuel.
Arguments Ok {A} a.
Arguments Raise {A} e.
Arguments OutOfFuel {A}.

(** A computation over a state [S]: its outcome, the state it leaves and the
    events it emitted. *)
Definition M (S A : Type) : Type := S → result A * S * list event.

Definition ret {S A} (a : A) : M S A := λ s, (Ok a, s, []).

Definition bind {S A B} (m : M S A) (k : A → M S B) : M S B := λ s,
  match m s with
  | (Ok a, s1, t1) => let '(r, s2, t2) := k a s1 in (r, s2, t1 ++ t2)
  | (Raise e, s1, t1) => (Raise e, s1, t1)
  | (OutOfFuel, s1, t1) => (OutOfFuel, s1, t1)
  end.

Declare Scope py_scope.
Delimit Scope py_scope with py.
Notation "x ← y ; z" := (bind y (λ x, z))
  (at level 20, y at level 100, z at level 200, only parsing) : py_scope.
Notation "' x ← y ; z" := (bind y (λ x, z))
  (at level 20, x pattern, y at level 100, z at level 200, only parsing) : py_scope.
Notation "x ;; z" := (bind x (λ _, z))
  (at level 100, z at level 200, only parsing, right associativity) : py_scope.
Open Scope py_scope.

Definition raise {S A} (e : exn) : M S A := λ s, (Raise e, s, []).
Definition out_of_fuel {S A} : M S A := λ s, (OutOfFuel, s, []).
Definition emit {S} (ev : event) : M S unit := λ s, (Ok tt, s, [ev]).
Definition get {S} : M S S := λ s, (Ok s, s, []).
Definition put {S} (s : S) : M S unit := λ _, (Ok tt, s, []).

(** [try: m  except Exception as e: h e]. *)
Definition try_except {S A} (m : M S A) (h : exn → M S A) : M S A := λ s,
  match m s with
  | (Raise e, s1, t1) =>
      if is_Exception e
      then let '(r, s2, t2) := h e s1 in (r, s2, t1 ++ t2)
      else (Raise e, s1, t1)
  | other => other
  end.

(** [try: m  except KeyboardInterrupt: hi  except Exception as e: he e]:
    the first clause that matches handles the exception, and what a handler
    raises is not handled by the other. *)
Definition try_except_interrupt {S A} (m : M S A) (hi : M S A) (he : exn → M S A)
  : M S A := λ s,
  match m s with
  | (Raise e, s1, t1) =>
      match e with
      | KeyboardInterrupt => let '(r, s2, t2) := hi s1 in (r, s2, t1 ++ t2)
      | _ =>
          if is_Exception e
          then let '(r, s2, t2) := he e s1 in (r, s2, t1 ++ t2)
          else (Raise e, s1, t1)
      end
  | other => other
  end.

(** [try: m  finally: f]: [f] runs on every exit of [m]; an exception of
    [f] replaces the outcome of [m]. *)
Definition try_finally {S A} (m : M S A) (f : M S unit) : M S A := λ s,
  match m s with
  | (OutOfFuel, s1, t1) => (OutOfFuel, s1, t1)
  | (r, s1, t1) =>
      match f s1 with
      | (Ok _, s2, t2) => (r, s2, t1 ++ t2)
      | (Raise e, s2, t2) => (Raise e, s2, t1 ++ t2)
      | (OutOfFuel, s2, t2) => (OutOfFuel, s2, t1 ++ t2)
      end
  end.

(** A computation on the file system run by a method, whose state also
    holds [self]. *)
Definition lift_fs {O A : Type} (m : M FS A) : M (O * FS)%type A := λ '(o, fs),
  let '(r, fs', t) := m fs in (r, (o, fs'), t).

(** A method call on the object [o], whose state is dropped afterwards. *)
Definition with_self {O A : Type} (o : O) (m : M (O * FS)%type A) : M FS A := λ fs,
  let '(r, (_, fs'), t) := m (o, fs) in (r, fs', t).

(** A sum as a computation. *)
Definition of_sum {S A} (x : exn + A) : M S A :=
  match x with
  | inl e => raise e
  | inr a => ret a
  end.

(** ** utils.py *)

Module Utils.

Section WithServices.
Context {sv : Services}.

(** *** The file system, PyMuPDF and logging as this code calls them *)

(** The node at a path; [Path(".")] is a directory that always exists. *)
Definition node_at (fs : FS) (p : Path) : option node :=
  match p with
  | [] => Some Dir
  | _ => fs !! p
  end.

(** [p.exists()]. *)
Definition path_exists (p : Path) : M FS bool :=
  emit (EvExists p);;
  fs ← get;
  ret (match node_at fs p with Some _ => true | None => false end).

(** [p.is_file()]. *)
Definition path_is_file (p : Path) : M FS bool :=
  emit (EvIsFile p);;
  fs ← get;
  ret (match node_at fs p with Some (File _ _) => true | _ => false end).

(** [p.is_dir()]. *)
Definition path_is_dir (p : Path) : M FS bool :=
  emit (EvIsDir p);;
  fs ← get;
  ret (match node_at fs p with Some Dir => true | _ => false end).

(** [p.stat().st_size]; a directory is reported with size [0]. *)
Definition stat_size (p : Path) : M FS Z :=
  emit (EvStat p);;
  fs ← get;
  match node_at fs p with
  | Some (File sz _) => ret sz
  | Some Dir => ret 0
  | None => raise (OSError ("No such file or directory: " +:+ PyStr.repr (Pathlib.str p)))
  end.

(** The non-empty prefixes of a path, shortest first. *)
Definition prefixes (p : Path) : list Path :=
  (λ n, take n p) <$> seq 1 (length p).

(** [p.mkdir(parents=True, exist_ok=True)]: refused by the operating
    system, or impossible because a regular file is in the way, or creating
    every missing directory down to [p]. *)
Definition mkdir_parents (p : Path) : M FS unit :=
  emit (EvMkdir p);;
  fs ← get;
  match mkdir_error fs p with
  | Some msg => raise (OSError msg)
  | None =>
      if existsb (λ q, match fs !! q with Some (File _ _) => true | _ => false end)
                 (prefixes p)
      then raise (OSError ("File exists: " +:+ PyStr.repr (Pathlib.str p)))
      else put (foldr (λ q acc, match acc !! q with
                                | None => <[q := Dir]> acc
                                | Some _ => acc
                                end) fs (prefixes p))
  end.

(** [shutil.copy2(src, dst)]: [src] must be a regular file; a [dst] that
    is a directory receives the copy under the name of [src]. *)
Definition copy2 (src dst : Path) : M FS unit :=
  emit (EvCopy src dst);;
  fs ← get;
  match node_at fs src with
  | Some (File sz c) =>
      match copy_error fs src dst with
      | Some msg => raise (OSError msg)
      | None =>
          let target :=
            match node_at fs dst with
            | Some Dir => dst ++ [Pathlib.name src]
            | _ => dst
            end in
          put (<[target := File sz c]> fs)
      end
  | Some Dir => raise (OSError ("Is a directory: " +:+ PyStr.repr (Pathlib.str src)))
  | None => raise (OSError ("No such file or directory: " +:+ PyStr.repr (Pathlib.str src)))
  end.

(** [fitz.open(str(p))]. *)
Definition fitz_open (p : Path) : M FS Doc :=
  emit (EvFitzOpen p);;
  fs ← get;
  match node_at fs p with
  | Some (File _ (inr d)) => ret d
  | Some (File _ (inl msg)) => raise (LibraryError msg)
  | Some Dir => raise (LibraryError ("is no file: " +:+ PyStr.repr (Pathlib.str p)))
  | None => raise (LibraryError ("no such file: " +:+ PyStr.repr (Pathlib.str p)))
  end.

(** [doc.close()]. *)
Definition fitz_close (p : Path) : M FS unit := emit (EvFitzClose p).

(** A call of a logging method on the logger of that name. *)
Definition log {S} (logger : string) (lvl : level) (msg : string) : M S unit :=
  emit (EvLog logger lvl msg).

(** [print(msg)] and [print(msg, file=sys.stderr)]. *)
Definition print {S} (msg : string) : M S unit := emit (EvPrint false msg).
Definition eprint {S} (msg : string) : M S unit := emit (EvPrint true msg).

(** An [Optional[str]] inside an f-string. *)
Definition fmt_opt (o : option string) : string := default "None" o.

(** *** validate_pdf *)

Definition validate_pdf (pdf_path : Path) : M FS (bool * option string) :=
  ex ← path_exists pdf_path;
  if negb ex then
    ret (false, Some ("File not found: " +:+ Pathlib.str pdf_path))
  else
  isf ← path_is_file pdf_path;
  if negb isf then
    ret (false, Some ("Path is not a file: " +:+ Pathlib.str pdf_path))
  else
  if negb (bool_decide (PyStr.lower (Pathlib.suffix pdf_path) = ".pdf")) then
    ret (false, Some ("File is not a PDF: " +:+ Pathlib.str pdf_path))
  else
  try_except
    (doc ← fitz_open pdf_path;
     let page_count := doc_pages doc in
     fitz_close pdf_path;;
     if bool_decide (page_count = 0%nat) then
       ret (false, Some "PDF has no pages")
     else
       ret (true, None))
    (λ e, ret (false, Some ("Invalid PDF file: " +:+ exn_str e))).

(** *** validate_output_path *)

Definition validate_output_path (docx_path : Path) (overwrite : bool)
  : M FS (bool * option string) :=
  if negb (bool_decide (PyStr.lower (Pathlib.suffix docx_path) = ".docx")) then
    ret (false, Some ("Output file must have .docx extension: " +:+ Pathlib.str docx_path))
  else
  ex ← path_exists docx_path;
  if ex && negb overwrite then
    ret (false, Some ("Output file already exists: " +:+ Pathlib.str docx_path
                       +:+ ". Use overwrite=True to replace."))
  else
  let parent := Pathlib.parent docx_path in
  pex ← path_exists parent;
  r ← (if negb pex then
         try_except (mkdir_parents parent;; ret None)
           (λ e, ret (Some ("Cannot create output directory: " +:+ exn_str e)))
       else ret None);
  match r with
  | Some msg => ret (false, Some msg)
  | None =>
      isd ← path_is_dir parent;
      if negb isd then
        ret (false, Some ("Output path parent is not a directory: " +:+ Pathlib.str parent))
      else
        ret (true, None)
  end.

(** *** get_file_info *)

(** The dictionary [info]. *)
Record FileInfo : Type := {
  info_path : string;
  info_name : string;
  info_size : Z;
  info_pages : nat;
  info_encrypted : bool;
  info_metadata : list (string * string)
}.

Definition get_file_info (pdf_path : Path) : M FS FileInfo :=
  ex ← path_exists pdf_path;
  size ← (if ex then stat_size pdf_path else ret 0);
  let info := {|
    info_path := Pathlib.str pdf_path;
    info_name := Pathlib.name pdf_path;
    info_size := size;
    info_pages := 0;
    info_encrypted := false;
    info_metadata := []
  |} in
  try_except
    (doc ← fitz_open pdf_path;
     let info := {|
       info_path := info_path info;
       info_name := info_name info;
       info_size := info_size info;
       info_pages := doc_pages doc;
       info_encrypted := doc_encrypted doc;
       info_metadata := doc_metadata doc
     |} in
     fitz_close pdf_path;;
     ret info)
    (λ e, log "root" WARNING ("Could not read PDF info: " +:+ exn_str e);;
          ret info).

(** *** create_backup *)

(** The [while backup_path.exists()] loop, for at most [fuel] probes. *)
Fixpoint backup_probe (fuel : nat) (file_path backup_path : Path) (counter : Z)
  : M FS Path :=
  match fuel with
  | O => out_of_fuel
  | S fuel' =>
      ex ← path_exists backup_path;
      if ex then
        backup_path' ← of_sum (Pathlib.with_suffix file_path
                        (Pathlib.suffix file_path +:+ ".bak." +:+ pretty counter));
        backup_probe fuel' file_path backup_path' (counter + 1)
      else
        ret backup_path
  end.

(** [create_backup]. The loop is given one probe more than the file system
    has entries, which [backup_probe_total] shows to be enough. *)
Definition create_backup (file_path : Path) : M FS (option Path) :=
  ex ← path_exists file_path;
  if negb ex then ret None
  else
  backup_path ← of_sum (Pathlib.with_suffix file_path
                  (Pathlib.suffix file_path +:+ ".bak"));
  let counter := 1 in
  fs ← get;
  backup_path ← backup_probe (S (size fs)) file_path backup_path counter;
  try_except
    (copy2 file_path backup_path;;
     ret (Some backup_path))
    (λ e, log "root" ERROR ("Failed to create backup: " +:+ exn_str e);;
          ret None).

(** *** setup_logging *)

(** The configured logger ["pdf_to_docx"]. *)
Record Logger : Type := {
  logger_verbose : bool;
  logger_file : option Path
}.

(** [logging.FileHandler(log_file)] opens the file for appending: an
    existing regular file is kept, a missing one is created empty in an
    existing directory. *)
Definition open_log_file (log_file : Path) : M FS unit :=
  fs ← get;
  match node_at fs log_file with
  | Some (File _ _) => ret tt
  | Some Dir => raise (OSError ("Is a directory: " +:+ PyStr.repr (Pathlib.str log_file)))
  | None =>
      match node_at fs (Pathlib.parent log_file) with
      | Some Dir => put (<[log_file := File 0 (inl "Cannot open empty file")]> fs)
      | _ => raise (OSError ("No such file or directory: "
                             +:+ PyStr.repr (Pathlib.str log_file)))
      end
  end.

Definition setup_logging (verbose : bool) (log_file : option Path) : M FS Logger :=
  emit (EvLogSetup verbose log_file);;
  match log_file with
  | Some f => open_log_file f
  | None => ret tt
  end;;
  ret {| logger_verbose := verbose; logger_file := log_file |}.

End WithServices.

End Utils.

(** ** converter.py *)

Module Converter.

Import Config Utils.

(** The state of a [PDFToDOCXConverter]; [converter] holds the open pdf2docx
    session, known by the path it was opened on. *)
Record PDFToDOCXConverter : Type := {
  pdf_path : Path;
  docx_path : Path;
  config : ConversionConfig;
  logger : Logger;
  converter : option Path;
  progress_callback : option callback
}.

Definition set_converter (c : option Path) (self : PDFToDOCXConverter)
  : PDFToDOCXConverter := {|
  pdf_path := pdf_path self;
  docx_path := docx_path self;
  config := config self;
  logger := logger self;
  converter := c;
  progress_callback := progress_callback self
|}.

(** [set_progress_callback]: the last callback set is the one in use. *)
Definition set_progress_callback (callback : callback) (self : PDFToDOCXConverter)
  : PDFToDOCXConverter := {|
  pdf_path := pdf_path self;
  docx_path := docx_path self;
  config := config self;
  logger := logger self;
  converter := converter self;
  progress_callback := Some callback
|}.

(** The state a method runs in: [self] and the file system. *)
Abbreviation St := (PDFToDOCXConverter * FS)%type.

Definition get_self : M St PDFToDOCXConverter := λ s, (Ok (fst s), s, []).

Definition update_self (f : PDFToDOCXConverter → PDFToDOCXConverter) : M St unit :=
  λ s, (Ok tt, (f (fst s), snd s), []).

(** The four uses of [self.logger]. *)
Definition logger_info (msg : string) : M St unit := log "pdf_to_docx" INFO msg.
Definition logger_warning (msg : string) : M St unit := log "pdf_to_docx" WARNING msg.
Definition logger_error (msg : string) : M St unit := log "pdf_to_docx" ERROR msg.

Section WithServices.
Context {sv : Services}.

(** *** pdf2docx *)

(** [PDF2DOCXConverter(str(p))]. *)
Definition Converter_open (p : Path) : M St Path := λ s,
  match session_open (snd s) p with
  | Some e => (Raise e, s, [EvSessionOpen p false])
  | None => (Ok p, s, [EvSessionOpen p true])
  end.

(** [session.convert(str(out), start=start, end=stop)]. *)
Definition Converter_convert (session out : Path) (start : Z) (stop : option Z)
  : M St unit := λ s,
  let '(r, fs') := session_convert (snd s) session out start stop in
  (match r with Some e => Raise e | None => Ok tt end,
   (fst s, fs'),
   [EvSessionConvert session out start stop]).

(** [session.close()], which does not fail. *)
Definition Converter_close (session : Path) : M St unit :=
  emit (EvSessionClose session).

(** *** __init__ *)

Definition __init__ (pdf_path : Path) (docx_path : option Path)
  (config : option ConversionConfig) : M FS PDFToDOCXConverter :=
  let self_pdf_path := pdf_path in
  let self_config := default DEFAULT_CONFIG config in
  '(is_valid, error) ← validate_pdf self_pdf_path;
  if negb is_valid then
    raise (ValueError ("Invalid PDF file: " +:+ fmt_opt error))
  else
  self_docx_path ← match docx_path with
                   | Some p => ret p
                   | None => of_sum (Pathlib.with_suffix self_pdf_path ".docx")
                   end;
  '(is_valid, error) ← validate_output_path self_docx_path (overwrite self_config);
  if negb is_valid then
    raise (ValueError ("Invalid output path: " +:+ fmt_opt error))
  else
  self_logger ← setup_logging (verbose self_config) (log_file self_config);
  ret {|
    pdf_path := self_pdf_path;
    docx_path := self_docx_path;
    config := self_config;
    logger := self_logger;
    converter := None;
    progress_callback := None
  |}.

(** *** _log_file_info *)

Definition _log_file_info : M St unit :=
  self ← get_self;
  info ← lift_fs (get_file_info (pdf_path self));
  logger_info ("PDF File: " +:+ info_name info);;
  logger_info ("Size: " +:+ format_file_size (info_size info));;
  logger_info ("Pages: " +:+ pretty (info_pages info));;
  logger_info ("Encrypted: " +:+ PyStr.of_bool (info_encrypted info));;
  if info_encrypted info then
    logger_warning "PDF is encrypted. Conversion may fail if password is required."
  else ret tt.

(** *** _create_backup_if_needed *)

Definition _create_backup_if_needed : M St unit :=
  self ← get_self;
  ex ← lift_fs (path_exists (docx_path self));
  if ex && Config.create_backup (config self) then
    backup_path ← lift_fs (Utils.create_backup (docx_path self));
    match backup_path with
    | Some b => logger_info ("Created backup: " +:+ Pathlib.str b)
    | None => logger_warning "Failed to create backup"
    end
  else ret tt.

(** *** convert *)

Definition msg_not_created : string :=
  "Conversion completed but output file was not created".

(** The body of the [try] statement. *)
Definition convert_body : M St Path :=
  self ← get_self;
  session ← Converter_open (pdf_path self);
  update_self (set_converter (Some session));;
  let start := start_page (config self) in
  let stop := end_page (config self) in
  Converter_convert session (docx_path self) start stop;;
  ex ← lift_fs (path_exists (docx_path self));
  if negb ex then
    raise (RuntimeError msg_not_created None)
  else
  output_size ← lift_fs (stat_size (docx_path self));
  logger_info "Conversion complete!";;
  logger_info ("Output file: " +:+ Pathlib.str (docx_path self));;
  logger_info ("Output size: " +:+ format_file_size output_size);;
  ret (docx_path self).

(** The [except Exception as e] clause; the log record carries the
    exception information. *)
Definition convert_handler (e : exn) : M St Path :=
  logger_error ("Conversion failed: " +:+ exn_str e);;
  raise (RuntimeError ("Failed to convert PDF: " +:+ exn_str e) (Some e)).

(** The [finally] clause. *)
Definition convert_finally : M St unit :=
  self ← get_self;
  match converter self with
  | Some session =>
      Converter_close session;;
      update_self (set_converter None)
  | None => ret tt
  end.

(** The [try] statement as a whole. *)
Definition convert_try : M St Path :=
  try_finally (try_except convert_body convert_handler) convert_finally.

Definition convert : M St Path :=
  self ← get_self;
  let config_errors := validate (config self) in
  match config_errors with
  | _ :: _ =>
      raise (ValueError ("Invalid configuration: " +:+ PyStr.join ", " config_errors))
  | [] =>
      _log_file_info;;
      _create_backup_if_needed;;
      logger_info ("Starting conversion to: " +:+ Pathlib.str (docx_path self));;
      logger_info "This may take a moment depending on PDF complexity...";;
      convert_try
  end.

(** *** convert_with_progress *)

(** [a or b] on an optional integer: [None] and [0] are falsy. *)
Definition or_int (a : option Z) (b : Z) : Z :=
  match a with
  | Some v => if v =? 0 then b else v
  | None => b
  end.

(** The total handed to the callback. *)
Definition pages_to_convert (cfg : ConversionConfig) (total_pages : Z) : Z :=
  let start := start_page cfg in
  let stop := or_int (end_page cfg) total_pages in
  stop - start + 1.

(** [if self.progress_callback: self.progress_callback(current, total)]. *)
Definition report_progress (current total : Z) : M St unit :=
  self ← get_self;
  match progress_callback self with
  | Some cb => emit (EvCallback cb current total)
  | None => ret tt
  end.

Definition convert_with_progress : M St Path :=
  self ← get_self;
  info ← lift_fs (get_file_info (pdf_path self));
  let total_pages := Z.of_nat (info_pages info) in
  let pages_to_convert := pages_to_convert (config self) total_pages in
  report_progress 0 pages_to_convert;;
  try_except
    (result ← convert;
     report_progress pages_to_convert pages_to_convert;;
     ret result)
    (λ e, report_progress 0 pages_to_convert;;
          raise e).

(** *** The context manager *)

Definition __enter__ : M St unit := ret tt.

Definition __exit__ : M St bool :=
  self ← get_self;
  match converter self with
  | Some session =>
      Converter_close session;;
      update_self (set_converter None)
  | None => ret tt
  end;;
  ret false.

End WithServices.

End Converter.

(** ** cli.py *)

Module Cli.

Import Config Utils Converter.

(** The namespace [parse_args] returns. *)
Record Args : Type := {
  args_pdf_path : string;
  args_output : option string;
  args_start_page : Z;
  args_end_page : option Z;
  args_overwrite : bool;
  args_backup : bool;
  args_verbose : bool;
  args_quiet : bool;
  args_log_file : option string;
  args_multi_processing : bool;
  args_cpu_count : option Z
}.

(** Truthiness of an [Optional[str]]: [None] and [""] are falsy. *)
Definition truthy_opt (o : option string) : option string :=
  match o with
  | Some s => if PyStr.truthy s then Some s else None
  | None => None
  end.

Section WithServices.
Context {sv : Services}.

Definition print_file_info (pdf_path : Path) : M FS unit :=
  info ← get_file_info pdf_path;
  print (PyStr.nl +:+ "PDF Information:");;
  print ("  File: " +:+ info_name info);;
  print ("  Size: " +:+ format_file_size (info_size info));;
  print ("  Pages: " +:+ pretty (info_pages info));;
  print ("  Encrypted: " +:+ PyStr.of_bool (info_encrypted info));;
  (if info_encrypted info then print "  ⚠ Warning: PDF is encrypted" else ret tt);;
  print "".

(** The body of the [try] statement of [main]. *)
Definition main_body (parsed_args : Args) (verbose : bool) : M FS Z :=
  let pdf_path := Pathlib.of_string (args_pdf_path parsed_args) in
  ex ← path_exists pdf_path;
  if negb ex then
    eprint ("Error: PDF file not found: " +:+ Pathlib.str pdf_path);;
    ret 1
  else
  docx_path ← match truthy_opt (args_output parsed_args) with
              | Some o => ret (Pathlib.of_string o)
              | None => of_sum (Pathlib.with_suffix pdf_path ".docx")
              end;
  (if verbose then print_file_info pdf_path else ret tt);;
  let config := {|
    start_page := args_start_page parsed_args;
    end_page := args_end_page parsed_args;
    multi_processing := args_multi_processing parsed_args;
    cpu_count := args_cpu_count parsed_args;
    preserve_layout := true;
    preserve_images := true;
    preserve_tables := true;
    overwrite := args_overwrite parsed_args;
    Config.create_backup := args_backup parsed_args;
    table_settings := default_table_settings;
    Config.verbose := verbose;
    log_file := Pathlib.of_string <$> truthy_opt (args_log_file parsed_args)
  |} in
  converter ← __init__ pdf_path (Some docx_path) (Some config);
  result_path ← with_self converter convert;
  (if verbose then
     print (PyStr.nl +:+ "✓ Conversion successful!");;
     print ("  Output: " +:+ Pathlib.str result_path);;
     output_size ← stat_size result_path;
     print ("  Size: " +:+ format_file_size output_size)
   else ret tt);;
  ret 0.

(** [main], from the parsed arguments on. *)
Definition main (parsed_args : Args) : M FS Z :=
  let verbose := args_verbose parsed_args && negb (args_quiet parsed_args) in
  try_except_interrupt
    (main_body parsed_args verbose)
    (eprint (PyStr.nl +:+ PyStr.nl +:+ "Conversion cancelled by user.");;
     ret 130)
    (λ e, eprint (PyStr.nl +:+ "Error: " +:+ exn_str e);;
          (if verbose then emit EvTraceback else ret tt);;
          ret 1).

End WithServices.

End Cli.

(** ** What the properties observe *)

Module Trace.

(** A session that was opened. *)
Definition is_open (e : event) : bool :=
  match e with
  | EvSessionOpen _ true => true
  | _ => false
  end.

(** A session that was closed. *)
Definition is_close (e : event) : bool :=
  match e with
  | EvSessionClose _ => true
  | _ => false
  end.

(** A call into pdf2docx. *)
Definition is_session (e : event) : bool :=
  match e with
  | EvSessionOpen _ _ | EvSessionConvert _ _ _ _ | EvSessionClose _ => true
  | _ => false
  end.

Definition opens (t : list event) : nat := length (List.filter is_open t).
Definition closes (t : list event) : nat := length (List.filter is_close t).

(** A call into pdf2docx or of the progress callback. *)
Definition noisy (e : event) : bool :=
  match e with
  | EvCallback _ _ _ => true
  | _ => is_session e
  end.

(** A trace without calls into pdf2docx and without callbacks. *)
Definition quiet (t : list event) : Prop := Forall (λ e, noisy e = false) t.

(** The calls of the progress callback, in order. *)
Definition callbacks (t : list event) : list (callback * Z * Z) :=
  omap (λ e, match e with
             | EvCallback cb current total => Some (cb, current, total)
             | _ => None
             end) t.

End Trace.

Module Naming.

(** The backup names in the order they are tried: [.bak], then [.bak.1],
    [.bak.2], ... *)
Definition bak_suffix (n : Z) : string :=
  if n =? 0 then ".bak" else ".bak." +:+ pretty n.

(** [<p>.bak] for [n = 0], [<p>.bak.<n>] from [1] on. *)
Definition nth_backup (p : Path) (n : Z) : Path :=
  Pathlib.append_name p (bak_suffix n).

(** The [try] statement of [create_backup] once the backup name is chosen. *)
Definition backup_copy {sv : Services} (p dst : Path) : M FS (option Path) :=
  try_except
    (Utils.copy2 p dst;; ret (Some dst))
    (λ e, Utils.log "root" ERROR ("Failed to create backup: " +:+ exn_str e);; ret None).

End Naming.

Module Faults.

(** The two conversion faults of the specification, as this code raises
    them: the error of the output check, and the wrapper the [except] clause
    of [convert] builds around a cause. *)
Definition OutputNotProduced : exn := RuntimeError Converter.msg_not_created None.

Definition ConversionFailed (cause : exn) : exn :=
  RuntimeError ("Failed to convert PDF: " +:+ exn_str cause) (Some cause).

End Faults.

Module Observed.

(** What [convert] does between the check of the configuration and the two
    log lines that announce the conversion. *)
Definition convert_prepare {sv : Services} : M Converter.St unit :=
  Converter._log_file_info;; Converter._create_backup_if_needed.

(** The call of the progress callback, when one is set. *)
Definition report (self : Converter.PDFToDOCXConverter) (current total : Z)
  : list event :=
  match Converter.progress_callback self with
  | Some cb => [EvCallback cb current total]
  | None => []
  end.

(** The two log lines. *)
Definition convert_announce (self : Converter.PDFToDOCXConverter) : list event :=
  [EvLog "pdf_to_docx" INFO
     ("Starting conversion to: " +:+ Pathlib.str (Converter.docx_path self));
   EvLog "pdf_to_docx" INFO "This may take a moment depending on PDF complexity..."].

(** The ways an input path fails validation: it is missing, it is not a
    regular file, it has the wrong extension, PyMuPDF cannot open it, or the
    document has no pages. *)
Definition pdf_rejected (fs : FS) (p : Path) : Prop :=
  Utils.node_at fs p = None
  ∨ Utils.node_at fs p = Some Dir
  ∨ PyStr.lower (Pathlib.suffix p) ≠ ".pdf"
  ∨ (∃ sz msg, Utils.node_at fs p = Some (File sz (inl msg)))
  ∨ (∃ sz d, Utils.node_at fs p = Some (File sz (inr d)) ∧ doc_pages d = 0%nat).

(** The ways an output path fails validation: it has the wrong extension,
    it exists and may not be overwritten, its parent is missing and cannot be
    created, or its parent is a regular file. *)
Definition output_rejected {sv : Services} (fs : FS) (p : Path) (overwrite : bool) : Prop :=
  PyStr.lower (Pathlib.suffix p) ≠ ".docx"
  ∨ (Utils.node_at fs p ≠ None ∧ overwrite = false)
  ∨ (Utils.node_at fs (Pathlib.parent p) = None ∧
     ∃ e t, Utils.mkdir_parents (Pathlib.parent p) fs = (Raise e, fs, t))
  ∨ (∃ sz c, Utils.node_at fs (Pathlib.parent p) = Some (File sz c)).

(** The output path [__init__] settles on. *)
Definition output_path (pdf_path : Path) (docx_path : option Path) : exn + Path :=
  match docx_path with
  | Some p => inr p
  | None => Pathlib.with_suffix pdf_path ".docx"
  end.

(** The page count PyMuPDF reports for the file at [p]; [0] when it cannot
    open it. *)
Definition pages_at (fs : FS) (p : Path) : nat :=
  match Utils.node_at fs p with
  | Some (File _ (inr d)) => doc_pages d
  | _ => 0%nat
  end.

End Observed.

(** ** Sample worlds *)

Module Samples.

Import Config Utils Converter Cli.

(** Collaborators that never fail: the conversion writes the output file. *)
Definition sv_ok : Services := {|
  mkdir_error := λ _ _, None;
  copy_error := λ _ _ _, None;
  session_open := λ _ _, None;
  session_convert := λ fs _ out _ _, (None, <[out := File 10 (inl "Not a PDF")]> fs);
  format_file_size := λ z, pretty z +:+ " B"
|}.

(** A conversion that reports success and writes nothing. *)
Definition sv_silent : Services := {|
  mkdir_error := λ _ _, None;
  copy_error := λ _ _ _, None;
  session_open := λ _ _, None;
  session_convert := λ fs _ _ _ _, (None, fs);
  format_file_size := λ z, pretty z +:+ " B"
|}.

(** A session that cannot be opened. *)
Definition sv_no_open : Services := {|
  mkdir_error := λ _ _, None;
  copy_error := λ _ _ _, None;
  session_open := λ _ _, Some (LibraryError "cannot open");
  session_convert := λ fs _ _ _ _, (None, fs);
  format_file_size := λ z, pretty z +:+ " B"
|}.

(** A conversion interrupted from the keyboard. *)
Definition sv_interrupt : Services := {|
  mkdir_error := λ _ _, None;
  copy_error := λ _ _ _, None;
  session_open := λ _ _, None;
  session_convert := λ fs _ _ _ _, (Some KeyboardInterrupt, fs);
  format_file_size := λ z, pretty z +:+ " B"
|}.

(** A copy that the operating system refuses. *)
Definition sv_no_copy : Services := {|
  mkdir_error := λ _ _, None;
  copy_error := λ _ _ _, Some "Permission denied";
  session_open := λ _ _, None;
  session_convert := λ fs _ out _ _, (None, <[out := File 10 (inl "Not a PDF")]> fs);
  format_file_size := λ z, pretty z +:+ " B"
|}.

Definition doc5 : Doc :=
  {| doc_pages := 5; doc_encrypted := false; doc_metadata := [] |}.

(** A directory holding a five-page [doc.pdf]. *)
Definition fs_doc : FS := {[ ["doc.pdf"] := File 100 (inr doc5) ]}.

(** The same with an earlier [doc.docx]. *)
Definition fs_doc_out : FS :=
  <[ ["doc.docx"] := File 7 (inl "Not a PDF") ]> fs_doc.

Definition logger0 : Logger := {| logger_verbose := true; logger_file := None |}.

(** A converter for [doc.pdf] as [__init__] leaves it. *)
Definition conv0 (cfg : ConversionConfig) (cb : option callback) : PDFToDOCXConverter := {|
  pdf_path := ["doc.pdf"];
  docx_path := ["doc.docx"];
  config := cfg;
  logger := logger0;
  converter := None;
  progress_callback := cb
|}.

Definition cfg_range (start : Z) (stop : option Z) : ConversionConfig := {|
  start_page := start;
  end_page := stop;
  multi_processing := false;
  cpu_count := None;
  preserve_layout := true;
  preserve_images := true;
  preserve_tables := true;
  overwrite := false;
  Config.create_backup := false;
  table_settings := default_table_settings;
  verbose := true;
  log_file := None
|}.

(** Overwriting with a backup. *)
Definition cfg_backup : ConversionConfig := {|
  start_page := 0;
  end_page := None;
  multi_processing := false;
  cpu_count := None;
  preserve_layout := true;
  preserve_images := true;
  preserve_tables := true;
  overwrite := true;
  Config.create_backup := true;
  table_settings := default_table_settings;
  verbose := true;
  log_file := None
|}.

(** The command line [prog doc.pdf]. *)
Definition args_doc : Args := {|
  args_pdf_path := "doc.pdf";
  args_output := None;
  args_start_page := 0;
  args_end_page := None;
  args_overwrite := false;
  args_backup := false;
  args_verbose := true;
  args_quiet := false;
  args_log_file := None;
  args_multi_processing := false;
  args_cpu_count := None
|}.

End Samples.

(** ** format_file_size *)

Module FormatSize.

(** [format_file_size] of [utils.py] on the sizes a file can have. For an
    integer [0 <= n < 2^53] every value the loop holds is [n / 1024^j], which
    a double represents exactly, so the comparisons with [1024.0] and the
    divisions by it are those of the rationals, and [:.2f] prints the exact
    value rounded to hundredths, ties to the even hundredth. The value is kept
    as the fraction [num / den]. *)

(** The nearest integer to [a / d], ties to even, for [0 <= a] and [0 < d]. *)
Definition round_half_even (a d : Z) : Z :=
  let q := a / d in
  let r := a mod d in
  if 2 * r <? d then q
  else if d <? 2 * r then q + 1
  else if Z.even q then q else q + 1.

(** The hundredths [:.2f] prints for [num / den]. *)
Definition hundredths (num den : Z) : Z := round_half_even (100 * num) den.

(** Two decimal digits. *)
Definition two_digits (k : Z) : string :=
  if k <? 10 then "0" +:+ pretty k else pretty k.

(** [f"{x:.2f}"] for [x = num / den >= 0]. *)
Definition fmt2 (num den : Z) : string :=
  let h := hundredths num den in
  pretty (h / 100) +:+ "." +:+ two_digits (h mod 100).

(** The [for unit in ...] loop; past the last unit the value is printed in
    ["PB"]. *)
Fixpoint format_loop (units : list string) (num den : Z) : string :=
  match units with
  | [] => fmt2 num den +:+ " PB"
  | unit :: units' =>
      if num <? 1024 * den then fmt2 num den +:+ " " +:+ unit
      else format_loop units' num (den * 1024)
  end.

Definition format_file_size (size_bytes : Z) : string :=
  format_loop ["B"; "KB"; "MB"; "GB"; "TB"] size_bytes 1.

(** The unit of a size: the number of divisions by 1024 the loop makes, at
    most five. *)
Fixpoint unit_index (fuel : nat) (num den : Z) : nat :=
  match fuel with
  | O => O
  | S fuel' => if num <? 1024 * den then O else S (unit_index fuel' num (den * 1024))
  end.

Definition unit_name (j : nat) : string :=
  nth j ["B"; "KB"; "MB"; "GB"; "TB"] "PB".

End FormatSize.

(** ** Where an event goes *)

Module Channels.

Inductive channel : Type :=
| ChRead      (* tests and stat of the file system *)
| ChFitz      (* PyMuPDF *)
| ChMkdir
| ChCopy
| ChSession   (* pdf2docx *)
| ChLogging
| ChCallback
| ChStdout
| ChStderr
| ChTraceback (* traceback.print_exc(), on stderr *).

Global Instance channel_eq_dec : EqDecision channel.
Proof. solve_decision. Defined.

Definition channel_of (e : event) : channel :=
  match e with
  | EvExists _ | EvIsFile _ | EvIsDir _ | EvStat _ => ChRead
  | EvFitzOpen _ | EvFitzClose _ => ChFitz
  | EvMkdir _ => ChMkdir
  | EvCopy _ _ => ChCopy
  | EvSessionOpen _ _ | EvSessionConvert _ _ _ _ | EvSessionClose _ => ChSession
  | EvLogSetup _ _ | EvLog _ _ _ => ChLogging
  | EvCallback _ _ _ => ChCallback
  | EvPrint false _ => ChStdout
  | EvPrint true _ => ChStderr
  | EvTraceback => ChTraceback
  end.

(** A trace that stays within the channels [cs]. *)
Definition only (cs : list channel) (t : list event) : Prop :=
  Forall (λ e, channel_of e ∈ cs) t.

(** A computation all of whose runs stay within [cs]. *)
Definition confined {S A} (cs : list channel) (m : M S A) : Prop :=
  ∀ s, only cs (m s).2.

(** A computation that raises only exceptions in [P]. *)
Definition raises {S A} (P : exn → Prop) (m : M S A) : Prop :=
  ∀ s s' t e, m s = (Raise e, s', t) → P e.

(** A computation that ends: it returns or raises within the steps it is
    given. *)
Definition ends {S A} (m : M S A) : Prop :=
  ∀ s s' t, m s ≠ (OutOfFuel, s', t).

End Channels.

(** ** examples/basic_usage.py and examples/advanced_usage.py *)

Module Examples.

Import Config Utils Converter.

Section WithServices.
Context {sv : Services}.

(** [with mgr as v: body] for a converter: [__enter__], the body, and
    [__exit__] on every exit of the body; an exception is raised again unless
    [__exit__] returned a true value. *)
Definition with_statement (body : M St unit) : M St unit :=
  __enter__;;
  λ s,
    match body s with
    | (OutOfFuel, s1, t1) => (OutOfFuel, s1, t1)
    | (Ok _, s1, t1) =>
        let '(r, s2, t2) := __exit__ s1 in
        (match r with
         | Ok _ => Ok tt
         | Raise e => Raise e
         | OutOfFuel => OutOfFuel
         end, s2, t1 ++ t2)
    | (Raise e, s1, t1) =>
        let '(r, s2, t2) := __exit__ s1 in
        (match r with
         | Ok suppress => if suppress then Ok tt else Raise e
         | Raise e' => Raise e'
         | OutOfFuel => OutOfFuel
         end, s2, t1 ++ t2)
    end.

(** *** basic_usage.py *)

Definition simple_conversion : M FS unit :=
  converter ← __init__ (Pathlib.of_string "input.pdf")
                 (Some (Pathlib.of_string "output.docx")) None;
  result ← with_self converter convert;
  print ("Converted to: " +:+ Pathlib.str result).

Definition context_manager_example : M FS unit :=
  converter ← __init__ (Pathlib.of_string "input.pdf")
                 (Some (Pathlib.of_string "output.docx")) None;
  with_self converter
    (with_statement
       (result ← convert;
        print ("Converted to: " +:+ Pathlib.str result))).

(** *** advanced_usage.py *)

Definition validation_config : ConversionConfig := {|
  start_page := 0;
  end_page := None;
  multi_processing := false;
  cpu_count := None;
  preserve_layout := true;
  preserve_images := true;
  preserve_tables := true;
  overwrite := true;
  Config.create_backup := true;
  table_settings := default_table_settings;
  verbose := true;
  log_file := None
|}.

Definition conversion_with_validation : M FS unit :=
  let pdf_path := Pathlib.of_string "input.pdf" in
  info ← get_file_info pdf_path;
  print "PDF Information:";;
  print ("  Name: " +:+ info_name info);;
  print ("  Size: " +:+ format_file_size (info_size info));;
  print ("  Pages: " +:+ pretty (info_pages info));;
  print ("  Encrypted: " +:+ PyStr.of_bool (info_encrypted info));;
  if info_encrypted info then
    print "  ⚠ Warning: PDF is encrypted"
  else
  '(is_valid, error) ← validate_pdf pdf_path;
  if negb is_valid then
    print ("Error: " +:+ fmt_opt error)
  else
  let config := validation_config in
  docx_path ← of_sum (Pathlib.with_suffix pdf_path ".docx");
  converter ← __init__ pdf_path (Some docx_path) (Some config);
  try_except
    (result ← with_self converter convert;
     output_size ← stat_size result;
     print (PyStr.nl +:+ "✓ Conversion successful!");;
     print ("  Output: " +:+ Pathlib.str result);;
     print ("  Size: " +:+ format_file_size output_size))
    (λ e, print (PyStr.nl +:+ "✗ Conversion failed: " +:+ exn_str e)).

End WithServices.

End Examples.

(** ** What the further properties observe *)

Module Observed2.

Import Config Utils Converter Cli.

(** The configuration [main] builds from the parsed arguments. *)
Definition args_config (parsed_args : Args) (verbose : bool) : ConversionConfig := {|
  start_page := args_start_page parsed_args;
  end_page := args_end_page parsed_args;
  multi_processing := args_multi_processing parsed_args;
  cpu_count := args_cpu_count parsed_args;
  preserve_layout := true;
  preserve_images := true;
  preserve_tables := true;
  overwrite := args_overwrite parsed_args;
  Config.create_backup := args_backup parsed_args;
  table_settings := default_table_settings;
  Config.verbose := verbose;
  log_file := Pathlib.of_string <$> truthy_opt (args_log_file parsed_args)
|}.

(** The output path [main] settles on: the one given, or the input path with
    the extension [.docx] when none or an empty one is given. *)
Definition args_docx_path (parsed_args : Args) : exn + Path :=
  match truthy_opt (args_output parsed_args) with
  | Some o => inr (Pathlib.of_string o)
  | None => Pathlib.with_suffix (Pathlib.of_string (args_pdf_path parsed_args)) ".docx"
  end.

(** [k] successive calls of [create_backup] on [p], the results in order. *)
Fixpoint backups {sv : Services} (k : nat) (p : Path) : M FS (list (option Path)) :=
  match k with
  | O => ret []
  | S k' =>
      b ← Utils.create_backup p;
      bs ← backups k' p;
      ret (b :: bs)
  end.

(** The conversion calls of a trace, with their arguments. *)
Definition conversions (t : list event) : list (Path * Path * Z * option Z) :=
  omap (λ e, match e with
             | EvSessionConvert p out start stop => Some (p, out, start, stop)
             | _ => None
             end) t.

(** Whether PyMuPDF reports the file at [p] as encrypted; [false] when it
    cannot open it. *)
Definition encrypted_at (fs : FS) (p : Path) : bool :=
  match Utils.node_at fs p with
  | Some (File _ (inr d)) => doc_encrypted d
  | _ => false
  end.

(** The converter [self] with another configuration. *)
Definition with_config (cfg : ConversionConfig) (self : PDFToDOCXConverter)
  : PDFToDOCXConverter := {|
  pdf_path := pdf_path self;
  docx_path := docx_path self;
  config := cfg;
  logger := logger self;
  converter := converter self;
  progress_callback := progress_callback self
|}.

(** The four records [_log_file_info] always writes. *)
Definition info_records {sv : Services} (info : FileInfo) : list event :=
  [EvLog "pdf_to_docx" INFO ("PDF File: " +:+ info_name info);
   EvLog "pdf_to_docx" INFO ("Size: " +:+ format_file_size (info_size info));
   EvLog "pdf_to_docx" INFO ("Pages: " +:+ pretty (info_pages info));
   EvLog "pdf_to_docx" INFO ("Encrypted: " +:+ PyStr.of_bool (info_encrypted info))].

(** The record it adds for an encrypted document. *)
Definition encrypted_warning : event :=
  EvLog "pdf_to_docx" WARNING
    "PDF is encrypted. Conversion may fail if password is required.".

End Observed2.

(** ** More sample worlds *)

Module Samples2.

Import Config Utils Converter Cli Samples.

(** A configuration that differs from the default one in the settings for
    parallel work and for the layout. *)
Definition cfg_parallel : ConversionConfig := {|
  start_page := 0;
  end_page := None;
  multi_processing := true;
  cpu_count := Some 4;
  preserve_layout := false;
  preserve_images := false;
  preserve_tables := false;
  overwrite := true;
  Config.create_backup := false;
  table_settings := [];
  verbose := false;
  log_file := None
|}.

Definition doc_locked : Doc :=
  {| doc_pages := 3; doc_encrypted := true; doc_metadata := [] |}.

(** A directory holding an encrypted [doc.pdf]. *)
Definition fs_locked : FS := {[ ["doc.pdf"] := File 100 (inr doc_locked) ]}.

(** The command line [prog doc.pdf --quiet]. *)
Definition args_quiet_doc : Args := {|
  args_pdf_path := "doc.pdf";
  args_output := None;
  args_start_page := 0;
  args_end_page := None;
  args_overwrite := false;
  args_backup := false;
  args_verbose := true;
  args_quiet := true;
  args_log_file := None;
  args_multi_processing := false;
  args_cpu_count := None
|}.

(** The command line [prog doc.pdf --start-page 3 --end-page 1]. *)
Definition args_bad_range : Args := {|
  args_pdf_path := "doc.pdf";
  args_output := None;
  args_start_page := 3;
  args_end_page := Some 1;
  args_overwrite := false;
  args_backup := false;
  args_verbose := true;
  args_quiet := false;
  args_log_file := None;
  args_multi_processing := false;
  args_cpu_count := None
|}.

End Samples2.

(** ** File tests that the operating system may refuse *)

(** [Path.exists()], [Path.is_file()] and [Path.is_dir()] call [os.stat] and
    absorb only the errors that say that the path is not there ([ENOENT],
    [ENOTDIR], [EBADF], [ELOOP]); any other [OSError] is raised to the caller:
    [ENAMETOOLONG] for a name longer than the file system allows, [EACCES] for
    a directory that may not be searched. [Utils], [Converter] and [Cli] above
    are the code under an operating system that answers every test and that
    reports a directory with size [0]. The modules below translate the same
    functions of the source for an operating system that may refuse: a path
    is refused or it is not, whatever the files are, and the message is that
    of the [OSError]; a directory has the size the operating system gives
    it. *)
Class Os : Type := {
  stat_refused : Path → option string;
  dir_size : Path → Z
}.

(** *** utils.py *)

Module OsUtils.

Import Utils.

Section WithServices.
Context {sv : Services} {os : Os}.

(** [os.stat(p)] as far as a file test needs it. *)
Definition stat_node (p : Path) : M FS (option node) :=
  match stat_refused p with
  | Some msg => raise (OSError msg)
  | None => fs ← get; ret (node_at fs p)
  end.

(** [p.exists()]. *)
Definition path_exists (p : Path) : M FS bool :=
  emit (EvExists p);;
  nd ← stat_node p;
  ret (match nd with Some _ => true | None => false end).

(** [p.is_file()]. *)
Definition path_is_file (p : Path) : M FS bool :=
  emit (EvIsFile p);;
  nd ← stat_node p;
  ret (match nd with Some (File _ _) => true | _ => false end).

(** [p.is_dir()]. *)
Definition path_is_dir (p : Path) : M FS bool :=
  emit (EvIsDir p);;
  nd ← stat_node p;
  ret (match nd with Some Dir => true | _ => false end).

(** [p.stat().st_size]. *)
Definition stat_size (p : Path) : M FS Z :=
  emit (EvStat p);;
  nd ← stat_node p;
  match nd with
  | Some (File sz _) => ret sz
  | Some Dir => ret (dir_size p)
  | None => raise (OSError ("No such file or directory: " +:+ PyStr.repr (Pathlib.str p)))
  end.

(** *** validate_pdf *)

Definition validate_pdf (pdf_path : Path) : M FS (bool * option string) :=
  ex ← path_exists pdf_path;
  if negb ex then
    ret (false, Some ("File not found: " +:+ Pathlib.str pdf_path))
  else
  isf ← path_is_file pdf_path;
  if negb isf then
    ret (false, Some ("Path is not a file: " +:+ Pathlib.str pdf_path))
  else
  if negb (bool_decide (PyStr.lower (Pathlib.suffix pdf_path) = ".pdf")) then
    ret (false, Some ("File is not a PDF: " +:+ Pathlib.str pdf_path))
  else
  try_except
    (doc ← fitz_open pdf_path;
     let page_count := doc_pages doc in
     fitz_close pdf_path;;
     if bool_decide (page_count = 0%nat) then
       ret (false, Some "PDF has no pages")
     else
       ret (true, None))
    (λ e, ret (false, Some ("Invalid PDF file: " +:+ exn_str e))).

(** *** validate_output_path *)

Definition validate_output_path (docx_path : Path) (overwrite : bool)
  : M FS (bool * option string) :=
  if negb (bool_decide (PyStr.lower (Pathlib.suffix docx_path) = ".docx")) then
    ret (false, Some ("Output file must have .docx extension: " +:+ Pathlib.str docx_path))
  else
  ex ← path_exists docx_path;
  if ex && negb overwrite then
    ret (false, Some ("Output file already exists: " +:+ Pathlib.str docx_path
                       +:+ ". Use overwrite=True to replace."))
  else
  let parent := Pathlib.parent docx_path in
  pex ← path_exists parent;
  r ← (if negb pex then
         try_except (mkdir_parents parent;; ret None)
           (λ e, ret (Some ("Cannot create output directory: " +:+ exn_str e)))
       else ret None);
  match r with
  | Some msg => ret (false, Some msg)
  | None =>
      isd ← path_is_dir parent;
      if negb isd then
        ret (false, Some ("Output path parent is not a directory: " +:+ Pathlib.str parent))
      else
        ret (true, None)
  end.

(** *** get_file_info *)

Definition get_file_info (pdf_path : Path) : M FS FileInfo :=
  ex ← path_exists pdf_path;
  size ← (if ex then stat_size pdf_path else ret 0);
  let info := {|
    info_path := Pathlib.str pdf_path;
    info_name := Pathlib.name pdf_path;
    info_size := size;
    info_pages := 0;
    info_encrypted := false;
    info_metadata := []
  |} in
  try_except
    (doc ← fitz_open pdf_path;
     let info := {|
       info_path := info_path info;
       info_name := info_name info;
       info_size := info_size info;
       info_pages := doc_pages doc;
       info_encrypted := doc_encrypted doc;
       info_metadata := doc_metadata doc
     |} in
     fitz_close pdf_path;;
     ret info)
    (λ e, log "root" WARNING ("Could not read PDF info: " +:+ exn_str e);;
          ret info).

(** *** create_backup *)

(** The [while backup_path.exists()] loop, for at most [fuel] probes. *)
Fixpoint backup_probe (fuel : nat) (file_path backup_path : Path) (counter : Z)
  : M FS Path :=
  match fuel with
  | O => out_of_fuel
  | S fuel' =>
      ex ← path_exists backup_path;
      if ex then
        backup_path' ← of_sum (Pathlib.with_suffix file_path
                        (Pathlib.suffix file_path +:+ ".bak." +:+ pretty counter));
        backup_probe fuel' file_path backup_path' (counter + 1)
      else
        ret backup_path
  end.

(** [create_backup]; the tests of the file and of the backup names are
    outside the [try] statement, which holds the copy alone. The loop is
    given one probe more than the file system has entries. *)
Definition create_backup (file_path : Path) : M FS (option Path) :=
  ex ← path_exists file_path;
  if negb ex then ret None
  else
  backup_path ← of_sum (Pathlib.with_suffix file_path
                  (Pathlib.suffix file_path +:+ ".bak"));
  let counter := 1 in
  fs ← get;
  backup_path ← backup_probe (S (size fs)) file_path backup_path counter;
  try_except
    (copy2 file_path backup_path;;
     ret (Some backup_path))
    (λ e, log "root" ERROR ("Failed to create backup: " +:+ exn_str e);;
          ret None).

End WithServices.

End OsUtils.

(** *** converter.py *)

Module OsConverter.

Import Config Utils Converter.

Section WithServices.
Context {sv : Services} {os : Os}.

Definition __init__ (pdf_path : Path) (docx_path : option Path)
  (config : option ConversionConfig) : M FS PDFToDOCXConverter :=
  let self_pdf_path := pdf_path in
  let self_config := default DEFAULT_CONFIG config in
  '(is_valid, error) ← OsUtils.validate_pdf self_pdf_path;
  if negb is_valid then
    raise (ValueError ("Invalid PDF file: " +:+ fmt_opt error))
  else
  self_docx_path ← match docx_path with
                   | Some p => ret p
                   | None => of_sum (Pathlib.with_suffix self_pdf_path ".docx")
                   end;
  '(is_valid, error) ← OsUtils.validate_output_path self_docx_path (overwrite self_config);
  if negb is_valid then
    raise (ValueError ("Invalid output path: " +:+ fmt_opt error))
  else
  self_logger ← setup_logging (verbose self_config) (log_file self_config);
  ret {|
    pdf_path := self_pdf_path;
    docx_path := self_docx_path;
    config := self_config;
    logger := self_logger;
    converter := None;
    progress_callback := None
  |}.

Definition _log_file_info : M St unit :=
  self ← get_self;
  info ← lift_fs (OsUtils.get_file_info (pdf_path self));
  logger_info ("PDF File: " +:+ info_name info);;
  logger_info ("Size: " +:+ format_file_size (info_size info));;
  logger_info ("Pages: " +:+ pretty (info_pages info));;
  logger_info ("Encrypted: " +:+ PyStr.of_bool (info_encrypted info));;
  if info_encrypted info then
    logger_warning "PDF is encrypted. Conversion may fail if password is required."
  else ret tt.

Definition _create_backup_if_needed : M St unit :=
  self ← get_self;
  ex ← lift_fs (OsUtils.path_exists (docx_path self));
  if ex && Config.create_backup (config self) then
    backup_path ← lift_fs (OsUtils.create_backup (docx_path self));
    match backup_path with
    | Some b => logger_info ("Created backup: " +:+ Pathlib.str b)
    | None => logger_warning "Failed to create backup"
    end
  else ret tt.

(** The body of the [try] statement; its two file tests are inside it. *)
Definition convert_body : M St Path :=
  self ← get_self;
  session ← Converter_open (pdf_path self);
  update_self (set_converter (Some session));;
  let start := start_page (config self) in
  let stop := end_page (config self) in
  Converter_convert session (docx_path self) start stop;;
  ex ← lift_fs (OsUtils.path_exists (docx_path self));
  if negb ex then
    raise (RuntimeError msg_not_created None)
  else
  output_size ← lift_fs (OsUtils.stat_size (docx_path self));
  logger_info "Conversion complete!";;
  logger_info ("Output file: " +:+ Pathlib.str (docx_path self));;
  logger_info ("Output size: " +:+ format_file_size output_size);;
  ret (docx_path self).

(** The [try] statement as a whole. *)
Definition convert_try : M St Path :=
  try_finally (try_except convert_body convert_handler) convert_finally.

(** What [convert] does between the check of the configuration and the two
    log lines that announce the conversion. *)
Definition convert_prepare : M St unit :=
  _log_file_info;; _create_backup_if_needed.

Definition convert : M St Path :=
  self ← get_self;
  let config_errors := validate (config self) in
  match config_errors with
  | _ :: _ =>
      raise (ValueError ("Invalid configuration: " +:+ PyStr.join ", " config_errors))
  | [] =>
      _log_file_info;;
      _create_backup_if_needed;;
      logger_info ("Starting conversion to: " +:+ Pathlib.str (docx_path self));;
      logger_info "This may take a moment depending on PDF complexity...";;
      convert_try
  end.

End WithServices.

End OsConverter.

(** *** cli.py *)

Module OsCli.

Import Config Utils Converter Cli.

Section WithServices.
Context {sv : Services} {os : Os}.

Definition print_file_info (pdf_path : Path) : M FS unit :=
  info ← OsUtils.get_file_info pdf_path;
  print (PyStr.nl +:+ "PDF Information:");;
  print ("  File: " +:+ info_name info);;
  print ("  Size: " +:+ format_file_size (info_size info));;
  print ("  Pages: " +:+ pretty (info_pages info));;
  print ("  Encrypted: " +:+ PyStr.of_bool (info_encrypted info));;
  (if info_encrypted info then print "  ⚠ Warning: PDF is encrypted" else ret tt);;
  print "".

(** The body of the [try] statement of [main]; every file test of [main] is
    inside it. *)
Definition main_body (parsed_args : Args) (verbose : bool) : M FS Z :=
  let pdf_path := Pathlib.of_string (args_pdf_path parsed_args) in
  ex ← OsUtils.path_exists pdf_path;
  if negb ex then
    eprint ("Error: PDF file not found: " +:+ Pathlib.str pdf_path);;
    ret 1
  else
  docx_path ← match truthy_opt (args_output parsed_args) with
              | Some o => ret (Pathlib.of_string o)
              | None => of_sum (Pathlib.with_suffix pdf_path ".docx")
              end;
  (if verbose then print_file_info pdf_path else ret tt);;
  let config := {|
    start_page := args_start_page parsed_args;
    end_page := args_end_page parsed_args;
    multi_processing := args_multi_processing parsed_args;
    cpu_count := args_cpu_count parsed_args;
    preserve_layout := true;
    preserve_images := true;
    preserve_tables := true;
    overwrite := args_overwrite parsed_args;
    Config.create_backup := args_backup parsed_args;
    table_settings := default_table_settings;
    Config.verbose := verbose;
    log_file := Pathlib.of_string <$> truthy_opt (args_log_file parsed_args)
  |} in
  converter ← OsConverter.__init__ pdf_path (Some docx_path) (Some config);
  result_path ← with_self converter OsConverter.convert;
  (if verbose then
     print (PyStr.nl +:+ "✓ Conversion successful!");;
     print ("  Output: " +:+ Pathlib.str result_path);;
     output_size ← OsUtils.stat_size result_path;
     print ("  Size: " +:+ format_file_size output_size)
   else ret tt);;
  ret 0.

(** [main], from the parsed arguments on. *)
Definition main (parsed_args : Args) : M FS Z :=
  let verbose := args_verbose parsed_args && negb (args_quiet parsed_args) in
  try_except_interrupt
    (main_body parsed_args verbose)
    (eprint (PyStr.nl +:+ PyStr.nl +:+ "Conversion cancelled by user.");;
     ret 130)
    (λ e, eprint (PyStr.nl +:+ "Error: " +:+ exn_str e);;
          (if verbose then emit EvTraceback else ret tt);;
          ret 1).

End WithServices.

End OsCli.

(** *** examples/advanced_usage.py *)

Module OsExamples.

Import Config Utils Converter.

Section WithServices.
Context {sv : Services} {os : Os}.

(** The [try] statement of the loop of [batch_conversion]. *)
Definition batch_convert (pdf_file : string) (results : list Path)
  : M FS (list Path) :=
  let pdf_path := Pathlib.of_string pdf_file in
  try_except
    (docx_path ← of_sum (Pathlib.with_suffix pdf_path ".docx");
     converter ← OsConverter.__init__ pdf_path (Some docx_path) None;
     result ← with_self converter OsConverter.convert;
     let results := results ++ [result] in
     print ("✓ Converted: " +:+ pdf_file +:+ " -> " +:+ Pathlib.str result);;
     ret results)
    (λ e, print ("✗ Failed to convert " +:+ pdf_file +:+ ": " +:+ exn_str e);;
          ret results).

(** One turn of the loop: the two tests, which are outside the [try]
    statement, and the conversion. *)
Definition batch_round (pdf_file : string) (results : list Path)
  : M FS (list Path) :=
  let pdf_path := Pathlib.of_string pdf_file in
  ex ← OsUtils.path_exists pdf_path;
  if negb ex then
    print ("Skipping " +:+ pdf_file +:+ ": file not found");;
    ret results
  else
  '(is_valid, error) ← OsUtils.validate_pdf pdf_path;
  if negb is_valid then
    print ("Skipping " +:+ pdf_file +:+ ": " +:+ fmt_opt error);;
    ret results
  else
  batch_convert pdf_file results.

(** The [for pdf_file in pdf_files] loop of [batch_conversion], run over the
    files still to do; [results] is the list the loop appends to. *)
Fixpoint batch_loop (pdf_files : list string) (results : list Path)
  : M FS (list Path) :=
  match pdf_files with
  | [] => ret results
  | pdf_file :: rest =>
      results ← batch_round pdf_file results;
      batch_loop rest results
  end.

(** [batch_conversion] over the list [pdf_files]. *)
Definition batch_conversion_of (pdf_files : list string) : M FS unit :=
  results ← batch_loop pdf_files [];
  print (PyStr.nl +:+ "Batch conversion complete: "
         +:+ pretty (length results) +:+ "/" +:+ pretty (length pdf_files)
         +:+ " files converted").

Definition batch_conversion : M FS unit :=
  batch_conversion_of ["document1.pdf"; "document2.pdf"; "document3.pdf"].

End WithServices.

End OsExamples.

(** *** What the properties of the loop observe *)

Module OsObserved.

(** The lines a run printed on standard output, in order. *)
Definition prints (t : list event) : list string :=
  omap (λ e, match e with
             | EvPrint false msg => Some msg
             | _ => None
             end) t.

(** The line the loop of [batch_conversion] prints for a file: it was
    skipped, it was converted, or its conversion failed. *)
Definition batch_report (pdf_file msg : string) : Prop :=
  (∃ why, msg = "Skipping " +:+ pdf_file +:+ ": " +:+ why)
  ∨ (∃ q, msg = "✓ Converted: " +:+ pdf_file +:+ " -> " +:+ Pathlib.str q)
  ∨ (∃ why, msg = "✗ Failed to convert " +:+ pdf_file +:+ ": " +:+ why).

(** pdf2docx raises nothing but an [Exception]: no conversion is
    interrupted. *)
Definition never_interrupted (sv : Services) : Prop :=
  (∀ fs p e, session_open fs p = Some e → is_Exception e = true) ∧
  (∀ fs p out start stop e fs',
     session_convert fs p out start stop = (Some e, fs') → is_Exception e = true).

End OsObserved.

(** *** Sample worlds *)

Module OsSamples.

Import Config Utils Converter Cli Samples.

(** The longest name a component of a path may have. *)
Definition NAME_MAX : nat := 255.

(** An operating system that answers every test. *)
Definition os_ok : Os := {|
  stat_refused := λ _, None;
  dir_size := λ _, 4096
|}.

(** An operating system that refuses a path with a component longer than
    [NAME_MAX]. *)
Definition os_name_max : Os := {|
  stat_refused := λ p,
    if existsb (λ c, Nat.ltb NAME_MAX (String.length c)) p
    then Some ("[Errno 36] File name too long: " +:+ PyStr.repr (Pathlib.str p))
    else None;
  dir_size := λ _, 4096
|}.

(** [n] times the letter [a]. *)
Fixpoint letters (n : nat) : string :=
  match n with
  | O => ""
  | S n' => String "a" (letters n')
  end.

(** A name of 256 characters, and one of 255 that a backup suffix makes too
    long. *)
Definition long_pdf : Path := [letters 252 +:+ ".pdf"].
Definition long_docx : Path := [letters 250 +:+ ".docx"].

(** A directory holding [doc.pdf] and an earlier output under the long
    name. *)
Definition fs_long_out : FS :=
  <[ long_docx := File 7 (inl "Not a PDF") ]> fs_doc.

(** A converter of [doc.pdf] to the long name, overwriting with a backup. *)
Definition conv_long : PDFToDOCXConverter := {|
  pdf_path := ["doc.pdf"];
  docx_path := long_docx;
  config := cfg_backup;
  logger := logger0;
  converter := None;
  progress_callback := None
|}.

(** The command line [prog <name of 256 characters>.pdf]. *)
Definition args_long : Args := {|
  args_pdf_path := letters 252 +:+ ".pdf";
  args_output := None;
  args_start_page := 0;
  args_end_page := None;
  args_overwrite := false;
  args_backup := false;
  args_verbose := true;
  args_quiet := false;
  args_log_file := None;
  args_multi_processing := false;
  args_cpu_count := None
|}.

End OsSamples.

(** * Properties *)

(** ** ConversionConfig.validate *)

Module ConfigSpec.

Import Config.

Lemma validate_cases (c : ConversionConfig) :
  validate c =
    (if start_page c <? 0 then [err_start_page] else []) ++
    (match end_page c with
     | Some e => if e <? start_page c then [err_end_page] else []
     | None => []
     end) ++
    (match cpu_count c with
     | Some n => if n <? 1 then [err_cpu_count] else []
     | None => []
     end).
Proof.
  unfold validate.
  destruct (start_page c <? 0); destruct (end_page c) as [e|];
    destruct (cpu_count c) as [n|]; simpl;
    repeat match goal with |- context [if ?b then _ else _] => destruct b end;
    reflexivity.
Qed.

(** C4. [validate] reports each of the three violations that holds
    (a negative [start_page], an [end_page] below [start_page], a [cpu_count]
    below one), all of them together, and returns the empty list exactly when
    none holds. *)
Theorem validate_reports_every_violation (c : ConversionConfig) :
  (err_start_page ∈ validate c ↔ bad_start c) ∧
  (err_end_page ∈ validate c ↔ bad_range c) ∧
  (err_cpu_count ∈ validate c ↔ bad_cpu c) ∧
  (validate c = [] ↔ ¬ bad_start c ∧ ¬ bad_range c ∧ ¬ bad_cpu c).
Proof.
  rewrite validate_cases. unfold bad_start, bad_range, bad_cpu.
  unfold err_start_page, err_end_page, err_cpu_count.
  destruct (Z.ltb_spec (start_page c) 0) as [Hs|Hs];
    destruct (end_page c) as [e|];
    destruct (cpu_count c) as [n|];
    try destruct (Z.ltb_spec e (start_page c)) as [He|He];
    try destruct (Z.ltb_spec n 1) as [Hn|Hn];
    simpl; repeat split;
    rewrite ?elem_of_cons, ?elem_of_nil;
    try discriminate; try lia; try tauto; try (by eauto);
    try (intros [[=] | [[=] | []]]); try (intros [[=] | []]);
    try (intros [x [[=] ?]]; subst; lia);
    try (intros (? & ? & ?); eauto; lia);
    intros (? & Hr & Hc); exfalso;
    first [ apply Hr; eexists; split; [reflexivity | lia]
          | apply Hc; eexists; split; [reflexivity | lia] ].
Qed.

End ConfigSpec.

(** ** Python strings and pathlib *)

Module PathlibSpec.

Import PyStr Pathlib.

Lemma app_cons (a : ascii) (s t : string) : String a s +:+ t = String a (s +:+ t).
Proof. reflexivity. Qed.

Lemma app_empty_l (t : string) : "" +:+ t = t.
Proof. reflexivity. Qed.

Ltac str_simpl := cbn; rewrite ?app_cons, ?app_empty_l; cbn.

Lemma app_empty_r (s : string) : s +:+ "" = s.
Proof. induction s as [|a s IH]; [reflexivity | str_simpl; by rewrite IH]. Qed.

Lemma app_assoc_str (a b c : string) : (a +:+ b) +:+ c = a +:+ b +:+ c.
Proof. induction a as [|x a IH]; [reflexivity | str_simpl; by rewrite IH]. Qed.

Lemma length_app_str (a b : string) :
  String.length (a +:+ b) = (String.length a + String.length b)%nat.
Proof. induction a as [|x a IH]; [reflexivity | str_simpl; by rewrite IH]. Qed.

Lemma take_drop (n : nat) (s : string) : take n s +:+ drop n s = s.
Proof.
  revert s; induction n as [|n IH]; intros [|a s]; str_simpl; try reflexivity.
  by rewrite IH.
Qed.

Lemma length_drop (n : nat) (s : string) :
  String.length (drop n s) = (String.length s - n)%nat.
Proof.
  revert s; induction n as [|n IH]; intros [|a s]; cbn; try reflexivity.
  apply IH.
Qed.

Lemma take_app_length (a b : string) : take (String.length a) (a +:+ b) = a.
Proof. induction a as [|x a IH]; str_simpl; [by destruct b | by rewrite IH]. Qed.

Lemma contains_app (c : ascii) (a b : string) :
  contains c (a +:+ b) = contains c a || contains c b.
Proof.
  induction a as [|x a IH]; str_simpl; [reflexivity|].
  rewrite IH. by destruct (Ascii.eqb x c).
Qed.

Lemma contains_drop (c : ascii) (n : nat) (s : string) :
  contains c s = false → contains c (drop n s) = false.
Proof.
  revert s; induction n as [|n IH]; intros [|a s]; cbn; try done.
  intros [_ H]%orb_false_iff. by apply IH.
Qed.

Lemma rfind_bounds (c : ascii) (s : string) : -1 ≤ rfind c s < len s.
Proof.
  unfold len. induction s as [|a s IH]; cbn [rfind String.length]; [lia|].
  destruct (Z.leb_spec 0 (rfind c s)); [lia|].
  destruct (Ascii.eqb a c); lia.
Qed.

Lemma rfind_drop (c : ascii) (s : string) :
  0 ≤ rfind c s → startswith c (drop (Z.to_nat (rfind c s)) s) = true.
Proof.
  induction s as [|a s IH]; cbn [rfind]; [lia|].
  destruct (Z.leb_spec 0 (rfind c s)) as [Hi|Hi].
  - intros _. replace (Z.to_nat (rfind c s + 1)) with (S (Z.to_nat (rfind c s))) by lia.
    cbn. by apply IH.
  - destruct (Ascii.eqb a c) eqn:Hac; [|lia].
    intros _. cbn. exact Hac.
Qed.

Lemma name_suffix_cases (nm : string) :
  name_suffix nm = "" ∨
  (startswith "."%char (name_suffix nm) = true ∧
   (2 ≤ String.length (name_suffix nm))%nat ∧
   (1 ≤ String.length (name_stem nm))%nat).
Proof.
  unfold name_stem, name_suffix.
  pose proof (rfind_bounds "."%char nm) as Hb. unfold len in *.
  destruct (Z.ltb_spec 0 (rfind "."%char nm)) as [H0|H0]; [|by left].
  destruct (Z.ltb_spec (rfind "."%char nm) (Z.of_nat (String.length nm) - 1)) as [H1|H1];
    [|by left].
  right. cbn [andb]. split; [apply rfind_drop; lia|].
  rewrite length_drop. split; [lia|].
  pose proof (take_drop (Z.to_nat (rfind "."%char nm)) nm) as Htd.
  apply (f_equal String.length) in Htd. rewrite length_app_str, length_drop in Htd.
  replace (String.length nm - (String.length nm - Z.to_nat (rfind "."%char nm)))%nat
    with (Z.to_nat (rfind "."%char nm)) by lia.
  lia.
Qed.

Lemma name_stem_suffix (nm : string) : name_stem nm +:+ name_suffix nm = nm.
Proof.
  unfold name_stem, name_suffix.
  pose proof (rfind_bounds "."%char nm) as Hb. unfold len in *.
  destruct ((0 <? rfind "."%char nm) && (rfind "."%char nm <? Z.of_nat (String.length nm) - 1))
    eqn:Hc.
  - apply andb_true_iff in Hc as [H0%Z.ltb_lt H1%Z.ltb_lt].
    rewrite length_drop.
    replace (String.length nm - (String.length nm - Z.to_nat (rfind "."%char nm)))%nat
      with (Z.to_nat (rfind "."%char nm)) by lia.
    apply take_drop.
  - cbn [String.length]. rewrite Nat.sub_0_r, app_empty_r.
    rewrite <- (app_empty_r nm) at 2. apply take_app_length.
Qed.

Lemma name_suffix_no_sep (nm : string) :
  contains "/"%char nm = false → contains "/"%char (name_suffix nm) = false.
Proof.
  intros H. unfold name_suffix.
  destruct (_ && _); [by apply contains_drop | reflexivity].
Qed.

Lemma truthy_false (s : string) : truthy s = false ↔ s = "".
Proof. by destruct s. Qed.

Lemma truthy_true (s : string) : truthy s = true ↔ s ≠ "".
Proof. by destruct s. Qed.

(** Whenever [with_suffix] succeeds on the old suffix followed by [x], it
    appends [x] to the final component. *)
Lemma with_suffix_inr (p q : Path) (x : string) :
  with_suffix p (suffix p +:+ x) = inr q → q = append_name p x.
Proof.
  unfold with_suffix, append_name.
  destruct (contains _ _); [done|].
  destruct (_ || _); [done|].
  destruct (negb (truthy (name p))); [done|].
  intros [= <-]. f_equal. f_equal.
  destruct (truthy (suffix p)) eqn:Ht; cbn [negb].
  - unfold suffix. fold (name_stem (name p)).
    by rewrite <- app_assoc_str, name_stem_suffix.
  - apply truthy_false in Ht. by rewrite Ht.
Qed.

Lemma with_suffix_append (p : Path) (x : string) :
  wf_name p →
  contains "/"%char x = false → startswith "."%char x = true → x ≠ "." →
  with_suffix p (suffix p +:+ x) = inr (append_name p x).
Proof.
  intros [Hne Hsep] Hx Hdot Hx1.
  destruct (with_suffix p (suffix p +:+ x)) as [e|q] eqn:E;
    [|by apply with_suffix_inr in E as ->].
  exfalso. revert E. unfold with_suffix, suffix.
  rewrite contains_app, Hx, (name_suffix_no_sep _ Hsep). cbn [orb].
  apply truthy_true in Hne. rewrite Hne. cbn [negb].
  destruct (name_suffix_cases (name p)) as [H0|(Hs & Hl & _)].
  - rewrite H0, app_empty_l.
    rewrite Hdot, bool_decide_eq_false_2 by done.
    by rewrite andb_false_r.
  - assert (startswith "."%char (name_suffix (name p) +:+ x) = true) as ->.
    { destruct (name_suffix (name p)); [done | exact Hs]. }
    rewrite andb_false_r, bool_decide_eq_false_2; [done|].
    intros Heq%(f_equal String.length). rewrite length_app_str in Heq.
    cbn in Heq. lia.
Qed.

Lemma append_name_inj (p : Path) (x y : string) :
  append_name p x = append_name p y → x = y.
Proof.
  unfold append_name. intros H%app_inv_head. injection H as H.
  by apply (inj (String.app _)) in H.
Qed.

Lemma append_name_ne_nil (p : Path) (x : string) : append_name p x ≠ [].
Proof. unfold append_name. by destruct (removelast p). Qed.

Lemma append_name_ne_self (p : Path) (x : string) : x ≠ "" → append_name p x ≠ p.
Proof.
  intros Hx Heq. unfold append_name in Heq.
  destruct (decide (p = [])) as [->|Hp]; [done|].
  rewrite (app_removelast_last "" Hp) in Heq at 3.
  apply app_inv_head in Heq. injection Heq as Heq.
  fold (name p) in Heq. rewrite <- (app_empty_r (name p)) in Heq at 2.
  by apply (inj (String.app _)) in Heq.
Qed.

End PathlibSpec.

(** ** Traces *)

Module TraceSpec.

Import Trace.

Lemma quiet_nil : quiet [].
Proof. constructor. Qed.

Lemma quiet_cons (e : event) (t : list event) :
  noisy e = false → quiet t → quiet (e :: t).
Proof. by constructor. Qed.

Lemma quiet_app (t1 t2 : list event) : quiet t1 → quiet t2 → quiet (t1 ++ t2).
Proof. intros. by apply Forall_app. Qed.

Lemma opens_app (t1 t2 : list event) : opens (t1 ++ t2) = (opens t1 + opens t2)%nat.
Proof. unfold opens. by rewrite List.filter_app, length_app. Qed.

Lemma closes_app (t1 t2 : list event) : closes (t1 ++ t2) = (closes t1 + closes t2)%nat.
Proof. unfold closes. by rewrite List.filter_app, length_app. Qed.

Lemma quiet_opens (t : list event) : quiet t → opens t = 0%nat.
Proof.
  unfold opens. induction 1 as [|e t He _ IH]; [done|].
  cbn. by destruct e.
Qed.

Lemma quiet_closes (t : list event) : quiet t → closes t = 0%nat.
Proof.
  unfold closes. induction 1 as [|e t He _ IH]; [done|].
  cbn. by destruct e.
Qed.

Lemma callbacks_app (t1 t2 : list event) :
  callbacks (t1 ++ t2) = callbacks t1 ++ callbacks t2.
Proof. apply omap_app. Qed.

Lemma quiet_callbacks (t : list event) : quiet t → callbacks t = [].
Proof.
  unfold callbacks. induction 1 as [|e t He _ IH]; [done|].
  cbn. by destruct e.
Qed.

Create HintDb quiet discriminated.
#[export] Hint Resolve quiet_nil quiet_cons quiet_app : quiet.
#[export] Hint Extern 1 (noisy _ = false) => reflexivity : quiet.

End TraceSpec.

(** ** utils.py *)

Module UtilsSpec.

Import PyStr Pathlib Utils Naming Observed Trace PathlibSpec TraceSpec.

Lemma pretty_N_go_no_sep (x : N) (s : string) :
  contains "/"%char (pretty_N_go x s) = contains "/"%char s.
Proof.
  revert s. induction (N.lt_wf_0 x) as [x _ IH]; intros s.
  assert (x = 0 ∨ 0 < x)%N as [->|Hx] by lia; [by rewrite pretty_N_go_0|].
  rewrite pretty_N_go_step by done.
  rewrite IH by (by apply N.div_lt).
  cbn [contains]. unfold pretty_N_char. by repeat case_match.
Qed.

Lemma pretty_Z_no_sep (z : Z) : contains "/"%char (pretty z) = false.
Proof.
  assert (∀ n : N, contains "/"%char (pretty n) = false) as HN.
  { intros n. unfold pretty, pretty_N. case_decide; [done|].
    by rewrite pretty_N_go_no_sep. }
  destruct z as [|x|x]; [done | apply (HN (Npos x)) |].
  change (pretty (Z.neg x)) with ("-" +:+ pretty (Npos x)).
  rewrite contains_app, (HN (Npos x)). done.
Qed.

Lemma bak_suffix_shape (n : Z) :
  contains "/"%char (bak_suffix n) = false ∧
  startswith "."%char (bak_suffix n) = true ∧
  bak_suffix n ≠ "." ∧ bak_suffix n ≠ "".
Proof.
  unfold bak_suffix. destruct (n =? 0); [done|].
  rewrite contains_app, pretty_Z_no_sep. done.
Qed.

Global Instance bak_suffix_inj : Inj (=) (=) bak_suffix.
Proof.
  intros n m. unfold bak_suffix.
  destruct (Z.eqb_spec n 0) as [->|Hn], (Z.eqb_spec m 0) as [->|Hm]; try done.
  - intros H. by apply (inj (String.app ".bak.")), (inj pretty) in H.
Qed.

Global Instance nth_backup_inj (p : Path) : Inj (=) (=) (nth_backup p).
Proof. intros n m H%append_name_inj. by apply (inj bak_suffix). Qed.

Lemma node_at_cons (fs : FS) (p : Path) : p ≠ [] → node_at fs p = fs !! p.
Proof. by destruct p. Qed.

Lemma node_at_nth_backup (fs : FS) (p : Path) (n : Z) :
  node_at fs (nth_backup p n) = fs !! nth_backup p n.
Proof. apply node_at_cons, append_name_ne_nil. Qed.

(** Evaluate, using the known result [E] of a lookup. *)
Ltac run_with E := repeat (cbn; rewrite ?E); cbn.

Section WithServices.
Context {sv : Services}.

Lemma path_exists_run (p : Path) (fs : FS) :
  path_exists p fs =
    (Ok (match node_at fs p with Some _ => true | None => false end), fs, [EvExists p]).
Proof. reflexivity. Qed.

Lemma backup_probe_spec (p : Path) (fs : FS) (fuel : nat) :
  ∀ (j : Z) (X : gset Path),
  0 ≤ j →
  (∀ i, j ≤ i → is_Some (fs !! nth_backup p i) → nth_backup p i ∈ X) →
  (size X < fuel)%nat →
  ∃ n t,
    j ≤ n ∧
    (∀ i, j ≤ i < n → is_Some (fs !! nth_backup p i)) ∧
    quiet t ∧
    ((fs !! nth_backup p n = None ∧
      backup_probe fuel p (nth_backup p j) (j + 1) fs = (Ok (nth_backup p n), fs, t))
     ∨ (¬ wf_name p ∧
        ∃ e, backup_probe fuel p (nth_backup p j) (j + 1) fs = (Raise e, fs, t))).
Proof.
  induction fuel as [|fuel IH]; intros j X Hj HX Hsize; [lia|].
  cbn [backup_probe]. unfold bind at 1. unfold path_exists.
  cbn. rewrite node_at_nth_backup.
  destruct (fs !! nth_backup p j) as [v|] eqn:Hlook.
  - assert (bak_suffix (j + 1) = ".bak." +:+ pretty (j + 1)) as Hsfx.
    { unfold bak_suffix. destruct (Z.eqb_spec (j + 1) 0); [lia | done]. }
    rewrite <- Hsfx. unfold bind.
    destruct (with_suffix p (suffix p +:+ bak_suffix (j + 1))) as [e|q] eqn:Hws.
    + exists j, [EvExists (nth_backup p j)]. split; [lia|]. split; [intros; lia|].
      split; [by repeat constructor|]. right. split; [|by exists e].
      intros Hwf. destruct (bak_suffix_shape (j + 1)) as (? & ? & ? & ?).
      by rewrite with_suffix_append in Hws.
    + apply with_suffix_inr in Hws as ->. fold (nth_backup p (j + 1)). cbn.
      destruct (IH (j + 1) (X ∖ {[nth_backup p j]})) as (n & t & Hn & Hall & Hq & Hrun).
      * lia.
      * intros i Hi Hsome. apply elem_of_difference. split; [apply HX; [lia | done]|].
        rewrite elem_of_singleton. intros Heq%(inj (nth_backup p)). lia.
      * assert (nth_backup p j ∈ X) as Hin by (apply HX; [lia | by eexists]).
        pose proof (size_difference X {[nth_backup p j]}) as Hd.
        rewrite size_singleton in Hd.
        rewrite Hd by (by apply singleton_subseteq_l). 
        assert (size X ≠ 0%nat) by (intros ?%size_empty_inv; set_solver).
        lia.
      * exists n, (EvExists (nth_backup p j) :: t).
        split; [lia|]. split.
        { intros i Hi. destruct (decide (i = j)) as [->|]; [by eexists | apply Hall; lia]. }
        split; [by constructor|].
        destruct Hrun as [[Hnone ->]|[Hwf [e ->]]]; [by left | right; eauto].
  - exists j, [EvExists (nth_backup p j)]. split; [lia|]. split; [intros; lia|].
    split; [by repeat constructor|]. left. done.
Qed.

Local Arguments backup_probe : simpl never.

Lemma create_backup_cases (p : Path) (fs : FS) :
  (node_at fs p = None ∧ create_backup p fs = (Ok None, fs, [EvExists p])) ∨
  (∃ e t, ¬ wf_name p ∧ quiet t ∧ create_backup p fs = (Raise e, fs, t)) ∨
  (∃ n tp,
     0 ≤ n ∧ node_at fs p ≠ None ∧ fs !! nth_backup p n = None ∧
     (∀ i, 0 ≤ i < n → is_Some (fs !! nth_backup p i)) ∧ quiet tp ∧
     create_backup p fs =
       let '(r, fs', t) := backup_copy p (nth_backup p n) fs in
       (r, fs', EvExists p :: tp ++ t)).
Proof.
  unfold create_backup. unfold bind at 1. unfold path_exists. cbn.
  destruct (node_at fs p) as [v|] eqn:Hp; [|by left].
  right. cbn [negb]. unfold bind at 1.
  destruct (with_suffix p (suffix p +:+ ".bak")) as [e|q] eqn:Hws.
  - left. exists e, [EvExists p]. split; [|split; [by repeat constructor | done]].
    intros Hwf. by rewrite with_suffix_append in Hws.
  - apply (with_suffix_inr p q ".bak") in Hws as ->. cbn.
    change (append_name p ".bak") with (nth_backup p 0).
    unfold bind at 1. cbn.
    destruct (backup_probe_spec p fs (S (size fs)) 0 (dom fs))
      as (n & t & Hn & Hall & Hq & Hrun).
    + lia.
    + intros i _ Hsome. by apply elem_of_dom.
    + rewrite size_dom. lia.
    + change (0 + 1) with 1 in Hrun.
      destruct Hrun as [[Hnone Hrun]|[Hwf [e Hrun]]].
      * right. exists n, t. split; [lia|]. split; [done|]. split; [done|].
        split; [done|]. split; [done|].
        unfold bind at 1; rewrite Hrun.
        fold (backup_copy p (nth_backup p n)).
        by destruct (backup_copy p (nth_backup p n) fs) as [[r fs'] t'].
      * left. exists e, (EvExists p :: [] ++ t).
        split; [done|]. split; [by constructor |].
        unfold bind at 1; by rewrite Hrun.
Qed.

Lemma backup_copy_cases (p dst : Path) (fs : FS) :
  fs !! dst = None → dst ≠ [] →
  match node_at fs p with
  | Some (File sz c) =>
      match copy_error fs p dst with
      | None =>
          backup_copy p dst fs = (Ok (Some dst), <[dst := File sz c]> fs, [EvCopy p dst])
      | Some msg =>
          backup_copy p dst fs =
            (Ok None, fs,
             [EvCopy p dst; EvLog "root" ERROR ("Failed to create backup: " +:+ msg)])
      end
  | _ => ∃ msg,
      backup_copy p dst fs =
        (Ok None, fs,
         [EvCopy p dst; EvLog "root" ERROR ("Failed to create backup: " +:+ msg)])
  end.
Proof.
  intros Hdst Hne. unfold backup_copy, try_except, copy2, bind. cbn.
  destruct (node_at fs p) as [[sz c|]|] eqn:Hp; cbn; eauto.
  destruct (copy_error fs p dst) as [msg|]; cbn; [done|].
  by rewrite (node_at_cons _ _ Hne), Hdst.
Qed.

Lemma create_backup_file (p : Path) (fs : FS) (sz : Z) (c : string + Doc) :
  wf_name p → fs !! p = Some (File sz c) →
  ∃ n tp,
    0 ≤ n ∧ fs !! nth_backup p n = None ∧
    (∀ i, 0 ≤ i < n → is_Some (fs !! nth_backup p i)) ∧ quiet tp ∧
    create_backup p fs =
      match copy_error fs p (nth_backup p n) with
      | None =>
          (Ok (Some (nth_backup p n)), <[nth_backup p n := File sz c]> fs,
           EvExists p :: tp ++ [EvCopy p (nth_backup p n)])
      | Some msg =>
          (Ok None, fs,
           EvExists p :: tp ++
             [EvCopy p (nth_backup p n);
              EvLog "root" ERROR ("Failed to create backup: " +:+ msg)])
      end.
Proof.
  intros Hwf Hp.
  assert (p ≠ []) as Hne by (intros ->; by destruct Hwf).
  assert (node_at fs p = Some (File sz c)) as Hnode by (by rewrite node_at_cons).
  destruct (create_backup_cases p fs)
    as [[Hnone _]|[(e & t & Hnwf & _)|(n & tp & Hn & _ & Habs & Hall & Hq & Hrun)]].
  - congruence.
  - done.
  - exists n, tp. do 4 (split; [done|]). rewrite Hrun.
    pose proof (backup_copy_cases p (nth_backup p n) fs Habs (append_name_ne_nil _ _)) as Hc.
    rewrite Hnode in Hc.
    destruct (copy_error fs p (nth_backup p n)); by rewrite Hc.
Qed.

Lemma create_backup_keeps (p : Path) (fs : FS) :
  ∀ r fs' t, create_backup p fs = (r, fs', t) →
  r ≠ OutOfFuel ∧ quiet t ∧ ∀ q v, fs !! q = Some v → fs' !! q = Some v.
Proof.
  intros r fs' t Hrun.
  destruct (create_backup_cases p fs)
    as [[_ E]|[(e & t0 & _ & Hq & E)|(n & tp & _ & _ & Habs & _ & Hq & E)]];
    rewrite E in Hrun.
  - injection Hrun as <- <- <-. split; [done|]. split; [by repeat constructor | done].
  - injection Hrun as <- <- <-. done.
  - pose proof (backup_copy_cases p (nth_backup p n) fs Habs (append_name_ne_nil _ _)) as Hc.
    destruct (node_at fs p) as [[sz c|]|];
      [destruct (copy_error fs p (nth_backup p n))| destruct Hc as [msg Hc] ..];
      rewrite Hc in Hrun; injection Hrun as <- <- <-;
      (split; [done|]); (split; [auto 10 with quiet|]);
      try done.
    intros q v Hqv. rewrite lookup_insert_ne; [done|]. congruence.
Qed.


(** [get_file_info] never fails, leaves the file system alone and reports
    the pages PyMuPDF sees, or none. *)
Lemma get_file_info_run (p : Path) (fs : FS) :
  ∃ info t,
    get_file_info p fs = (Ok info, fs, t) ∧ quiet t ∧
    info_pages info = pages_at fs p.
Proof.
  unfold pages_at.
  destruct (node_at fs p) as [[sz [msg|d]|]|] eqn:E;
    unfold get_file_info, try_except, bind, path_exists, stat_size, fitz_open,
      fitz_close, log, emit, get, ret, raise;
    run_with E;
    eexists _, _; (split; [reflexivity|]); (split; [auto 10 with quiet | done]).
Qed.

End WithServices.

Import Samples.


End UtilsSpec.

(** ** converter.py *)

Module ConverterSpec.

Import PyStr Pathlib Config Utils Converter Naming Observed Faults Trace.
Import PathlibSpec TraceSpec UtilsSpec.

Local Arguments get_file_info : simpl never.
Local Arguments create_backup : simpl never.
Local Arguments _log_file_info : simpl never.
Local Arguments _create_backup_if_needed : simpl never.
Local Arguments convert_try : simpl never.
Local Arguments validate : simpl never.
Local Arguments convert : simpl never.

(** Close the routine parts of a conjunction about a run. *)
Ltac fin := repeat split; try done; auto 10 with quiet.

Section WithServices.
Context {sv : Services}.

Lemma set_converter_None (self : PDFToDOCXConverter) (c : option Path) :
  converter self = None → set_converter None (set_converter c self) = self.
Proof. destruct self; cbn; by intros ->. Qed.

(** What the [try] statement of [convert] does, case by case. *)
Lemma convert_try_cases (self : PDFToDOCXConverter) (fs : FS) :
  converter self = None →
  let p := pdf_path self in
  let out := docx_path self in
  let start := start_page (config self) in
  let stop := end_page (config self) in
  convert_try (self, fs) =
    match session_open fs p with
    | Some e =>
        if is_Exception e then
          (Raise (ConversionFailed e), (self, fs),
           [EvSessionOpen p false;
            EvLog "pdf_to_docx" ERROR ("Conversion failed: " +:+ exn_str e)])
        else (Raise e, (self, fs), [EvSessionOpen p false])
    | None =>
        let '(r, fs2) := session_convert fs p out start stop in
        match r with
        | Some e =>
            if is_Exception e then
              (Raise (ConversionFailed e), (self, fs2),
               [EvSessionOpen p true; EvSessionConvert p out start stop;
                EvLog "pdf_to_docx" ERROR ("Conversion failed: " +:+ exn_str e);
                EvSessionClose p])
            else
              (Raise e, (self, fs2),
               [EvSessionOpen p true; EvSessionConvert p out start stop;
                EvSessionClose p])
        | None =>
            match node_at fs2 out with
            | None =>
                (Raise (ConversionFailed OutputNotProduced), (self, fs2),
                 [EvSessionOpen p true; EvSessionConvert p out start stop;
                  EvExists out;
                  EvLog "pdf_to_docx" ERROR ("Conversion failed: " +:+ msg_not_created);
                  EvSessionClose p])
            | Some nd =>
                (Ok out, (self, fs2),
                 [EvSessionOpen p true; EvSessionConvert p out start stop;
                  EvExists out; EvStat out;
                  EvLog "pdf_to_docx" INFO "Conversion complete!";
                  EvLog "pdf_to_docx" INFO ("Output file: " +:+ Pathlib.str out);
                  EvLog "pdf_to_docx" INFO
                    ("Output size: " +:+ format_file_size
                       (match nd with File sz _ => sz | Dir => 0 end));
                  EvSessionClose p])
            end
        end
    end.
Proof.
  intros Hc p out start stop. subst p out start stop.
  destruct self as [p out cfg lg cv cb]. cbn in Hc. subst cv.
  unfold convert_try, try_finally, try_except, convert_body, convert_handler,
    convert_finally, Converter_open, Converter_convert, Converter_close,
    get_self, update_self, lift_fs, path_exists, stat_size, logger_info, logger_error,
    log, emit, get, raise, ret, bind.
  cbn.
  destruct (session_open fs p) as [e|] eqn:Hopen; cbn.
  - destruct (is_Exception e) eqn:He; cbn; [done|]. by destruct e.
  - destruct (session_convert fs p out (start_page cfg) (end_page cfg))
      as [[e|] fs2] eqn:Hconv; cbn.
    + destruct (is_Exception e) eqn:He; cbn; [done|]. by destruct e.
    + by destruct (node_at fs2 out) as [[sz c|]|] eqn:Hout; run_with Hout.
Qed.

Lemma log_file_info_run (self : PDFToDOCXConverter) (fs : FS) :
  ∃ t, _log_file_info (self, fs) = (Ok tt, (self, fs), t) ∧ quiet t.
Proof.
  destruct (get_file_info_run (pdf_path self) fs) as (info & t & Hrun & Hq & _).
  unfold _log_file_info, get_self, lift_fs, logger_info, logger_warning, log, emit, ret, bind.
  cbn. rewrite Hrun.
  destruct (info_encrypted info); cbn; eexists; (split; [reflexivity|]);
    auto 10 with quiet.
Qed.

Lemma create_backup_if_needed_run (self : PDFToDOCXConverter) (fs : FS) :
  ∃ r fs' t,
    _create_backup_if_needed (self, fs) = (r, (self, fs'), t) ∧
    r ≠ OutOfFuel ∧ quiet t ∧
    (∀ q v, fs !! q = Some v → fs' !! q = Some v) ∧
    (wf_name (docx_path self) → r = Ok tt).
Proof.
  unfold _create_backup_if_needed, get_self, lift_fs, path_exists, logger_info,
    logger_warning, log, emit, get, ret, bind.
  cbn.
  destruct (node_at fs (docx_path self)) as [nd|] eqn:Hout; cbn;
    [|eexists _, _, _; split; [reflexivity|]; fin].
  destruct (Config.create_backup (config self)); cbn;
    [|eexists _, _, _; split; [reflexivity|]; fin].
  destruct (create_backup (docx_path self) fs) as [[r fs'] t] eqn:Hrun.
  destruct (create_backup_keeps _ _ _ _ _ Hrun) as (Hr & Hq & Hkeep).
  destruct (create_backup_cases (docx_path self) fs)
    as [[Hnone _]|[(e & t0 & Hnwf & _ & E)|(n & tp & _ & _ & Habs & _ & _ & E)]].
  - congruence.
  - rewrite E in Hrun. injection Hrun as <- <- <-.
    eexists _, _, _; split; [reflexivity|]. fin.
  - assert (∃ b, r = Ok b) as [b ->].
    { rewrite E in Hrun.
      pose proof (backup_copy_cases (docx_path self) _ fs Habs (append_name_ne_nil _ _)) as Hc.
      rewrite Hout in Hc.
      destruct nd as [sz c|];
        [destruct (copy_error fs (docx_path self) _)| destruct Hc as [msg Hc]];
        rewrite Hc in Hrun; injection Hrun as <- _ _; eauto. }
    destruct b; cbn; eexists _, _, _; (split; [reflexivity|]); fin.
Qed.

Lemma convert_prepare_run (self : PDFToDOCXConverter) (fs : FS) :
  ∃ r fs' t,
    convert_prepare (self, fs) = (r, (self, fs'), t) ∧
    r ≠ OutOfFuel ∧ quiet t ∧
    (∀ q v, fs !! q = Some v → fs' !! q = Some v) ∧
    (wf_name (docx_path self) → r = Ok tt).
Proof.
  destruct (log_file_info_run self fs) as (t1 & Hrun1 & Hq1).
  destruct (create_backup_if_needed_run self fs) as (r & fs' & t2 & Hrun2 & Hr & Hq2 & Hk & Hwf).
  exists r, fs', (t1 ++ t2).
  unfold convert_prepare, bind. rewrite Hrun1, Hrun2.
  split; [by destruct r|]. fin.
Qed.

(** [convert] with a valid configuration: the preparation, the two log
    lines, the [try] statement. *)
Lemma convert_valid (self : PDFToDOCXConverter) (fs : FS) :
  validate (config self) = [] →
  convert (self, fs) =
    let '(r1, s1, t1) := convert_prepare (self, fs) in
    match r1 with
    | Ok _ =>
        let '(r, s2, t2) := convert_try s1 in
        (r, s2, t1 ++ convert_announce self ++ t2)
    | Raise e => (Raise e, s1, t1)
    | OutOfFuel => (OutOfFuel, s1, t1)
    end.
Proof.
  intros Hv. unfold convert. unfold bind at 1. cbn. rewrite Hv.
  unfold convert_prepare. 
  destruct (log_file_info_run self fs) as (t1 & Hrun1 & _).
  destruct (create_backup_if_needed_run self fs) as (r & fs' & t2 & Hrun2 & _).
  unfold bind. rewrite Hrun1, Hrun2. unfold logger_info, log, emit. cbn.
  destruct r as [[]|e|]; try done.
  destruct (convert_try (self, fs')) as [[r s2] t3].
  by rewrite <- !app_assoc.
Qed.

Lemma convert_invalid (self : PDFToDOCXConverter) (fs : FS) :
  validate (config self) ≠ [] →
  convert (self, fs) =
    (Raise (ValueError ("Invalid configuration: "
                        +:+ PyStr.join ", " (validate (config self)))),
     (self, fs), []).
Proof.
  intros Hv. unfold convert. unfold bind at 1. cbn.
  by destruct (validate (config self)).
Qed.

(** The [try] statement opens at most one session and closes what it
    opened; [self] is as before. *)
Lemma convert_try_sessions (self : PDFToDOCXConverter) (fs : FS) :
  converter self = None →
  ∀ r s t, convert_try (self, fs) = (r, s, t) →
  r ≠ OutOfFuel ∧ s.1 = self ∧ closes t = opens t ∧ (opens t ≤ 1)%nat ∧
  callbacks t = [] ∧
  (∃ ok t', t = EvSessionOpen (pdf_path self) ok :: t') ∧
  (opens t = 1%nat →
   ∃ t', t = EvSessionOpen (pdf_path self) true :: t' ++ [EvSessionClose (pdf_path self)]
         ∧ opens t' = 0%nat ∧ closes t' = 0%nat).
Proof.
  intros Hc r s t. rewrite (convert_try_cases self fs Hc).
  destruct (session_open fs (pdf_path self)) as [e|].
  - destruct (is_Exception e); intros [= <- <- <-]; cbn; fin; eauto; done.
  - destruct (session_convert _ _ _ _ _) as [[e|] fs2].
    + destruct (is_Exception e); intros [= <- <- <-]; cbn; fin; eauto.
      * intros _. by eexists [_; _].
      * intros _. by eexists [_].
    + destruct (node_at fs2 (docx_path self)) as [nd|]; intros [= <- <- <-]; cbn; fin; eauto.
      * intros _. by eexists [_; _; _; _; _; _].
      * intros _. by eexists [_; _; _].
Qed.

(** C1. A call of [convert] on a converter that holds no session (as after
    [__init__] and after every earlier [convert]) opens at most one session
    and closes exactly the sessions it opened: once, as the last call it
    makes, when the session was opened, and not at all when it was not. The
    converter holds no session afterwards, so a later [__exit__] closes
    nothing. *)
Theorem convert_releases_session_once (self : PDFToDOCXConverter) (fs : FS) :
  converter self = None →
  ∀ r self' fs' t, convert (self, fs) = (r, (self', fs'), t) →
  closes t = opens t ∧ (opens t ≤ 1)%nat ∧
  (opens t = 1%nat →
   ∃ t1 t2, t = t1 ++ EvSessionOpen (pdf_path self) true :: t2
                   ++ [EvSessionClose (pdf_path self)]
            ∧ closes t1 = 0%nat ∧ closes t2 = 0%nat) ∧
  converter self' = None ∧
  (∀ fs2, __exit__ (self', fs2) = (Ok false, (self', fs2), [])).
Proof.
  intros Hc r self' fs' t Hrun.
  assert (converter self' = None →
          ∀ fs2, __exit__ (self', fs2) = (Ok false, (self', fs2), [])) as Hexit.
  { intros Hc' fs2. unfold __exit__, get_self, bind. cbn. by rewrite Hc'. }
  destruct (decide (validate (config self) = [])) as [Hv|Hv].
  - rewrite (convert_valid self fs Hv) in Hrun.
    destruct (convert_prepare_run self fs) as (r1 & fs1 & t1 & Hrun1 & Hr1 & Hq1 & _).
    rewrite Hrun1 in Hrun.
    destruct r1 as [[]|e|]; [|injection Hrun as <- <- <- <-..|done].
    + destruct (convert_try (self, fs1)) as [[r2 [self2 fs2]] t2] eqn:Htry.
      destruct (convert_try_sessions self fs1 Hc _ _ _ Htry)
        as (_ & Hs & Hcl & Hle & _ & _ & Hone).
      injection Hrun as <- <- <- <-. cbn in Hs. subst self2.
      rewrite !closes_app, !opens_app, (quiet_opens _ Hq1), (quiet_closes _ Hq1).
      change (opens (convert_announce self)) with 0%nat.
      change (closes (convert_announce self)) with 0%nat. cbn [Nat.add].
      fin.
      intros (t' & -> & Ho & Hcl')%Hone.
      exists (t1 ++ convert_announce self), t'. rewrite <- app_assoc. 
      split; [done|]. split; [|done].
      rewrite closes_app, (quiet_closes _ Hq1). done.
    + rewrite (quiet_opens _ Hq1), (quiet_closes _ Hq1). fin; lia.
  - rewrite (convert_invalid self fs Hv) in Hrun. injection Hrun as <- <- <- <-.
    fin; cbn; lia || done.
Qed.

(** C6. With a configuration that [validate] rejects, [convert] raises the
    [ValueError] that lists the errors without having made a single call
    outside the process: no file is inspected, no backup attempted, no
    session opened, nothing converted, and the file system and the converter
    are as before. *)
Theorem invalid_config_fails_before_any_io (self : PDFToDOCXConverter) (fs : FS) :
  validate (config self) ≠ [] →
  convert (self, fs) =
    (Raise (ValueError ("Invalid configuration: "
                        +:+ PyStr.join ", " (validate (config self)))),
     (self, fs), []).
Proof. apply convert_invalid. Qed.

(** C3, as the code has it. Once the configuration is valid and the
    preparation is done, every [Exception] of the [try] statement reaches the
    caller inside the one wrapper [ConversionFailed], with the original as its
    cause: a failure to open the session, a failure of the conversion call,
    and also the error raised when the conversion reported success and the
    output file does not exist, whose wrapper has [OutputNotProduced] as its
    cause. *)
Theorem convert_wraps_every_failure (self : PDFToDOCXConverter) (fs fs1 : FS)
    (t1 : list event) :
  converter self = None →
  validate (config self) = [] →
  convert_prepare (self, fs) = (Ok tt, (self, fs1), t1) →
  let p := pdf_path self in
  let out := docx_path self in
  let start := start_page (config self) in
  let stop := end_page (config self) in
  ∀ r s t, convert (self, fs) = (r, s, t) →
  (∀ e, session_open fs1 p = Some e → is_Exception e = true →
        r = Raise (ConversionFailed e)) ∧
  (∀ e fs2, session_open fs1 p = None →
            session_convert fs1 p out start stop = (Some e, fs2) →
            is_Exception e = true →
            r = Raise (ConversionFailed e)) ∧
  (∀ fs2, session_open fs1 p = None →
          session_convert fs1 p out start stop = (None, fs2) →
          node_at fs2 out = None →
          r = Raise (ConversionFailed OutputNotProduced) ∧ s = (self, fs2)).
Proof.
  intros Hc Hv Hprep p out start stop r s t.
  rewrite (convert_valid self fs Hv), Hprep, (convert_try_cases self fs1 Hc).
  fold p out start stop. intros Hrun. split; [|split].
  - intros e He Hexc. rewrite He, Hexc in Hrun. by injection Hrun as <- _ _.
  - intros e fs2 Ho Hconv Hexc. rewrite Ho, Hconv, Hexc in Hrun.
    by injection Hrun as <- _ _.
  - intros fs2 Ho Hconv Hout. rewrite Ho, Hconv, Hout in Hrun.
    by injection Hrun as <- <- _.
Qed.

Lemma convert_state (self : PDFToDOCXConverter) (fs : FS) :
  converter self = None →
  ∀ r s t, convert (self, fs) = (r, s, t) → s.1 = self ∧ r ≠ OutOfFuel.
Proof.
  intros Hc r s t Hrun.
  destruct (decide (validate (config self) = [])) as [Hv|Hv].
  - rewrite (convert_valid self fs Hv) in Hrun.
    destruct (convert_prepare_run self fs) as (r1 & fs1 & t1 & Hrun1 & Hr1 & _).
    rewrite Hrun1 in Hrun.
    destruct r1 as [[]|e|]; [|by injection Hrun as <- <- <-|done].
    destruct (convert_try (self, fs1)) as [[r2 s2] t2] eqn:Htry.
    destruct (convert_try_sessions self fs1 Hc _ _ _ Htry) as (? & ? & _).
    by injection Hrun as <- <- <-.
  - rewrite (convert_invalid self fs Hv) in Hrun. by injection Hrun as <- <- <-.
Qed.

(** [convert_with_progress]: the inspection, the callback at [0], [convert],
    and the callback again: at the total after a normal return, at [0] when
    an [Exception] passes, which is raised again as it is. *)
Lemma convert_with_progress_run (self : PDFToDOCXConverter) (fs : FS) :
  converter self = None →
  let total :=
    pages_to_convert (config self) (Z.of_nat (pages_at fs (pdf_path self))) in
  ∃ ti,
    quiet ti ∧
    convert_with_progress (self, fs) =
      let '(r, s, tc) := convert (self, fs) in
      (r, s,
       ti ++ report self 0 total ++ tc ++
       match r with
       | Ok _ => report self total total
       | Raise e => if is_Exception e then report self 0 total else []
       | OutOfFuel => []
       end).
Proof.
  intros Hc total.
  destruct (get_file_info_run (pdf_path self) fs) as (info & ti & Hinfo & Hq & Hpages).
  exists ti. split; [done|].
  destruct (convert (self, fs)) as [[r [self' fs']] tc] eqn:Hrun.
  destruct (convert_state self fs Hc _ _ _ Hrun) as [Hs Hr]. cbn in Hs. subst self'.
  unfold convert_with_progress, try_except, report_progress, get_self, lift_fs, bind,
    emit, ret, raise.
  cbn. rewrite Hinfo. cbn. rewrite Hpages. fold total. unfold report.
  destruct (progress_callback self) as [cb|] eqn:Hcb; cbn; rewrite Hrun; cbn;
    destruct r as [a|e|]; try done; cbn; rewrite ?Hcb; cbn;
    try (destruct (is_Exception e)); cbn; rewrite ?Hcb; cbn;
    rewrite ?app_nil_r; try done.
  all: by rewrite <- ?app_assoc.
Qed.

(** A normal return of [convert]: the configuration was valid, the
    conversion was called and the output file exists. *)
Lemma convert_ok (self : PDFToDOCXConverter) (fs : FS) :
  converter self = None →
  ∀ out s t, convert (self, fs) = (Ok out, s, t) →
  out = docx_path self ∧ node_at s.2 out ≠ None ∧ validate (config self) = [] ∧
  EvSessionConvert (pdf_path self) out (start_page (config self)) (end_page (config self))
    ∈ t.
Proof.
  intros Hc out s t Hrun.
  destruct (decide (validate (config self) = [])) as [Hv|Hv];
    [|by rewrite (convert_invalid self fs Hv) in Hrun].
  rewrite (convert_valid self fs Hv) in Hrun.
  destruct (convert_prepare_run self fs) as (r1 & fs1 & t1 & Hrun1 & _).
  rewrite Hrun1 in Hrun. destruct r1 as [[]|e|]; [|done..].
  rewrite (convert_try_cases self fs1 Hc) in Hrun.
  destruct (session_open fs1 (pdf_path self)) as [e|];
    [by destruct (is_Exception e)|].
  destruct (session_convert _ _ _ _ _) as [[e|] fs2];
    [by destruct (is_Exception e)|].
  destruct (node_at fs2 (docx_path self)) as [nd|] eqn:Hout; [|done].
  injection Hrun as <- <- <-. cbn. rewrite Hout. do 3 (split; [done|]).
  apply elem_of_app. right. cbn.
  repeat first [apply list_elem_of_here | apply list_elem_of_further].
Qed.

(** With a valid configuration [convert] gets as far as opening the
    session, whatever the state of the two paths by then. *)
Lemma convert_reaches_open (self : PDFToDOCXConverter) (fs : FS) :
  converter self = None → validate (config self) = [] → wf_name (docx_path self) →
  ∀ r s t, convert (self, fs) = (r, s, t) →
  ∃ ok, EvSessionOpen (pdf_path self) ok ∈ t.
Proof.
  intros Hc Hv Hwf r s t. rewrite (convert_valid self fs Hv).
  destruct (convert_prepare_run self fs) as (r1 & fs1 & t1 & Hrun1 & _ & _ & _ & Hok).
  rewrite Hrun1, (Hok Hwf).
  destruct (convert_try (self, fs1)) as [[r2 s2] t2] eqn:Htry.
  destruct (convert_try_sessions self fs1 Hc _ _ _ Htry)
    as (_ & _ & _ & _ & _ & (ok & t' & ->) & _).
  intros [= <- <- <-]. exists ok. apply elem_of_app. right. cbn.
  repeat first [apply list_elem_of_here | apply list_elem_of_further].
Qed.

(** [__exit__] closes the session the converter holds, if any, and leaves it
    without one. *)
Lemma exit_run (self : PDFToDOCXConverter) (fs : FS) :
  __exit__ (self, fs) =
    (Ok false, (set_converter None self, fs),
     match converter self with
     | Some session => [EvSessionClose session]
     | None => []
     end).
Proof.
  unfold __exit__, get_self, update_self, Converter_close, emit, ret, bind. cbn.
  destruct self as [p out cfg lg [session|] cb]; reflexivity.
Qed.

Lemma convert_no_callbacks (self : PDFToDOCXConverter) (fs : FS) :
  converter self = None →
  ∀ r s t, convert (self, fs) = (r, s, t) → callbacks t = [].
Proof.
  intros Hc r s t Hrun.
  destruct (decide (validate (config self) = [])) as [Hv|Hv].
  - rewrite (convert_valid self fs Hv) in Hrun.
    destruct (convert_prepare_run self fs) as (r1 & fs1 & t1 & Hrun1 & Hr1 & Hq1 & _).
    rewrite Hrun1 in Hrun.
    destruct r1 as [[]|e|]; [|injection Hrun as <- <- <-; by apply quiet_callbacks|done].
    destruct (convert_try (self, fs1)) as [[r2 s2] t2] eqn:Htry.
    destruct (convert_try_sessions self fs1 Hc _ _ _ Htry) as (_ & _ & _ & _ & Hcb & _).
    injection Hrun as <- <- <-.
    rewrite callbacks_app, (quiet_callbacks _ Hq1). exact Hcb.
  - rewrite (convert_invalid self fs Hv) in Hrun. by injection Hrun as <- <- <-.
Qed.

(** C9. With [end_page = 0] the total handed to the callback is computed
    as if [end_page] were absent: the page count of the document serves as
    the end of the range, so the total is [total_pages - start_page + 1] and
    not the [0 - start_page + 1] of a range that ends at page [0]; this is the
    total of every call [convert_with_progress] makes to the callback. *)
Theorem end_page_zero_counts_as_absent (self : PDFToDOCXConverter) (fs : FS)
    (cb : callback) :
  converter self = None →
  end_page (config self) = Some 0 →
  progress_callback self = Some cb →
  let total_pages := Z.of_nat (pages_at fs (pdf_path self)) in
  let start := start_page (config self) in
  let total := total_pages - start + 1 in
  pages_to_convert (config self) total_pages = total ∧
  (∀ cfg, end_page cfg = None → start_page cfg = start →
          pages_to_convert cfg total_pages = total) ∧
  (total_pages ≠ 0 → total ≠ 0 - start + 1) ∧
  ∀ r s t, convert_with_progress (self, fs) = (r, s, t) →
    match r with
    | Ok _ => callbacks t = [(cb, 0, total); (cb, total, total)]
    | Raise e =>
        callbacks t =
          if is_Exception e then [(cb, 0, total); (cb, 0, total)] else [(cb, 0, total)]
    | OutOfFuel => False
    end.
Proof.
  intros Hc Hend Hcb total_pages start total.
  assert (pages_to_convert (config self) total_pages = total) as Hptc.
  { unfold pages_to_convert, or_int. by rewrite Hend. }
  split; [done|]. split.
  { intros cfg He Hs. unfold pages_to_convert, or_int. by rewrite He, Hs. }
  split; [subst total; lia|].
  intros r s t.
  destruct (convert_with_progress_run self fs Hc) as (ti & Hq & ->).
  fold total_pages. rewrite Hptc.
  destruct (convert (self, fs)) as [[r' s'] tc] eqn:Hrun.
  destruct (convert_state self fs Hc _ _ _ Hrun) as [_ Hr].
  pose proof (convert_no_callbacks self fs Hc _ _ _ Hrun) as Hcbs.
  intros [= <- <- <-].
  rewrite !callbacks_app, (quiet_callbacks _ Hq), Hcbs. unfold report. rewrite Hcb.
  destruct r' as [a|e|]; [done| |done].
  by destruct (is_Exception e).
Qed.

End WithServices.

Import Samples.

Lemma convert_releases_session_once_witness :
  converter (conv0 DEFAULT_CONFIG None) = None ∧
  let '(_, (self', _), t) :=
    convert (sv := sv_ok) (conv0 DEFAULT_CONFIG None, fs_doc) in
  closes t = opens t ∧ (opens t ≤ 1)%nat ∧ converter self' = None.
Proof.
  split; [reflexivity|].
  destruct (convert (sv := sv_ok) (conv0 DEFAULT_CONFIG None, fs_doc))
    as [[r [self' fs']] t] eqn:E.
  destruct (convert_releases_session_once (sv := sv_ok)
              (conv0 DEFAULT_CONFIG None) fs_doc eq_refl _ _ _ _ E)
    as (Hcl & Hle & _ & Hc & _).
  exact (conj Hcl (conj Hle Hc)).
Defined.

Lemma invalid_config_fails_before_any_io_witness :
  validate (cfg_range 3 (Some 1)) ≠ [] ∧
  convert (sv := sv_ok) (conv0 (cfg_range 3 (Some 1)) None, fs_doc) =
    (Raise (ValueError "Invalid configuration: end_page must be >= start_page"),
     (conv0 (cfg_range 3 (Some 1)) None, fs_doc), []).
Proof.
  assert (validate (cfg_range 3 (Some 1)) ≠ []) as Hv by discriminate.
  split; [exact Hv|].
  exact (invalid_config_fails_before_any_io (sv := sv_ok)
           (conv0 (cfg_range 3 (Some 1)) None) fs_doc Hv).
Defined.

(** C3, at a concrete input: pdf2docx reports success and writes nothing;
    [convert] does not raise the error of the output check as it is, but the
    same wrapper as for every other failure, with that error as its cause. *)
Lemma output_check_is_wrapped :
  let '(r, (_, fs'), _) :=
    convert (sv := sv_silent) (conv0 DEFAULT_CONFIG None, fs_doc) in
  node_at fs' ["doc.docx"] = None ∧
  r = Raise (ConversionFailed OutputNotProduced) ∧
  r ≠ Raise OutputNotProduced.
Proof. vm_compute. split; [reflexivity|]. split; [reflexivity | discriminate]. Qed.

Lemma convert_wraps_every_failure_witness :
  converter (conv0 DEFAULT_CONFIG None) = None ∧
  validate (config (conv0 DEFAULT_CONFIG None)) = [] ∧
  (∃ t1, convert_prepare (sv := sv_no_open) (conv0 DEFAULT_CONFIG None, fs_doc)
         = (Ok tt, (conv0 DEFAULT_CONFIG None, fs_doc), t1)) ∧
  (convert (sv := sv_no_open) (conv0 DEFAULT_CONFIG None, fs_doc)).1.1
    = Raise (ConversionFailed (LibraryError "cannot open")).
Proof.
  assert (∃ t1, convert_prepare (sv := sv_no_open) (conv0 DEFAULT_CONFIG None, fs_doc)
                = (Ok tt, (conv0 DEFAULT_CONFIG None, fs_doc), t1)) as [t1 E1]
    by (eexists; reflexivity).
  split; [reflexivity|]. split; [reflexivity|]. split; [by exists t1|].
  destruct (convert (sv := sv_no_open) (conv0 DEFAULT_CONFIG None, fs_doc))
    as [[r s] t] eqn:E.
  destruct (convert_wraps_every_failure (sv := sv_no_open)
              (conv0 DEFAULT_CONFIG None) fs_doc fs_doc t1 eq_refl eq_refl E1 _ _ _ E)
    as (Hopen & _ & _).
  exact (Hopen (LibraryError "cannot open") eq_refl eq_refl).
Defined.

Lemma end_page_zero_counts_as_absent_witness :
  converter (conv0 (cfg_range 0 (Some 0)) (Some (Callback 0))) = None ∧
  end_page (cfg_range 0 (Some 0)) = Some 0 ∧
  let '(r, _, t) :=
    convert_with_progress (sv := sv_ok)
      (conv0 (cfg_range 0 (Some 0)) (Some (Callback 0)), fs_doc) in
  match r with
  | Ok _ => callbacks t = [(Callback 0, 0, 6); (Callback 0, 6, 6)]
  | _ => True
  end.
Proof.
  split; [reflexivity|]. split; [reflexivity|].
  destruct (convert_with_progress (sv := sv_ok)
              (conv0 (cfg_range 0 (Some 0)) (Some (Callback 0)), fs_doc))
    as [[r s] t] eqn:E.
  destruct (end_page_zero_counts_as_absent (sv := sv_ok)
              (conv0 (cfg_range 0 (Some 0)) (Some (Callback 0))) fs_doc (Callback 0)
              eq_refl eq_refl eq_refl) as (_ & _ & _ & Hcb).
  specialize (Hcb r s t E). by destruct r.
Defined.

(** C2, at the input of its example: for the five-page document and the
    default configuration (first page [0], no last page) the total handed to
    the callback is [6], while the same range given with its last page [4]
    counts [5]; the callback is called with [(0, 6)] before the conversion and
    with [(6, 6)] after its success, and with [(0, 6)] twice when the session
    cannot be opened, the error being raised unchanged. *)
Theorem progress_total_of_five_pages :
  pages_to_convert DEFAULT_CONFIG 5 = 6 ∧
  pages_to_convert (cfg_range 0 (Some 4)) 5 = 5 ∧
  (let '(r, _, t) :=
     convert_with_progress (sv := sv_ok)
       (conv0 DEFAULT_CONFIG (Some (Callback 0)), fs_doc) in
   r = Ok ["doc.docx"] ∧
   callbacks t = [(Callback 0, 0, 6); (Callback 0, 6, 6)]) ∧
  (let '(r, _, t) :=
     convert_with_progress (sv := sv_no_open)
       (conv0 DEFAULT_CONFIG (Some (Callback 0)), fs_doc) in
   r = Raise (ConversionFailed (LibraryError "cannot open")) ∧
   r = (convert (sv := sv_no_open)
          (conv0 DEFAULT_CONFIG (Some (Callback 0)), fs_doc)).1.1 ∧
   callbacks t = [(Callback 0, 0, 6); (Callback 0, 0, 6)]).
Proof. vm_compute. repeat split. Qed.

End ConverterSpec.

(** ** Construction *)

Module InitSpec.

Import PyStr Pathlib Config Utils Converter Naming Observed Faults Trace.
Import PathlibSpec TraceSpec UtilsSpec ConverterSpec.

Local Arguments mkdir_parents : simpl never.

Section WithServices.
Context {sv : Services}.

Lemma validate_pdf_cases (p : Path) (fs : FS) :
  ∃ b msg t,
    validate_pdf p fs = (Ok (b, msg), fs, t) ∧ quiet t ∧
    (b = false ↔ pdf_rejected fs p) ∧
    (b = false → is_Some msg).
Proof.
  unfold pdf_rejected.
  assert (∀ (b : bool) (msg : option string) (t : list event) (P : Prop),
            quiet t → (b = false ↔ P) → (b = false → is_Some msg) →
            ∀ run, run = (Ok (b, msg), fs, t) →
            ∃ b msg t, run = (Ok (b, msg), fs, t) ∧ quiet t ∧ (b = false ↔ P) ∧
                       (b = false → is_Some msg)) as Hpack by (intros; eauto 10).
  destruct (node_at fs p) as [[sz [m|d]|]|] eqn:E;
    unfold validate_pdf, try_except, path_exists, path_is_file, fitz_open, fitz_close,
      emit, get, raise, ret, bind; run_with E.
  all: try (destruct (decide (lower (suffix p) = ".pdf")) as [Hs|Hs];
            [rewrite (bool_decide_eq_true_2 _ Hs) | rewrite (bool_decide_eq_false_2 _ Hs)];
            run_with E).
  all: try (destruct (decide (doc_pages d = 0%nat)) as [Hp|Hp];
            [rewrite (bool_decide_eq_true_2 _ Hp) | rewrite (bool_decide_eq_false_2 _ Hp)];
            cbn).
  all: eapply Hpack; [| | |reflexivity]; [auto 10 with quiet| |first [done | intros; by eexists]].
  - split; [intros _|done]. do 3 right. left. by exists sz, m.
  - split; [intros _|done]. by do 2 right; left.
  - split; [intros _|done]. do 4 right. by exists sz, d.
  - split; [done|]. intros [?|[?|[?|[(? & ? & ?)|(? & ? & ? & ?)]]]]; by simplify_eq.
  - split; [intros _|done]. by do 2 right; left.
  - split; [intros _|done]. by right; left.
  - split; [intros _|done]. by left.
Qed.

Lemma mkdir_fold_lookup (fs : FS) (l : list Path) (q : Path) :
  foldr (λ q acc, match acc !! q with
                  | None => <[q := Dir]> acc
                  | Some _ => acc
                  end) fs l !! q =
  match fs !! q with
  | Some v => Some v
  | None => if decide (q ∈ l) then Some Dir else None
  end.
Proof.
  induction l as [|x l IH]; cbn.
  - destruct (fs !! q); [done|]. rewrite decide_False; [done | by intros ?%elem_of_nil].
  - set (acc := foldr _ fs l) in *.
    destruct (decide (x = q)) as [->|Hne].
    + rewrite (decide_True (P := q ∈ q :: l)) by left.
      destruct (acc !! q) as [v|] eqn:Hacc; rewrite IH in Hacc.
      * destruct (fs !! q); [done|]. by destruct (decide (q ∈ l)).
      * rewrite lookup_insert_eq. destruct (fs !! q); [done|]. done.
    + assert (match acc !! x with
              | Some _ => acc
              | None => <[x:=Dir]> acc
              end !! q = acc !! q) as ->.
      { destruct (acc !! x); [done|]. by rewrite lookup_insert_ne. }
      rewrite IH. destruct (fs !! q); [done|].
      destruct (decide (q ∈ l)) as [Hin|Hin].
      * rewrite decide_True; [done | by right].
      * rewrite decide_False; [done|]. by intros [->|?]%elem_of_cons.
Qed.

Lemma elem_of_prefixes_self (p : Path) : p ≠ [] → p ∈ prefixes p.
Proof.
  intros Hne. unfold prefixes. apply list_elem_of_fmap.
  exists (length p). split; [by rewrite firstn_all|].
  apply elem_of_seq. destruct p; [done|]. cbn. lia.
Qed.

Lemma mkdir_parents_cases (p : Path) (fs : FS) :
  node_at fs p = None →
  (∃ e, mkdir_parents p fs = (Raise e, fs, [EvMkdir p])) ∨
  (∃ fs', mkdir_parents p fs = (Ok tt, fs', [EvMkdir p]) ∧ node_at fs' p = Some Dir).
Proof.
  intros Hnone. assert (p ≠ []) as Hne by (by intros ->).
  rewrite node_at_cons in Hnone by done.
  unfold mkdir_parents, emit, get, put, raise, bind. cbn.
  destruct (mkdir_error fs p) as [msg|]; cbn; [by left; eexists|].
  destruct (existsb _ _); cbn; [by left; eexists|].
  right. eexists. split; [reflexivity|].
  rewrite node_at_cons by done. rewrite mkdir_fold_lookup, Hnone.
  by rewrite decide_True by (by apply elem_of_prefixes_self).
Qed.

Lemma validate_output_path_cases (p : Path) (ow : bool) (fs : FS) :
  ∃ b msg fs' t,
    validate_output_path p ow fs = (Ok (b, msg), fs', t) ∧ quiet t ∧
    (b = false ↔ output_rejected fs p ow) ∧
    (b = false → is_Some msg ∧ fs' = fs).
Proof.
  assert (∀ (b : bool) (msg : option string) (fs' : FS) (t : list event) (P : Prop),
            quiet t → (b = false ↔ P) → (b = false → is_Some msg ∧ fs' = fs) →
            ∀ run, run = (Ok (b, msg), fs', t) →
            ∃ b msg fs' t, run = (Ok (b, msg), fs', t) ∧ quiet t ∧ (b = false ↔ P) ∧
                           (b = false → is_Some msg ∧ fs' = fs)) as Hpack
    by (intros; eauto 10).
  unfold output_rejected.
  unfold validate_output_path.
  destruct (decide (lower (suffix p) = ".docx")) as [Hs|Hs];
    [rewrite (bool_decide_eq_true_2 _ Hs) | rewrite (bool_decide_eq_false_2 _ Hs)];
    cbn [negb].
  2: { eapply Hpack; [| | |reflexivity]; [auto with quiet | | by eauto].
       split; [by left | done]. }
  unfold try_except, path_exists, path_is_dir, emit, get, ret, bind.
  destruct (node_at fs p) as [nd|] eqn:Ep; destruct ow; cbn.
  2: { eapply Hpack; [| | |reflexivity]; [auto with quiet | | by eauto].
       split; [by right; left | done]. }
  all: destruct (node_at fs (parent p)) as [[sz c|]|] eqn:Epar; run_with Epar.
  all: try (destruct (mkdir_parents_cases (parent p) fs Epar)
              as [[e Hmk]|(fs' & Hmk & Hdir)];
            rewrite Hmk; cbn;
            [assert (is_Exception e = true) as ->
               by (revert Hmk; unfold mkdir_parents, emit, get, put, raise, bind; cbn;
                   destruct (mkdir_error fs (parent p)); [|destruct (existsb _ _)];
                   by intros [= <-]);
             cbn
            |rewrite Hdir; cbn]).
  all: eapply Hpack; [| | |reflexivity]; [auto 10 with quiet | | first [done | by eauto]].
  all: split; try done.
  all: try (intros _; right; right; right; by eauto).
  all: try (intros _; right; right; left; split; [done|]; by eauto).
  all: intros [?|[[? ?]|[[? (? & ? & ?)]|(? & ? & ?)]]]; try done; try congruence.
Qed.

Lemma setup_logging_run (v : bool) (lf : option Path) (fs : FS) :
  ∃ r fs' t, setup_logging v lf fs = (r, fs', t) ∧ r ≠ OutOfFuel ∧ quiet t.
Proof.
  unfold setup_logging, open_log_file, emit, get, put, raise, ret, bind. cbn.
  destruct lf as [f|]; cbn; [|eexists _, _, _; split; [reflexivity|]; fin].
  destruct (node_at fs f) as [[]|] eqn:Ef; run_with Ef;
    [eexists _, _, _; split; [reflexivity|]; fin ..|].
  destruct (node_at fs (parent f)) as [[]|]; cbn;
    eexists _, _, _; (split; [reflexivity|]); fin.
Qed.

(** What [__init__] does with its two validations. *)
Lemma init_cases (pdf : Path) (docx : option Path)
    (cfg : option ConversionConfig) (fs : FS) :
  let cfg0 := default DEFAULT_CONFIG cfg in
  ∀ r fs' t, __init__ pdf docx cfg fs = (r, fs', t) →
  (pdf_rejected fs pdf →
   ∃ msg, r = Raise (ValueError ("Invalid PDF file: " +:+ msg)) ∧ fs' = fs) ∧
  (∀ out, ¬ pdf_rejected fs pdf → output_path pdf docx = inr out →
          output_rejected fs out (overwrite cfg0) →
          ∃ msg, r = Raise (ValueError ("Invalid output path: " +:+ msg)) ∧ fs' = fs) ∧
  (∀ self, r = Ok self →
           ¬ pdf_rejected fs pdf ∧
           output_path pdf docx = inr (docx_path self) ∧
           ¬ output_rejected fs (docx_path self) (overwrite cfg0) ∧
           pdf_path self = pdf ∧ config self = cfg0 ∧
           converter self = None ∧ progress_callback self = None) ∧
  r ≠ OutOfFuel ∧ quiet t.
Proof.
  intros cfg0 r fs' t.
  destruct (validate_pdf_cases pdf fs) as (b & msg & t1 & Hv1 & Hq1 & Hb1 & Hm1).
  unfold __init__. fold cfg0. unfold bind at 1. rewrite Hv1.
  destruct b; cbn [negb].
  2: { destruct Hm1 as [m ->]; [done|]. unfold raise. intros [= <- <- <-].
       split; [eauto|]. split; [intros out Hn; by destruct Hn, Hb1; auto|].
       split; [done|]. split; [done|]. by rewrite app_nil_r. }
  assert (¬ pdf_rejected fs pdf) as Hok by (intros ?%Hb1; done).
  unfold bind at 1.
  assert (match docx with
          | Some p => ret p
          | None => of_sum (with_suffix pdf ".docx")
          end fs =
          match output_path pdf docx with
          | inr out => (Ok out, fs, [])
          | inl e => (Raise e, fs, [])
          end) as ->.
  { unfold output_path. destruct docx; [done|]. by destruct (with_suffix pdf ".docx"). }
  destruct (output_path pdf docx) as [e|out] eqn:Hout.
  { intros [= <- <- <-]. split; [done|]. split; [done|]. split; [done|].
    split; [done|]. by rewrite app_nil_r. }
  destruct (validate_output_path_cases out (overwrite cfg0) fs)
    as (b & msg2 & fs2 & t2 & Hv2 & Hq2 & Hb2 & Hm2).
  unfold bind at 1. rewrite Hv2.
  destruct b; cbn [negb].
  2: { destruct Hm2 as [[m ->] ->]; [done|]. unfold raise. intros [= <- <- <-].
       split; [done|]. split; [intros out' _ [= <-] _; eauto|].
       split; [done|]. split; [done|]. fin. }
  assert (¬ output_rejected fs out (overwrite cfg0)) as Hok2 by (intros ?%Hb2; done).
  destruct (setup_logging_run (verbose cfg0) (log_file cfg0) fs2)
    as (r3 & fs3 & t3 & Hv3 & Hr3 & Hq3).
  unfold bind, ret. rewrite Hv3.
  destruct r3 as [lg|e|]; [| |done]; intros [= <- <- <-].
  - split; [done|]. split; [intros out' _ [= <-] ?; done|].
    split; [intros self [= <-]; cbn; done|]. fin.
  - split; [done|]. split; [intros out' _ [= <-] ?; done|]. fin.
Qed.

End WithServices.

Import Samples.

Example init_accepts_doc :
  let '(r, _, _) := __init__ (sv := sv_ok) ["doc.pdf"] None None fs_doc in
  r = Ok (conv0 DEFAULT_CONFIG None).
Proof. vm_compute. reflexivity. Qed.

End InitSpec.

(** ** cli.py *)

Module CliSpec.

Import PyStr Pathlib Config Utils Converter Cli Naming Observed Faults Trace.
Import PathlibSpec TraceSpec UtilsSpec ConverterSpec InitSpec.

Local Arguments get_file_info : simpl never.
Local Arguments __init__ : simpl never.
Local Arguments convert : simpl never.
Local Arguments with_suffix : simpl never.
Local Arguments of_string : simpl never.

Section WithServices.
Context {sv : Services}.

Lemma print_file_info_run (p : Path) (fs : FS) :
  ∃ t, print_file_info p fs = (Ok tt, fs, t) ∧ quiet t.
Proof.
  destruct (get_file_info_run p fs) as (info & t & Hrun & Hq & _).
  unfold print_file_info, print, emit, ret, bind. rewrite Hrun. cbn.
  destruct (info_encrypted info); cbn; eexists; (split; [reflexivity|]);
    auto 12 with quiet.
Qed.

(** The [try] block of [main] on a missing input. *)
Lemma main_body_missing (args : Args) (verbose : bool) (fs : FS) :
  let pdf := of_string (args_pdf_path args) in
  node_at fs pdf = None →
  main_body args verbose fs =
    (Ok 1, fs, [EvExists pdf; EvPrint true ("Error: PDF file not found: " +:+ str pdf)]).
Proof.
  intros pdf Hnone. unfold main_body. fold pdf.
  unfold bind at 1. unfold path_exists, eprint, emit, get, ret, bind. cbn.
  by rewrite Hnone.
Qed.

(** The [try] block of [main] on an existing input: it does not return
    [1], and it returns [0] only after a conversion that left the output
    file in place. *)
Lemma main_body_present (args : Args) (verbose : bool) (fs : FS) :
  let pdf := of_string (args_pdf_path args) in
  node_at fs pdf ≠ None →
  ∀ rb fsb tb, main_body args verbose fs = (rb, fsb, tb) →
  rb ≠ OutOfFuel ∧
  ∀ code, rb = Ok code →
    code = 0 ∧
    ∃ out start stop,
      node_at fsb out ≠ None ∧ EvSessionConvert pdf out start stop ∈ tb.
Proof.
  intros pdf Hsome rb fsb tb. unfold main_body. fold pdf.
  unfold bind at 1. rewrite path_exists_run.
  destruct (node_at fs pdf) as [nd|] eqn:Hpdf; [clear Hsome|done]. cbn [negb].
  unfold bind at 1.
  match goal with
  | |- context [let (_, _) := ?d fs in _] =>
      assert (∃ r, d fs = (r, fs, []) ∧ r ≠ OutOfFuel) as (rd & Hd & Hrd);
        [destruct (truthy_opt (args_output args)); [by eexists|];
         destruct (with_suffix pdf ".docx"); by eexists
        |rewrite Hd]
  end.
  destruct rd as [out|e|]; [|by intros [= <- <- <-]|done].
  assert (∃ ti, (if verbose then print_file_info pdf else ret ()) fs = (Ok tt, fs, ti))
    as [ti Hi].
  { destruct verbose; [|by eexists].
    destruct (print_file_info_run pdf fs) as (ti & ? & _). by eexists. }
  unfold bind at 1. rewrite Hi.
  set (cfg := {| start_page := _ |}).
  destruct (__init__ pdf (Some out) (Some cfg) fs) as [[ri fsi] t1] eqn:Hinit.
  destruct (init_cases _ _ _ _ _ _ _ Hinit) as (_ & _ & Hself & Hri & _).
  unfold bind at 1. rewrite Hinit.
  destruct ri as [self|e|]; [|by intros [= <- <- <-]|done].
  destruct (Hself self eq_refl) as (_ & _ & _ & Hp & _ & Hc & _).
  destruct (convert (self, fsi)) as [[rc [self' fsc]] tc] eqn:Hconv.
  destruct (convert_state self fsi Hc _ _ _ Hconv) as [_ Hrc].
  unfold bind at 1. unfold with_self. rewrite Hconv.
  destruct rc as [res|e|]; [|by intros [= <- <- <-]|done].
  destruct (convert_ok self fsi Hc _ _ _ Hconv) as (-> & Hex & _ & Hev).
  cbn in Hex. rewrite Hp in Hev.
  unfold print, stat_size, emit, get, raise, ret, bind.
  destruct (node_at fsc (docx_path self)) as [nd'|] eqn:Hnode; [|done].
  assert (∀ t, EvSessionConvert pdf (docx_path self) (start_page (config self))
                 (end_page (config self)) ∈ EvExists pdf :: ti ++ t1 ++ tc ++ t) as Hin.
  { intros t. right. rewrite !elem_of_app. auto. }
  destruct verbose; run_with Hnode; [destruct nd'|]; intros [= <- <- <-];
    (split; [done|]); intros code [= <-]; (split; [done|]);
    exists (docx_path self), (start_page (config self)), (end_page (config self));
    rewrite Hnode; (split; [done|]); apply Hin.
Qed.

End WithServices.

Import Samples.

(** The three exit codes on sample runs: a conversion that succeeds, a
    missing input, a session that cannot be opened, an interrupt. *)
Example main_sample_runs :
  (main (sv := sv_ok) args_doc fs_doc).1.1 = Ok 0 ∧
  main (sv := sv_ok) args_doc ∅ =
    (Ok 1, ∅, [EvExists ["doc.pdf"];
               EvPrint true "Error: PDF file not found: doc.pdf"]) ∧
  (main (sv := sv_no_open) args_doc fs_doc).1.1 = Ok 1 ∧
  (main (sv := sv_interrupt) args_doc fs_doc).1.1 = Ok 130.
Proof. vm_compute. repeat split. Qed.

End CliSpec.

(** ** Channels *)

Module ChannelSpec.

Import Channels.

Lemma only_nil (cs : list channel) : only cs [].
Proof. constructor. Qed.

Lemma only_cons (cs : list channel) (e : event) (t : list event) :
  channel_of e ∈ cs → only cs t → only cs (e :: t).
Proof. by constructor. Qed.

Lemma only_app (cs : list channel) (t1 t2 : list event) :
  only cs t1 → only cs t2 → only cs (t1 ++ t2).
Proof. intros. by apply Forall_app. Qed.

Lemma only_app_inv (cs : list channel) (t1 t2 : list event) :
  only cs (t1 ++ t2) → only cs t1 ∧ only cs t2.
Proof. intros. by apply Forall_app. Qed.

Lemma only_mono (cs cs' : list channel) (t : list event) :
  cs ⊆ cs' → only cs t → only cs' t.
Proof. intros Hsub Ho. eapply Forall_impl; [exact Ho|]. intros e. apply Hsub. Qed.

Lemma only_not_elem (cs : list channel) (t : list event) (e : event) :
  only cs t → channel_of e ∉ cs → e ∉ t.
Proof.
  intros Ho Hc Hin. apply Hc. unfold only in Ho. rewrite Forall_forall in Ho.
  by apply Ho.
Qed.

Section Combinators.
Context {S : Type} (cs : list channel).

Lemma confined_ret {A} (a : A) : confined (S := S) cs (ret a).
Proof. intros s. constructor. Qed.

Lemma confined_raise {A} (e : exn) : confined (S := S) (A := A) cs (raise e).
Proof. intros s. constructor. Qed.

Lemma confined_out_of_fuel {A} : confined (S := S) (A := A) cs out_of_fuel.
Proof. intros s. constructor. Qed.

Lemma confined_get : confined (S := S) cs get.
Proof. intros s. constructor. Qed.

Lemma confined_put (s0 : S) : confined cs (put s0).
Proof. intros s. constructor. Qed.

Lemma confined_emit (ev : event) : channel_of ev ∈ cs → confined (S := S) cs (emit ev).
Proof. intros H s. by repeat constructor. Qed.

Lemma confined_bind {A B} (m : M S A) (k : A → M S B) :
  confined cs m → (∀ a, confined cs (k a)) → confined cs (bind m k).
Proof.
  intros Hm Hk s. unfold bind. specialize (Hm s).
  destruct (m s) as [[[a|e|] s1] t1]; cbn in *; try done.
  specialize (Hk a s1). destruct (k a s1) as [[r s2] t2]. cbn in *.
  by apply only_app.
Qed.

Lemma confined_try_except {A} (m : M S A) (h : exn → M S A) :
  confined cs m → (∀ e, confined cs (h e)) → confined cs (try_except m h).
Proof.
  intros Hm Hh s. unfold try_except. specialize (Hm s).
  destruct (m s) as [[[a|e|] s1] t1]; cbn in *; try done.
  destruct (is_Exception e); [|done].
  specialize (Hh e s1). destruct (h e s1) as [[r s2] t2]. cbn in *.
  by apply only_app.
Qed.

Lemma confined_try_except_interrupt {A} (m hi : M S A) (he : exn → M S A) :
  confined cs m → confined cs hi → (∀ e, confined cs (he e)) →
  confined cs (try_except_interrupt m hi he).
Proof.
  intros Hm Hi Hh s. unfold try_except_interrupt. specialize (Hm s).
  destruct (m s) as [[[a|e|] s1] t1]; cbn in *; try done.
  specialize (Hi s1). specialize (Hh e s1).
  destruct (hi s1) as [[ri si] ti], (he e s1) as [[r s2] t2]. cbn in *.
  destruct e; cbn; by apply only_app.
Qed.

Lemma confined_try_finally {A} (m : M S A) (f : M S unit) :
  confined cs m → confined cs f → confined cs (try_finally m f).
Proof.
  intros Hm Hf s. unfold try_finally. specialize (Hm s).
  destruct (m s) as [[r s1] t1]. specialize (Hf s1).
  destruct (f s1) as [[[[]|e|] s2] t2]; cbn in *;
    destruct r; cbn; try done; by apply only_app.
Qed.

Lemma confined_of_sum {A} (x : exn + A) : confined (S := S) cs (of_sum x).
Proof. destruct x; intros s; constructor. Qed.

Lemma confined_mono {A} (cs0 : list channel) (m : M S A) :
  cs0 ⊆ cs → confined cs0 m → confined cs m.
Proof. intros Hsub Hm s. by apply (only_mono cs0). Qed.

End Combinators.

Lemma confined_lift_fs {O A : Type} (cs : list channel) (m : M FS A) :
  confined cs m → confined cs (lift_fs (O := O) m).
Proof.
  intros Hm [o fs]. unfold lift_fs. specialize (Hm fs).
  by destruct (m fs) as [[r fs'] t].
Qed.

Lemma confined_with_self {O A : Type} (cs : list channel) (o : O) (m : M (O * FS) A) :
  confined cs m → confined cs (with_self o m).
Proof.
  intros Hm fs. unfold with_self. specialize (Hm (o, fs)).
  by destruct (m (o, fs)) as [[r [o' fs']] t].
Qed.

Lemma confined_run {S A} (cs : list channel) (m : M S A) (s : S) r s' t :
  confined cs m → m s = (r, s', t) → only cs t.
Proof. intros Hm Hrun. specialize (Hm s). by rewrite Hrun in Hm. Qed.

(** Membership of a channel in a list of channels that is given. *)
Ltac chan := cbn; by repeat first [apply list_elem_of_here | apply list_elem_of_further].

(** Inclusion of two lists of channels that are given. *)
Ltac chans :=
  let c := fresh "c" in
  intros c; cbn [app]; rewrite !elem_of_cons, !elem_of_nil; intros; destruct c; try tauto;
  exfalso; intuition discriminate.

(** Confinement of a computation built from the combinators. The functions
    it calls are looked up among the hints: [confined] holds the lemmas that
    are stated for every list of channels, [confined_at] those stated for one
    list, which are also tried under a larger list. *)
Create HintDb confined discriminated.
Create HintDb confined_at discriminated.

Ltac confine :=
  repeat first
    [ solve [eauto 3 with confined]
    | solve [eauto 3 with confined_at]
    | solve [eapply confined_mono; [|solve [eauto 3 with confined_at]]; chans]
    | apply confined_ret | apply confined_raise | apply confined_get
    | apply confined_put | apply confined_of_sum | apply confined_out_of_fuel
    | apply confined_emit; chan
    | apply confined_bind; [|intros ?]
    | apply confined_try_except; [|intros ?]
    | apply confined_try_except_interrupt; [| |intros ?]
    | apply confined_try_finally
    | apply confined_lift_fs
    | apply confined_with_self
    | match goal with
      | |- confined _ (if ?b then _ else _) => destruct b
      | |- confined _ (match ?x with _ => _ end) => destruct x
      | |- confined _ (let '(_, _) := ?x in _) => destruct x
      end ].

End ChannelSpec.

(** ** utils.py: more of its behaviour *)

Module UtilsFootprint.

Import PyStr Pathlib Utils Naming Channels ChannelSpec.

Section WithServices.
Context {sv : Services}.

Lemma confined_path_exists cs (p : Path) : ChRead ∈ cs → confined cs (path_exists p).
Proof. intros. unfold path_exists. confine. Qed.

Lemma confined_path_is_file cs (p : Path) : ChRead ∈ cs → confined cs (path_is_file p).
Proof. intros. unfold path_is_file. confine. Qed.

Lemma confined_path_is_dir cs (p : Path) : ChRead ∈ cs → confined cs (path_is_dir p).
Proof. intros. unfold path_is_dir. confine. Qed.

Lemma confined_stat_size cs (p : Path) : ChRead ∈ cs → confined cs (stat_size p).
Proof. intros. unfold stat_size. confine. Qed.

Lemma confined_mkdir_parents cs (p : Path) : ChMkdir ∈ cs → confined cs (mkdir_parents p).
Proof. intros. unfold mkdir_parents. confine. Qed.

Lemma confined_copy2 cs (src dst : Path) : ChCopy ∈ cs → confined cs (copy2 src dst).
Proof. intros. unfold copy2. confine. Qed.

Lemma confined_fitz_open cs (p : Path) : ChFitz ∈ cs → confined cs (fitz_open p).
Proof. intros. unfold fitz_open. confine. Qed.

Lemma confined_fitz_close cs (p : Path) : ChFitz ∈ cs → confined cs (fitz_close p).
Proof. intros. unfold fitz_close. confine. Qed.

Lemma confined_log {S} cs (l : string) (lvl : level) (msg : string) :
  ChLogging ∈ cs → confined (S := S) cs (log l lvl msg).
Proof. intros. unfold log. confine. Qed.

Lemma confined_print {S} cs (msg : string) :
  ChStdout ∈ cs → confined (S := S) cs (print msg).
Proof. intros. unfold print. confine. Qed.

Lemma confined_eprint {S} cs (msg : string) :
  ChStderr ∈ cs → confined (S := S) cs (eprint msg).
Proof. intros. unfold eprint. confine. Qed.

End WithServices.

#[export] Hint Resolve confined_path_exists confined_path_is_file confined_path_is_dir
  confined_stat_size confined_mkdir_parents confined_copy2 confined_fitz_open
  confined_fitz_close confined_log confined_print confined_eprint : confined.
#[export] Hint Extern 1 (_ ∈ _) => chan : confined.

Section WithServices.
Context {sv : Services}.

Lemma confined_validate_pdf (p : Path) : confined [ChRead; ChFitz] (validate_pdf p).
Proof. unfold validate_pdf. confine. Qed.

Lemma confined_validate_output_path (p : Path) (ow : bool) :
  confined [ChRead; ChMkdir] (validate_output_path p ow).
Proof. unfold validate_output_path. confine. Qed.

Lemma confined_get_file_info (p : Path) :
  confined [ChRead; ChFitz; ChLogging] (get_file_info p).
Proof. unfold get_file_info. confine. Qed.

Lemma confined_backup_probe (fuel : nat) (p b : Path) (counter : Z) :
  confined [ChRead] (backup_probe fuel p b counter).
Proof.
  revert b counter. induction fuel as [|fuel IH]; intros b counter; cbn [backup_probe].
  - confine.
  - confine.
Qed.

Lemma confined_create_backup (p : Path) :
  confined [ChRead; ChCopy; ChLogging] (create_backup p).
Proof.
  unfold create_backup. confine.
  eapply confined_mono; [|apply confined_backup_probe]. chans.
Qed.

Lemma confined_setup_logging (verbose : bool) (log_file : option Path) :
  confined [ChLogging] (setup_logging verbose log_file).
Proof. unfold setup_logging, open_log_file. confine. Qed.

End WithServices.

#[export] Hint Resolve confined_validate_pdf confined_validate_output_path
  confined_get_file_info confined_backup_probe confined_create_backup
  confined_setup_logging : confined_at.

End UtilsFootprint.

Module UtilsExtra.

Import PyStr Pathlib Utils Naming Observed Observed2 Trace Channels.
Import PathlibSpec TraceSpec UtilsSpec InitSpec ChannelSpec UtilsFootprint.

Local Arguments mkdir_parents : simpl never.
Local Arguments backup_probe : simpl never.

(** Membership in a trace that is given, as a hypothesis and as a goal. *)
Ltac mem_inv H :=
  repeat (apply elem_of_cons in H as [H|H]; [try discriminate H|]);
  try (by apply elem_of_nil in H).

Ltac mem := by repeat first [apply list_elem_of_here | apply list_elem_of_further].

(** The facts about a run whose trace is given. *)
Ltac settle :=
  repeat match goal with
         | |- _ ∧ _ => split
         | |- _ ↔ _ => split
         | |- _ → _ => intros ?
         end;
  repeat match goal with
         | H : _ ∧ _ |- _ => destruct H
         | H : ∃ _, _ |- _ => destruct H
         | H : _ ∈ _ |- _ => mem_inv H
         end;
  simplify_eq; try done; try mem;
  try (by left); try (by right); try (by eexists); try (by do 2 eexists);
  try (by auto 3).

Section WithServices.
Context {sv : Services}.

(** [Utils.validate_pdf], whose tests are answered, does not raise and
    leaves the file system as it is. It accepts exactly a regular file whose
    extension is [.pdf] in any case and which PyMuPDF opens with at least one
    page; a verdict carries a message exactly when it rejects. PyMuPDF is
    asked only about a regular file with that extension, a document it opened
    is closed, and nothing but file system tests and PyMuPDF is called. *)
Lemma validate_pdf_answered (p : Path) (fs : FS) :
  ∃ b msg t,
    validate_pdf p fs = (Ok (b, msg), fs, t) ∧
    (b = true ↔ msg = None) ∧
    (b = true ↔
       ∃ sz d, node_at fs p = Some (File sz (inr d)) ∧
               lower (suffix p) = ".pdf" ∧ doc_pages d ≠ 0%nat) ∧
    (EvFitzOpen p ∈ t ↔
       (∃ sz c, node_at fs p = Some (File sz c)) ∧ lower (suffix p) = ".pdf") ∧
    (EvFitzClose p ∈ t ↔
       EvFitzOpen p ∈ t ∧ ∃ sz d, node_at fs p = Some (File sz (inr d))) ∧
    only [ChRead; ChFitz] t.
Proof.
  assert (∃ r, validate_pdf p fs = r) as [[[r fs'] t] Hrun] by eauto.
  pose proof (confined_run _ _ _ _ _ _ (confined_validate_pdf p) Hrun) as Honly.
  revert Hrun Honly.
  destruct (node_at fs p) as [[sz [m|d]|]|] eqn:E;
    unfold validate_pdf, try_except, path_exists, path_is_file, fitz_open, fitz_close,
      emit, get, raise, ret, bind; run_with E.
  all: try (destruct (decide (lower (suffix p) = ".pdf")) as [Hs|Hs];
            [rewrite (bool_decide_eq_true_2 _ Hs) | rewrite (bool_decide_eq_false_2 _ Hs)];
            run_with E).
  all: try (destruct (decide (doc_pages d = 0%nat)) as [Hp|Hp];
            [rewrite (bool_decide_eq_true_2 _ Hp) | rewrite (bool_decide_eq_false_2 _ Hp)];
            cbn).
  all: intros [= <- <- <-] Honly; do 3 eexists; split; [reflexivity|].
  all: settle.
Qed.

Lemma prefixes_length (p q : Path) : q ∈ prefixes p → (length q ≤ length p)%nat.
Proof.
  unfold prefixes. intros (n & -> & Hn)%list_elem_of_fmap.
  rewrite length_take. lia.
Qed.

Lemma parent_length (p : Path) : p ≠ [] → (length (parent p) < length p)%nat.
Proof.
  intros Hne. unfold parent. destruct (exists_last Hne) as (l & x & ->).
  rewrite removelast_last, length_app. cbn. lia.
Qed.

Lemma mkdir_parents_effect (p : Path) (fs : FS) r fs' t :
  mkdir_parents p fs = (r, fs', t) →
  t = [EvMkdir p] ∧
  ((∃ msg, r = Raise (OSError msg) ∧ fs' = fs) ∨
   (r = Ok tt ∧
    ∀ q, fs' !! q = match fs !! q with
                    | Some v => Some v
                    | None => if decide (q ∈ prefixes p) then Some Dir else None
                    end)).
Proof.
  unfold mkdir_parents, emit, get, put, raise, bind. cbn.
  destruct (mkdir_error fs p) as [msg|]; cbn; [intros [= <- <- <-]; eauto|].
  destruct (existsb _ _); cbn; intros [= <- <- <-]; [eauto|].
  split; [done|]. right. split; [done|]. intros q. apply mkdir_fold_lookup.
Qed.

(** The verdict of [validate_output_path] and what it does to the file
    system. *)
Lemma validate_output_path_run (p : Path) (ow : bool) (fs : FS) :
  ∃ b msg fs' t,
    validate_output_path p ow fs = (Ok (b, msg), fs', t) ∧
    (b = false → is_Some msg ∧ fs' = fs) ∧
    (b = true →
       msg = None ∧ lower (suffix p) = ".docx" ∧
       (node_at fs p = None ∨ ow = true) ∧
       node_at fs' (parent p) = Some Dir) ∧
    (∀ q v, fs !! q = Some v → fs' !! q = Some v) ∧
    (∀ q v, fs' !! q = Some v →
       fs !! q = Some v ∨ (v = Dir ∧ q ∈ prefixes (parent p))) ∧
    fs' !! p = fs !! p ∧
    (EvMkdir (parent p) ∈ t → node_at fs (parent p) = None) ∧
    only [ChRead; ChMkdir] t.
Proof.
  assert (∃ r, validate_output_path p ow fs = r) as [[[r fs'] t] Hrun] by eauto.
  pose proof (confined_run _ _ _ _ _ _ (confined_validate_output_path p ow) Hrun) as Honly.
  assert (∀ fs1 : FS,
            (∀ q, fs1 !! q = match fs !! q with
                             | Some v => Some v
                             | None => if decide (q ∈ prefixes (parent p)) then Some Dir
                                       else None
                             end) →
            lower (suffix p) = ".docx" →
            (∀ q v, fs !! q = Some v → fs1 !! q = Some v) ∧
            (∀ q v, fs1 !! q = Some v →
               fs !! q = Some v ∨ (v = Dir ∧ q ∈ prefixes (parent p))) ∧
            fs1 !! p = fs !! p) as Hnew.
  { intros fs1 Hfs1 Hs. repeat split.
    - intros q v Hq. by rewrite Hfs1, Hq.
    - intros q v. rewrite Hfs1. destruct (fs !! q); [by left|].
      destruct (decide _); [|done]. intros [= <-]. by right.
    - rewrite Hfs1. destruct (fs !! p); [done|].
      rewrite decide_False; [done|]. intros Hin%prefixes_length.
      assert (p ≠ []) as Hne by (intros ->; by vm_compute in Hs).
      apply parent_length in Hne. lia. }
  revert Hrun Honly. unfold validate_output_path.
  destruct (decide (lower (suffix p) = ".docx")) as [Hs|Hs];
    [rewrite (bool_decide_eq_true_2 _ Hs) | rewrite (bool_decide_eq_false_2 _ Hs)];
    cbn [negb].
  2: { cbn. intros [= <- <- <-] Honly. do 4 eexists. split; [reflexivity|]. settle. }
  unfold try_except, path_exists, path_is_dir, emit, get, ret, bind.
  destruct (node_at fs p) as [nd|] eqn:Ep; destruct ow; cbn.
  2: { intros [= <- <- <-] Honly. do 4 eexists. split; [reflexivity|]. settle. }
  all: destruct (node_at fs (parent p)) as [[sz c|]|] eqn:Epar; run_with Epar.
  all: try (destruct (mkdir_parents (parent p) fs) as [[rm fsm] tm] eqn:Hmk;
            destruct (mkdir_parents_effect _ _ _ _ _ Hmk) as [-> [(m & -> & ->)|[-> Hfs1]]];
            cbn;
            [|assert (node_at fsm (parent p) = Some Dir) as Hdir
                by (assert (parent p ≠ []) by (intros Heq; by rewrite Heq in Epar);
                    rewrite node_at_cons by done; rewrite Hfs1;
                    rewrite node_at_cons in Epar by done; rewrite Epar;
                    by rewrite decide_True by (by apply elem_of_prefixes_self));
              rewrite Hdir; cbn; destruct (Hnew fsm Hfs1 Hs) as (? & ? & ?)]).
  all: intros [= <- <- <-] Honly; do 4 eexists; (split; [reflexivity|]).
  all: clear Hnew; try clear Hfs1; try clear Hmk; settle.
Qed.

Lemma backups_from (p : Path) (sz : Z) (c : string + Doc) (k : nat) :
  wf_name p →
  (∀ fs0 dst, copy_error fs0 p dst = None) →
  ∀ (j : nat) (fs : FS),
  fs !! p = Some (File sz c) →
  (∀ i, 0 ≤ i < Z.of_nat j → is_Some (fs !! nth_backup p i)) →
  (∀ i, Z.of_nat j ≤ i → fs !! nth_backup p i = None) →
  ∃ fs' t,
    backups k p fs = (Ok ((λ i : nat, Some (nth_backup p (Z.of_nat i))) <$> seq j k), fs', t) ∧
    (∀ i, Z.of_nat j ≤ i < Z.of_nat j + Z.of_nat k → fs' !! nth_backup p i = Some (File sz c)) ∧
    (∀ q, (∀ i, Z.of_nat j ≤ i < Z.of_nat j + Z.of_nat k → q ≠ nth_backup p i) → fs' !! q = fs !! q).
Proof.
  intros Hwf Hcopy. induction k as [|k IH]; intros j fs Hp Hold Hfree.
  - exists fs, []. split; [done|]. split; [intros; lia|done].
  - destruct (create_backup_file p fs sz c Hwf Hp) as (n & tp & Hn & Hnone & Hbelow & _ & Hrun).
    assert (n = Z.of_nat j) as ->.
    { destruct (Z.lt_trichotomy n (Z.of_nat j)) as [Hlt|[Heq|Hgt]]; [|done|].
      - destruct (Hold n) as [? Hsome]; [lia|]. by rewrite Hnone in Hsome.
      - destruct (Hbelow (Z.of_nat j)) as [? Hsome]; [lia|]. rewrite Hfree in Hsome by lia. done. }
    rewrite Hcopy in Hrun.
    set (fs1 := <[nth_backup p (Z.of_nat j) := File sz c]> fs) in *.
    destruct (IH (S j) fs1) as (fs' & t & Hrest & Hnew & Hkeep).
    + unfold fs1. rewrite lookup_insert_ne; [done|].
      apply append_name_ne_self. apply bak_suffix_shape.
    + intros i Hi. unfold fs1. destruct (decide (i = Z.of_nat j)) as [->|Hne].
      * by rewrite lookup_insert_eq.
      * rewrite lookup_insert_ne by (intros Heq%(inj (nth_backup p)); lia).
        apply Hold. lia.
    + intros i Hi. unfold fs1.
      rewrite lookup_insert_ne by (intros Heq%(inj (nth_backup p)); lia).
      apply Hfree. lia.
    + exists fs'. eexists. cbn [backups seq fmap list_fmap]. unfold bind at 1.
      rewrite Hrun. unfold bind at 1. rewrite Hrest. cbn. split; [reflexivity|]. split.
      * intros i Hi. destruct (decide (i = Z.of_nat j)) as [->|Hne].
        -- rewrite Hkeep; [unfold fs1; by rewrite lookup_insert_eq|].
           intros i Hi' Heq%(inj (nth_backup p)). lia.
        -- apply Hnew. lia.
      * intros q Hq. rewrite Hkeep by (intros i Hi; apply Hq; lia).
        unfold fs1. rewrite lookup_insert_ne; [done|].
        intros Heq. by apply (Hq (Z.of_nat j)); [lia|].
Qed.

(** X5. Repeated backups of a file never overwrite one another: from a state
    without backups of a regular file, and with copies that succeed, [k]
    calls of [create_backup] return [<p>.bak], [<p>.bak.1], ...,
    [<p>.bak.(k-1)] in this order; afterwards each of them holds the size and
    content of the file, and every other entry of the file system, the file
    itself among them, is as before. *)
Theorem backups_are_numbered (k : nat) (p : Path) (fs : FS) (sz : Z) (c : string + Doc) :
  wf_name p →
  fs !! p = Some (File sz c) →
  (∀ i, 0 ≤ i → fs !! nth_backup p i = None) →
  (∀ fs0 dst, copy_error fs0 p dst = None) →
  ∃ fs' t,
    backups k p fs = (Ok ((λ i : nat, Some (nth_backup p (Z.of_nat i))) <$> seq 0 k), fs', t) ∧
    (∀ i, 0 ≤ i < Z.of_nat k → fs' !! nth_backup p i = Some (File sz c)) ∧
    fs' !! p = Some (File sz c) ∧
    (∀ q, (∀ i, 0 ≤ i < Z.of_nat k → q ≠ nth_backup p i) → fs' !! q = fs !! q).
Proof.
  intros Hwf Hp Hfree Hcopy.
  destruct (backups_from p sz c k Hwf Hcopy 0%nat fs Hp) as (fs' & t & Hrun & Hnew & Hkeep).
  - intros i Hi. lia.
  - intros i Hi. apply Hfree. lia.
  - exists fs', t. split; [done|]. split; [intros i Hi; apply Hnew; lia|]. split.
    + rewrite Hkeep; [done|]. intros i _ Heq.
      by apply (append_name_ne_self p (bak_suffix i)); [apply bak_suffix_shape|].
    + intros q Hq. apply Hkeep. intros i Hi. apply Hq. lia.
Qed.

End WithServices.

Import Samples.

Lemma doc_pdf_wf_name : wf_name ["doc.pdf"].
Proof. by split. Qed.

Lemma backups_are_numbered_witness :
  wf_name ["doc.pdf"] ∧
  fs_doc !! ["doc.pdf"] = Some (File 100 (inr doc5)) ∧
  ∃ fs' t,
    backups (sv := sv_ok) 3 ["doc.pdf"] fs_doc =
      (Ok [Some ["doc.pdf.bak"]; Some ["doc.pdf.bak.1"]; Some ["doc.pdf.bak.2"]], fs', t) ∧
    fs' !! ["doc.pdf.bak.2"] = Some (File 100 (inr doc5)).
Proof.
  assert (∀ i, 0 ≤ i → fs_doc !! nth_backup ["doc.pdf"] i = None) as Hfree.
  { intros i _. unfold fs_doc. apply lookup_singleton_ne.
    intros Heq. symmetry in Heq. revert Heq.
    apply (append_name_ne_self ["doc.pdf"] (bak_suffix i)), bak_suffix_shape. }
  destruct (backups_are_numbered (sv := sv_ok) 3 ["doc.pdf"] fs_doc 100 (inr doc5)
              doc_pdf_wf_name eq_refl Hfree (λ _ _, eq_refl))
    as (fs' & t & Hrun & Hnew & _).
  split; [exact doc_pdf_wf_name|]. split; [reflexivity|].
  exists fs', t. split; [exact Hrun|]. apply (Hnew 2). lia.
Defined.

End UtilsExtra.

(** ** format_file_size *)

Module FormatSizeSpec.

Import FormatSize PathlibSpec.

Lemma round_half_even_lower (x d a : Z) :
  0 < d → a * d ≤ x → a ≤ round_half_even x d.
Proof.
  intros Hd Ha. unfold round_half_even.
  assert (a ≤ x / d) by (apply Z.div_le_lower_bound; lia).
  repeat case_match; lia.
Qed.

Lemma round_half_even_upper (x d b : Z) :
  0 < d → x ≤ b * d → round_half_even x d ≤ b.
Proof.
  intros Hd Hb. unfold round_half_even.
  pose proof (Z.div_mod x d ltac:(lia)) as Hdm.
  pose proof (Z.mod_pos_bound x d Hd) as Hr.
  assert (x / d ≤ b) by (apply Z.div_le_upper_bound; lia).
  destruct (decide (x / d = b)) as [Heq|Hne].
  - assert (x mod d = 0) as -> by nia.
    rewrite (proj2 (Z.ltb_lt (2 * 0) d)) by lia. lia.
  - repeat case_match; lia.
Qed.

Lemma format_loop_unit (units : list string) :
  ∀ num den,
  format_loop units num den =
    fmt2 num (den * 1024 ^ Z.of_nat (unit_index (length units) num den))
      +:+ " " +:+ nth (unit_index (length units) num den) units "PB".
Proof.
  induction units as [|u units IH]; intros num den; cbn [format_loop length unit_index].
  - by rewrite Z.mul_1_r.
  - destruct (num <? 1024 * den); [by rewrite Z.mul_1_r|].
    rewrite IH. cbn [nth].
    replace (den * 1024 * 1024 ^ Z.of_nat (unit_index (length units) num (den * 1024)))
      with (den * 1024 ^ Z.of_nat (S (unit_index (length units) num (den * 1024)))); [done|].
    rewrite Nat2Z.inj_succ, Z.pow_succ_r by lia. lia.
Qed.

Lemma unit_index_spec (fuel : nat) :
  ∀ num den, 0 < den →
  (unit_index fuel num den ≤ fuel)%nat ∧
  (unit_index fuel num den = 0%nat ∨
   den * 1024 ^ Z.of_nat (unit_index fuel num den) ≤ num) ∧
  (unit_index fuel num den = fuel ∨
   num < den * 1024 ^ (Z.of_nat (unit_index fuel num den) + 1)).
Proof.
  induction fuel as [|fuel IH]; intros num den Hden; cbn [unit_index].
  - repeat split; auto.
  - destruct (Z.ltb_spec num (1024 * den)) as [Hlt|Hge].
    + repeat split; [lia|by left|]. right. cbn. lia.
    + destruct (IH num (den * 1024) ltac:(lia)) as (Hle & Hlow & Hup).
      set (k := unit_index fuel num (den * 1024)) in *. clearbody k.
      rewrite Nat2Z.inj_succ, Z.pow_succ_r by lia.
      repeat split; [lia| |].
      * right. destruct Hlow as [->|Hlow]; [cbn; lia|lia].
      * destruct Hup as [->|Hup]; [by left|right].
        replace (Z.succ (Z.of_nat k) + 1) with (Z.succ (Z.of_nat k + 1)) by lia.
        rewrite Z.pow_succ_r by lia. lia.
Qed.

(** X6. The unit [format_file_size] picks and the number it shows, for the
    sizes a file can have. The unit is the [k]-th of B, KB, MB, GB, TB, PB
    with [1024^k <= n < 1024^(k+1)], PB from [1024^5] on; the number is
    [n / 1024^k] rounded to two decimals. So the number shown is at least
    [1.00] in every unit past B and at most [1024.00] in every unit before
    PB, and a size below 1024 is shown as the byte count followed by
    [.00 B]. *)
Theorem format_file_size_unit (n : Z) :
  0 ≤ n < 2 ^ 53 →
  let k := unit_index 5 n 1 in
  format_file_size n = fmt2 n (1024 ^ Z.of_nat k) +:+ " " +:+ unit_name k ∧
  (k ≤ 5)%nat ∧
  (k = 0%nat ∨ 1024 ^ Z.of_nat k ≤ n) ∧
  (k = 5%nat ∨ n < 1024 ^ (Z.of_nat k + 1)) ∧
  (k ≠ 0%nat → 100 ≤ hundredths n (1024 ^ Z.of_nat k)) ∧
  (k ≠ 5%nat → hundredths n (1024 ^ Z.of_nat k) ≤ 102400) ∧
  (n < 1024 → format_file_size n = pretty n +:+ ".00 B").
Proof.
  intros Hn k.
  destruct (unit_index_spec 5 n 1 ltac:(lia)) as (Hle & Hlow & Hup). fold k in Hle, Hlow, Hup.
  rewrite !Z.mul_1_l in *.
  assert (0 < 1024 ^ Z.of_nat k) as Hpos by (apply Z.pow_pos_nonneg; lia).
  split; [|split; [done|split; [done|split; [done|split; [|split]]]]].
  - unfold format_file_size. rewrite format_loop_unit. fold k.
    by rewrite Z.mul_1_l.
  - intros Hk. apply round_half_even_lower; [done|]. destruct Hlow; [done|lia].
  - intros Hk. apply round_half_even_upper; [done|]. destruct Hup as [?|Hup]; [done|].
    rewrite Z.pow_add_r, Z.pow_1_r in Hup by lia. lia.
  - intros Hsmall. unfold format_file_size. cbn [format_loop].
    rewrite (proj2 (Z.ltb_lt n (1024 * 1))) by lia.
    unfold fmt2, hundredths, round_half_even.
    rewrite Z.div_1_r, Z.mod_1_r. change (2 * 0 <? 1) with true. cbv iota.
    replace (100 * n / 100) with n by (rewrite Z.mul_comm, Z.div_mul; lia).
    replace ((100 * n) mod 100) with 0 by (rewrite Z.mul_comm, Z.mod_mul; lia).
    rewrite app_assoc_str. reflexivity.
Qed.

(** X7. A size just below the next unit is shown as [1024.00] of the smaller
    unit, not as [1.00] of the larger one: the unit is chosen before the
    number is rounded. This holds for every size [n] with
    [1023.995 * 1024^k <= n < 1024^(k+1)] in the units KB to TB; a size of
    1048575 bytes is shown as [1024.00 KB]. *)
Theorem format_file_size_rounds_past_unit (n : Z) (k : nat) :
  (1 ≤ k ≤ 4)%nat →
  204799 * 1024 ^ Z.of_nat k ≤ 200 * n →
  n < 1024 ^ (Z.of_nat k + 1) →
  format_file_size n = "1024.00 " +:+ unit_name k.
Proof.
  intros Hk Hlow Hup.
  assert (hundredths n (1024 ^ Z.of_nat k) = 102400 ∧ unit_index 5 n 1 = k) as [Hh Hu].
  { assert (k = 1 ∨ k = 2 ∨ k = 3 ∨ k = 4)%nat as Hcases by lia.
    unfold hundredths, round_half_even, unit_index.
    destruct Hcases as [-> | [-> | [-> | ->]]]; cbn in Hlow, Hup |- *.
    all: repeat match goal with
                | |- context [1024 ^ ?e] =>
                    let v := eval vm_compute in (1024 ^ e) in
                    change (1024 ^ e) with v in *
                | H : context [1024 ^ ?e] |- _ =>
                    let v := eval vm_compute in (1024 ^ e) in
                    change (1024 ^ e) with v in *
                end.
    all: match goal with
         | |- context [Z.div ?x ?d] =>
             pose proof (Z.div_mod x d ltac:(lia)) as Hdm;
             pose proof (Z.mod_pos_bound x d ltac:(lia)) as Hr;
             assert (x / d = 102399) as Hq by nia;
             rewrite Hq in *
         end.
    all: split.
    all: repeat match goal with
                | |- context [?a <? ?b] => destruct (Z.ltb_spec a b)
                end; try lia; try done. }
  unfold format_file_size. rewrite format_loop_unit. cbn [length]. rewrite Hu, Z.mul_1_l.
  unfold fmt2. rewrite Hh. reflexivity.
Qed.

Lemma format_file_size_unit_witness :
  0 ≤ 1152 < 2 ^ 53 ∧ format_file_size 1152 = "1.12 KB".
Proof.
  split; [lia|].
  destruct (format_file_size_unit 1152 ltac:(lia)) as (Hfmt & _). rewrite Hfmt. reflexivity.
Defined.

Lemma format_file_size_rounds_past_unit_witness :
  format_file_size 1048575 = "1024.00 KB".
Proof. apply (format_file_size_rounds_past_unit 1048575 1); [lia | cbn; lia | cbn; lia]. Defined.

End FormatSizeSpec.

(** ** converter.py: more of its behaviour *)

Module ConverterFootprint.

Import PyStr Pathlib Config Utils Converter Channels ChannelSpec UtilsFootprint.

Section WithServices.
Context {sv : Services}.

Lemma confined_get_self cs : confined cs get_self.
Proof. intros s. constructor. Qed.

Lemma confined_update_self cs f : confined cs (update_self f).
Proof. intros s. constructor. Qed.

Lemma confined_Converter_open cs (p : Path) : ChSession ∈ cs → confined cs (Converter_open p).
Proof.
  intros H s. unfold Converter_open. destruct (session_open _ _); by repeat constructor.
Qed.

Lemma confined_Converter_convert cs (p out : Path) (start : Z) (stop : option Z) :
  ChSession ∈ cs → confined cs (Converter_convert p out start stop).
Proof.
  intros H s. unfold Converter_convert. destruct (session_convert _ _ _ _ _).
  by repeat constructor.
Qed.

Lemma confined_Converter_close cs (p : Path) :
  ChSession ∈ cs → confined cs (Converter_close p).
Proof. intros. unfold Converter_close. confine. Qed.

Lemma confined_logger_info cs msg : ChLogging ∈ cs → confined cs (logger_info msg).
Proof. intros. unfold logger_info. confine. Qed.

Lemma confined_logger_warning cs msg : ChLogging ∈ cs → confined cs (logger_warning msg).
Proof. intros. unfold logger_warning. confine. Qed.

Lemma confined_logger_error cs msg : ChLogging ∈ cs → confined cs (logger_error msg).
Proof. intros. unfold logger_error. confine. Qed.

End WithServices.

#[export] Hint Resolve confined_get_self confined_update_self confined_Converter_open
  confined_Converter_convert confined_Converter_close confined_logger_info
  confined_logger_warning confined_logger_error : confined.

Section WithServices.
Context {sv : Services}.

Lemma confined_init (pdf : Path) (docx : option Path) (cfg : option ConversionConfig) :
  confined [ChRead; ChFitz; ChMkdir; ChLogging] (__init__ pdf docx cfg).
Proof. unfold __init__. confine. Qed.

Lemma confined_log_file_info : confined [ChRead; ChFitz; ChLogging] _log_file_info.
Proof. unfold _log_file_info. confine. Qed.

Lemma confined_create_backup_if_needed :
  confined [ChRead; ChCopy; ChLogging] _create_backup_if_needed.
Proof. unfold _create_backup_if_needed. confine. Qed.

Lemma confined_convert_prepare :
  confined [ChRead; ChFitz; ChCopy; ChLogging] Observed.convert_prepare.
Proof.
  unfold Observed.convert_prepare.
  apply confined_bind; [|intros _].
  - eapply confined_mono; [|apply confined_log_file_info]. chans.
  - eapply confined_mono; [|apply confined_create_backup_if_needed]. chans.
Qed.

Lemma confined_convert_try : confined [ChRead; ChSession; ChLogging] convert_try.
Proof.
  unfold convert_try, convert_body, convert_handler, convert_finally. confine.
Qed.

Lemma confined_convert :
  confined [ChRead; ChFitz; ChCopy; ChSession; ChLogging] convert.
Proof.
  unfold convert.
  assert (confined [ChRead; ChFitz; ChCopy; ChSession; ChLogging] _log_file_info)
    by (eapply confined_mono; [|apply confined_log_file_info]; chans).
  assert (confined [ChRead; ChFitz; ChCopy; ChSession; ChLogging] _create_backup_if_needed)
    by (eapply confined_mono; [|apply confined_create_backup_if_needed]; chans).
  assert (confined [ChRead; ChFitz; ChCopy; ChSession; ChLogging] convert_try)
    by (eapply confined_mono; [|apply confined_convert_try]; chans).
  confine.
Qed.

Lemma confined_report_progress cs (current total : Z) :
  ChCallback ∈ cs → confined cs (report_progress current total).
Proof. intros. unfold report_progress. confine. Qed.

Lemma confined_convert_with_progress :
  confined [ChRead; ChFitz; ChCopy; ChSession; ChLogging; ChCallback] convert_with_progress.
Proof.
  unfold convert_with_progress.
  assert (confined [ChRead; ChFitz; ChCopy; ChSession; ChLogging; ChCallback] convert)
    by (eapply confined_mono; [|apply confined_convert]; chans).
  assert (∀ a b, confined [ChRead; ChFitz; ChCopy; ChSession; ChLogging; ChCallback]
                   (report_progress a b))
    by (intros; apply confined_report_progress; chan).
  confine.
Qed.

Lemma confined_exit : confined [ChSession] __exit__.
Proof. unfold __exit__. confine. Qed.

End WithServices.

#[export] Hint Resolve confined_init confined_log_file_info
  confined_create_backup_if_needed confined_convert_try confined_convert
  confined_convert_with_progress confined_exit : confined_at.
#[export] Hint Resolve confined_report_progress : confined.

End ConverterFootprint.

Module ConverterExtra.

Import PyStr Pathlib Config Utils Converter Naming Observed Observed2 Faults Trace Channels.
Import PathlibSpec TraceSpec UtilsSpec ConverterSpec InitSpec.
Import ChannelSpec UtilsFootprint UtilsExtra ConverterFootprint.

Local Arguments get_file_info : simpl never.
Local Arguments create_backup : simpl never.
Local Arguments backup_probe : simpl never.
Local Arguments _log_file_info : simpl never.
Local Arguments _create_backup_if_needed : simpl never.
Local Arguments convert_try : simpl never.
Local Arguments validate : simpl never.
Local Arguments convert : simpl never.

Section WithServices.
Context {sv : Services}.

Lemma conversions_app (t1 t2 : list event) :
  conversions (t1 ++ t2) = conversions t1 ++ conversions t2.
Proof. unfold conversions. apply omap_app. Qed.

Lemma only_conversions (cs : list channel) (t : list event) :
  only cs t → ChSession ∉ cs → conversions t = [].
Proof.
  intros Ho Hc. induction Ho as [|e t He Ho IH]; [done|].
  unfold conversions in *. cbn. rewrite IH.
  destruct e; try done.
Qed.

Lemma log_file_info_trace (self : PDFToDOCXConverter) (fs : FS) :
  ∃ info ti,
    get_file_info (pdf_path self) fs = (Ok info, fs, ti) ∧
    _log_file_info (self, fs) =
      (Ok tt, (self, fs),
       ti ++ info_records info ++
       (if info_encrypted info then [encrypted_warning] else [])).
Proof.
  destruct (get_file_info_run (pdf_path self) fs) as (info & ti & Hinfo & _ & _).
  exists info, ti. split; [done|].
  unfold _log_file_info, get_self, lift_fs, logger_info, logger_warning, log, emit, ret, bind.
  cbn. rewrite Hinfo. cbn. by destruct (info_encrypted info).
Qed.

Lemma create_backup_if_needed_cases (self : PDFToDOCXConverter) (fs : FS) :
  let out := docx_path self in
  _create_backup_if_needed (self, fs) =
    match node_at fs out with
    | Some _ =>
        if Config.create_backup (config self) then
          let '(r, fs', t) := create_backup out fs in
          match r with
          | Ok (Some b) =>
              (Ok tt, (self, fs'),
               EvExists out :: t ++ [EvLog "pdf_to_docx" INFO ("Created backup: " +:+ str b)])
          | Ok None =>
              (Ok tt, (self, fs'),
               EvExists out :: t ++ [EvLog "pdf_to_docx" WARNING "Failed to create backup"])
          | Raise e => (Raise e, (self, fs'), EvExists out :: t)
          | OutOfFuel => (OutOfFuel, (self, fs'), EvExists out :: t)
          end
        else (Ok tt, (self, fs), [EvExists out])
    | None => (Ok tt, (self, fs), [EvExists out])
    end.
Proof.
  intros out. unfold _create_backup_if_needed, get_self, lift_fs, path_exists,
    logger_info, logger_warning, log, emit, get, ret, bind. cbn. fold out.
  destruct (node_at fs out); cbn; [|done].
  destruct (Config.create_backup (config self)); cbn; [|done].
  destruct (create_backup out fs) as [[[[b|]|e|] fs'] t]; cbn; done.
Qed.

(** The trace of [create_backup] on an existing path: the tests of the loop,
    then at most one copy, to a backup name that is free. *)
Lemma create_backup_shape (p : Path) (fs : FS) :
  node_at fs p ≠ None →
  (∃ e t, ¬ wf_name p ∧ only [ChRead] t ∧ create_backup p fs = (Raise e, fs, t)) ∨
  (∃ n tp,
     0 ≤ n ∧ fs !! nth_backup p n = None ∧ only [ChRead] tp ∧
     create_backup p fs =
       let '(r, fs', t) := backup_copy p (nth_backup p n) fs in
       (r, fs', EvExists p :: tp ++ t)).
Proof.
  intros Hex. unfold create_backup. unfold bind at 1. unfold path_exists. cbn.
  destruct (node_at fs p) as [v|] eqn:Hp; [|done].
  cbn [negb]. unfold bind at 1.
  destruct (with_suffix p (suffix p +:+ ".bak")) as [e|q] eqn:Hws.
  - left. exists e, [EvExists p]. split; [|split; [by repeat constructor; chan | done]].
    intros Hwf. by rewrite with_suffix_append in Hws.
  - apply (with_suffix_inr p q ".bak") in Hws as ->. cbn.
    change (append_name p ".bak") with (nth_backup p 0).
    unfold bind at 1. cbn.
    destruct (backup_probe_spec p fs (S (size fs)) 0 (dom fs))
      as (n & t & Hn & Hall & Hq & Hrun).
    + lia.
    + intros i _ Hsome. by apply elem_of_dom.
    + rewrite size_dom. lia.
    + change (0 + 1) with 1 in Hrun.
      destruct Hrun as [[Hnone Hrun]|[Hwf [e Hrun]]].
      * right. exists n, t. split; [lia|]. split; [done|]. split.
        { exact (confined_run _ _ _ _ _ _ (confined_backup_probe _ _ _ _) Hrun). }
        unfold bind at 1; rewrite Hrun.
        fold (backup_copy p (nth_backup p n)).
        by destruct (backup_copy p (nth_backup p n) fs) as [[r fs'] t'].
      * left. exists e, (EvExists p :: [] ++ t).
        split; [done|]. split.
        { constructor; [chan|].
          exact (confined_run _ _ _ _ _ _ (confined_backup_probe _ _ _ _) Hrun). }
        unfold bind at 1; by rewrite Hrun.
Qed.

(** A run of [create_backup] on an existing path, with its trace. *)
Lemma create_backup_run (p : Path) (fs : FS) :
  node_at fs p ≠ None →
  (∃ e t, ¬ wf_name p ∧ only [ChRead] t ∧ create_backup p fs = (Raise e, fs, t)) ∨
  (∃ n tp,
     0 ≤ n ∧ fs !! nth_backup p n = None ∧ only [ChRead] tp ∧
     ((∃ sz c,
         fs !! p = Some (File sz c) ∧
         create_backup p fs =
           (Ok (Some (nth_backup p n)), <[nth_backup p n := File sz c]> fs,
            EvExists p :: tp ++ [EvCopy p (nth_backup p n)])) ∨
      (∃ msg,
         create_backup p fs =
           (Ok None, fs,
            EvExists p :: tp ++
              [EvCopy p (nth_backup p n);
               EvLog "root" ERROR ("Failed to create backup: " +:+ msg)])))).
Proof.
  intros Hex.
  destruct (create_backup_shape p fs Hex)
    as [(e & t & Hwf & Ht & Hrun)|(n & tp & Hn & Hfree & Htp & Hrun)].
  - left. by exists e, t.
  - right. exists n, tp. split; [done|]. split; [done|]. split; [done|].
    assert (nth_backup p n ≠ []) as Hne by apply append_name_ne_nil.
    pose proof (backup_copy_cases p (nth_backup p n) fs Hfree Hne) as Hcopy.
    destruct (node_at fs p) as [[sz c|]|] eqn:Ep; [| |done].
    + assert (fs !! p = Some (File sz c)) as Hp by (destruct p; [done|exact Ep]).
      destruct (copy_error fs p (nth_backup p n)) as [msg|]; rewrite Hcopy in Hrun.
      * right. by exists msg.
      * left. by exists sz, c.
    + destruct Hcopy as [msg Hcopy]. rewrite Hcopy in Hrun. right. by exists msg.
Qed.

(** What [convert] does before it announces the conversion: it leaves the
    converter as it is, and the file system too but for one new backup of the
    output file. A copy is attempted exactly when the output exists and
    backups are asked for; it is a copy of the output file to a backup name
    that is free. *)
Lemma convert_prepare_cases (self : PDFToDOCXConverter) (fs : FS) :
  let out := docx_path self in
  ∃ r1 fs1 t1,
    convert_prepare (self, fs) = (r1, (self, fs1), t1) ∧
    only [ChRead; ChFitz; ChCopy; ChLogging] t1 ∧ quiet t1 ∧
    r1 ≠ OutOfFuel ∧
    (fs1 = fs ∨
     ∃ n sz c,
       0 ≤ n ∧ fs !! out = Some (File sz c) ∧ fs !! nth_backup out n = None ∧
       fs1 = <[nth_backup out n := File sz c]> fs ∧ r1 = Ok tt) ∧
    (∀ e, r1 = Raise e → fs1 = fs ∧ ¬ wf_name out) ∧
    (∀ src dst, EvCopy src dst ∈ t1 →
       src = out ∧ (∃ n, 0 ≤ n ∧ dst = nth_backup out n) ∧ fs !! dst = None ∧
       Config.create_backup (config self) = true ∧ node_at fs out ≠ None) ∧
    (Config.create_backup (config self) = true → node_at fs out ≠ None → wf_name out →
     ∃ dst, EvCopy out dst ∈ t1).
Proof.
  intros out.
  destruct (convert_prepare_run self fs) as (r1 & fs1 & t1 & Hrun & Hfuel & Hq & _).
  pose proof (confined_run _ _ _ _ _ _ confined_convert_prepare Hrun) as Honly.
  exists r1, fs1, t1. split; [done|]. split; [done|]. split; [done|]. split; [done|].
  revert Hrun. unfold convert_prepare. unfold bind at 1.
  destruct (log_file_info_trace self fs) as (info & ti & Hinfo & ->).
  pose proof (confined_run _ _ _ _ _ _ (confined_get_file_info _) Hinfo) as Hti.
  set (tl := ti ++ _ ++ _).
  assert (∀ src dst, EvCopy src dst ∉ tl) as Htl.
  { intros src dst. unfold tl. rewrite !elem_of_app. intros [Hin|[Hin|Hin]].
    - revert Hin. apply (only_not_elem _ _ _ Hti). cbn. intros Hc. mem_inv Hc.
    - unfold info_records in Hin. mem_inv Hin.
    - destruct (info_encrypted info); mem_inv Hin. }
  rewrite create_backup_if_needed_cases. fold out.
  destruct (node_at fs out) as [nd|] eqn:Hout.
  2: { intros [= <- <- <-]. split; [by left|]. split; [done|]. split; [|done].
       intros src dst [Hin|Hin]%elem_of_app; [by apply Htl in Hin | mem_inv Hin]. }
  destruct (Config.create_backup (config self)) eqn:Hflag.
  2: { intros [= <- <- <-]. split; [by left|]. split; [done|]. split; [|done].
       intros src dst [Hin|Hin]%elem_of_app; [by apply Htl in Hin | mem_inv Hin]. }
  assert (node_at fs out ≠ None) as Hex by (by rewrite Hout).
  destruct (create_backup_run out fs Hex)
    as [(e & t & Hwf & Ht & ->)|(n & tp & Hn & Hfree & Htp & [(sz & c & Hp & ->)|(msg & ->)])].
  all: intros [= <- <- <-].
  all: try (assert (∀ src dst, EvCopy src dst ∉ tp) as Hnocopy
              by (intros src dst; apply (only_not_elem _ _ _ Htp); cbn;
                  intros Hc; mem_inv Hc)).
  - split; [by left|]. split; [done|]. split; [|done].
    intros src dst [Hin|Hin]%elem_of_app; [by apply Htl in Hin|].
    apply elem_of_cons in Hin as [Hin|Hin]; [done|].
    exfalso. revert Hin. apply (only_not_elem _ _ _ Ht). cbn. intros Hc. mem_inv Hc.
  - split; [right; by exists n, sz, c|]. split; [done|]. split.
    + intros src dst [Hin|Hin]%elem_of_app; [by apply Htl in Hin|].
      do 2 (apply elem_of_cons in Hin as [Hin|Hin]; [done|]).
      rewrite <- app_assoc in Hin.
      apply elem_of_app in Hin as [Hin|Hin]; [by apply Hnocopy in Hin|].
      mem_inv Hin. injection Hin as -> ->. eauto 10.
    + intros _ _ _. exists (nth_backup out n).
      apply elem_of_app. right. do 2 apply list_elem_of_further.
      rewrite <- app_assoc. apply elem_of_app. right. mem.
  - split; [by left|]. split; [done|]. split.
    + intros src dst [Hin|Hin]%elem_of_app; [by apply Htl in Hin|].
      do 2 (apply elem_of_cons in Hin as [Hin|Hin]; [done|]).
      rewrite <- app_assoc in Hin.
      apply elem_of_app in Hin as [Hin|Hin]; [by apply Hnocopy in Hin|].
      mem_inv Hin. injection Hin as -> ->. eauto 10.
    + intros _ _ _. exists (nth_backup out n).
      apply elem_of_app. right. do 2 apply list_elem_of_further.
      rewrite <- app_assoc. apply elem_of_app. right. mem.
Qed.

(** X8. The calls the library makes, in any state. Neither the constructor
    nor [convert], [convert_with_progress] or [__exit__] calls [print]: what
    they report goes through logging. The constructor tests files, asks
    PyMuPDF, creates directories and logs, and never calls pdf2docx or copies
    a file; [convert] never creates a directory and never calls the progress
    callback; [__exit__] does nothing but close the session. *)
Theorem library_footprint (pdf : Path) (docx : option Path)
    (cfg : option ConversionConfig) :
  confined [ChRead; ChFitz; ChMkdir; ChLogging] (__init__ pdf docx cfg) ∧
  confined [ChRead; ChFitz; ChCopy; ChSession; ChLogging] convert ∧
  confined [ChRead; ChFitz; ChCopy; ChSession; ChLogging; ChCallback]
    convert_with_progress ∧
  confined [ChSession] __exit__.
Proof.
  split; [apply confined_init|]. split; [apply confined_convert|].
  split; [apply confined_convert_with_progress | apply confined_exit].
Qed.

(** X9. An interruption from the keyboard inside pdf2docx is not a conversion
    failure: [convert] lets it pass as it is, neither wrapped in a
    [RuntimeError] nor logged as a failed conversion, and still closes a
    session that was opened (there is none to close when the interruption
    came while opening it). [convert_with_progress] does not reset the
    progress either: its callback was called once, at the start. *)
Theorem interrupt_passes_unwrapped (self : PDFToDOCXConverter) (fs fs1 : FS)
    (t1 : list event) (e : exn) :
  converter self = None →
  validate (config self) = [] →
  convert_prepare (self, fs) = (Ok tt, (self, fs1), t1) →
  is_Exception e = false →
  let p := pdf_path self in
  let out := docx_path self in
  let start := start_page (config self) in
  let stop := end_page (config self) in
  let total := pages_to_convert (config self) (Z.of_nat (pages_at fs p)) in
  (session_open fs1 p = Some e →
   convert (self, fs) =
     (Raise e, (self, fs1), t1 ++ convert_announce self ++ [EvSessionOpen p false]) ∧
   ∃ t, convert_with_progress (self, fs) = (Raise e, (self, fs1), t) ∧
        callbacks t = callbacks (report self 0 total)) ∧
  (∀ fs2, session_open fs1 p = None →
          session_convert fs1 p out start stop = (Some e, fs2) →
   convert (self, fs) =
     (Raise e, (self, fs2),
      t1 ++ convert_announce self ++
        [EvSessionOpen p true; EvSessionConvert p out start stop; EvSessionClose p]) ∧
   ∃ t, convert_with_progress (self, fs) = (Raise e, (self, fs2), t) ∧
        callbacks t = callbacks (report self 0 total)).
Proof.
  intros Hc Hv Hprep He p out start stop total.
  destruct (convert_with_progress_run self fs Hc) as (ti & Hti & Hprog).
  fold p total in Hprog.
  assert (callbacks t1 = []) as Hcb1.
  { destruct (convert_prepare_run self fs) as (r1 & fs1' & t1' & Hrun1 & _ & Hq & _).
    rewrite Hprep in Hrun1. injection Hrun1 as <- <- <-. by apply quiet_callbacks. }
  assert (∀ l, callbacks l = [] →
            callbacks (ti ++ report self 0 total ++ (t1 ++ convert_announce self ++ l) ++ [])
            = callbacks (report self 0 total)) as Hcbs.
  { intros l Hl. rewrite !callbacks_app, (quiet_callbacks ti Hti), Hcb1, Hl.
    cbn. by rewrite !app_nil_r. }
  pose proof (convert_valid self fs Hv) as Hrun. rewrite Hprep in Hrun.
  pose proof (convert_try_cases self fs1 Hc) as Htry. cbn zeta in Htry.
  fold p out start stop in Htry.
  split.
  - intros Hopen. rewrite Hopen, He in Htry. rewrite Htry in Hrun.
    split; [exact Hrun|]. rewrite Hrun in Hprog. rewrite He in Hprog.
    eexists. split; [exact Hprog|]. by apply Hcbs.
  - intros fs2 Hopen Hconv. rewrite Hopen, Hconv, He in Htry. rewrite Htry in Hrun.
    split; [exact Hrun|]. rewrite Hrun in Hprog. rewrite He in Hprog.
    eexists. split; [exact Hprog|]. by apply Hcbs.
Qed.

Lemma quiet_conversions (t : list event) : quiet t → conversions t = [].
Proof.
  unfold conversions. induction 1 as [|e t He _ IH]; [done|].
  cbn. by destruct e.
Qed.

(** A run of [convert]: the file system it leaves and its calls of the
    conversion. *)
Lemma convert_run_summary (self : PDFToDOCXConverter) (fs : FS)
    (r : result Path) (s : St) (t : list event) :
  converter self = None →
  convert (self, fs) = (r, s, t) →
  let p := pdf_path self in
  let out := docx_path self in
  let start := start_page (config self) in
  let stop := end_page (config self) in
  ∃ fs1,
    (fs1 = fs ∨
     ∃ n sz c,
       0 ≤ n ∧ fs !! out = Some (File sz c) ∧ fs !! nth_backup out n = None ∧
       fs1 = <[nth_backup out n := File sz c]> fs) ∧
    ((conversions t = [] ∧ s = (self, fs1)) ∨
     (conversions t = [(p, out, start, stop)] ∧ opens t = 1%nat ∧
      session_open fs1 p = None ∧
      s = (self, (session_convert fs1 p out start stop).2))) ∧
    (∀ res, r = Ok res →
       res = out ∧ conversions t = [(p, out, start, stop)] ∧ node_at s.2 out ≠ None).
Proof.
  intros Hc Hrun p out start stop.
  destruct (decide (validate (config self) = [])) as [Hv|Hv].
  2: { rewrite (convert_invalid self fs Hv) in Hrun. injection Hrun as <- <- <-.
       exists fs. split; [by left|]. split; [by left|]. done. }
  rewrite (convert_valid self fs Hv) in Hrun.
  destruct (convert_prepare_cases self fs)
    as (r1 & fs1 & t1 & Hprep & _ & Hq & _ & Hfs & _).
  rewrite Hprep in Hrun. exists fs1. split.
  { destruct Hfs as [->|(n & sz & c & ? & ? & ? & ? & _)]; [by left|right; eauto 10]. }
  assert (∀ l, conversions (t1 ++ l) = conversions l) as Hconv.
  { intros l. by rewrite !conversions_app, (quiet_conversions t1 Hq). }
  assert (∀ l, opens (t1 ++ l) = opens l) as Hopens.
  { intros l. by rewrite !opens_app, (quiet_opens t1 Hq). }
  destruct r1 as [[]|e|].
  3: { injection Hrun as <- <- <-. split; [|done]. left.
       split; [by apply quiet_conversions|done]. }
  2: { injection Hrun as <- <- <-. split; [|done]. left.
       split; [by apply quiet_conversions|done]. }
  pose proof (convert_try_cases self fs1 Hc) as Htry. cbn zeta in Htry.
  fold p out start stop in Htry. rewrite Htry in Hrun. clear Htry.
  destruct (session_open fs1 p) as [e|] eqn:Hopen.
  { destruct (is_Exception e); injection Hrun as <- <- <-;
      (split; [left; by rewrite Hconv|done]). }
  destruct (session_convert fs1 p out start stop) as [[e|] fs2] eqn:Hcv.
  { destruct (is_Exception e); injection Hrun as <- <- <-;
      (split; [right; by rewrite Hconv, Hopens|done]). }
  destruct (node_at fs2 out) as [nd|] eqn:Hout; injection Hrun as <- <- <-.
  - split; [right; by rewrite Hconv, Hopens|].
    intros res [= <-]. rewrite Hconv. cbn. by rewrite Hout.
  - split; [right; by rewrite Hconv, Hopens|done].
Qed.

(** X10. What one call of [convert] does to the world. To the file system
    it adds at most one backup of the old output, under a name that was
    free, and then whatever pdf2docx does; the records of logging apart, it
    deletes and overwrites nothing itself. It calls the conversion of pdf2docx at most once, only after the
    session was opened, and hands it the output path and the configured
    [start_page] and [end_page] as they are. It leaves the converter object
    as it was, and a path it returns is the output path, for which the
    conversion was called and which exists by then. *)
Theorem convert_effects (self : PDFToDOCXConverter) (fs : FS)
    (r : result Path) (s : St) (t : list event) :
  converter self = None →
  convert (self, fs) = (r, s, t) →
  let p := pdf_path self in
  let out := docx_path self in
  let start := start_page (config self) in
  let stop := end_page (config self) in
  ∃ fs1,
    (fs1 = fs ∨
     ∃ n sz c,
       0 ≤ n ∧ fs !! out = Some (File sz c) ∧ fs !! nth_backup out n = None ∧
       fs1 = <[nth_backup out n := File sz c]> fs) ∧
    ((conversions t = [] ∧ s = (self, fs1)) ∨
     (conversions t = [(p, out, start, stop)] ∧ opens t = 1%nat ∧
      session_open fs1 p = None ∧
      s = (self, (session_convert fs1 p out start stop).2))) ∧
    (∀ res, r = Ok res →
       res = out ∧ conversions t = [(p, out, start, stop)] ∧ node_at s.2 out ≠ None).
Proof. apply convert_run_summary. Qed.


Lemma convert_prepare_config (self : PDFToDOCXConverter) (cfg : ConversionConfig) (fs : FS) :
  Config.create_backup cfg = Config.create_backup (config self) →
  convert_prepare (with_config cfg self, fs) =
    let '(r, s, t) := convert_prepare (self, fs) in (r, (with_config cfg self, s.2), t).
Proof.
  intros Hflag. unfold convert_prepare. unfold bind.
  destruct (log_file_info_trace self fs) as (info & ti & Hinfo & ->).
  destruct (log_file_info_trace (with_config cfg self) fs) as (info' & ti' & Hinfo' & ->).
  cbn [pdf_path with_config] in Hinfo'. rewrite Hinfo in Hinfo'.
  injection Hinfo' as <- <-.
  rewrite !create_backup_if_needed_cases. cbn [docx_path config with_config].
  rewrite Hflag.
  destruct (node_at fs (docx_path self)); [|done].
  destruct (Config.create_backup (config self)); [|done].
  by destruct (create_backup (docx_path self) fs) as [[[[b|]|e|] fs'] t].
Qed.

(** X12. The settings that [convert] does not read. Of the configuration,
    [convert] uses the result of [validate], [start_page], [end_page] and
    [create_backup] and nothing else: a converter that differs from another
    one only in [multi_processing], [cpu_count] (as far as it is valid),
    [preserve_layout], [preserve_images], [preserve_tables],
    [table_settings], [overwrite], [verbose] or [log_file] makes the same
    calls in the same order with the same outcome. None of these settings
    reaches pdf2docx. *)
Theorem convert_reads_four_settings (self : PDFToDOCXConverter)
    (cfg : ConversionConfig) (fs : FS) :
  converter self = None →
  validate cfg = validate (config self) →
  start_page cfg = start_page (config self) →
  end_page cfg = end_page (config self) →
  Config.create_backup cfg = Config.create_backup (config self) →
  ∃ r fs' t,
    convert (self, fs) = (r, (self, fs'), t) ∧
    convert (with_config cfg self, fs) = (r, (with_config cfg self, fs'), t).
Proof.
  intros Hc Hval Hstart Hend Hflag.
  destruct (decide (validate (config self) = [])) as [Hv|Hv].
  2: { rewrite (convert_invalid self fs Hv).
       rewrite (convert_invalid (with_config cfg self) fs) by (cbn; by rewrite Hval).
       cbn [config with_config]. rewrite Hval. by eexists _, _, _. }
  rewrite (convert_valid self fs Hv).
  rewrite (convert_valid (with_config cfg self) fs) by (cbn; by rewrite Hval).
  rewrite (convert_prepare_config self cfg fs Hflag).
  destruct (convert_prepare_run self fs) as (r1 & fs1 & t1 & -> & _).
  cbn [snd].
  destruct r1 as [[]|e|]; [|by eexists _, _, _..].
  rewrite (convert_try_cases self fs1 Hc).
  rewrite (convert_try_cases (with_config cfg self) fs1 Hc).
  cbn [pdf_path docx_path config with_config]. rewrite Hstart, Hend.
  change (convert_announce (with_config cfg self)) with (convert_announce self).
  destruct (session_open fs1 (pdf_path self)) as [e|].
  { destruct (is_Exception e); by eexists _, _, _. }
  destruct (session_convert fs1 _ _ _ _) as [[e|] fs2].
  { destruct (is_Exception e); by eexists _, _, _. }
  destruct (node_at fs2 (docx_path self)); by eexists _, _, _.
Qed.

Lemma get_file_info_encrypted (p : Path) (fs : FS) :
  ∃ info t,
    get_file_info p fs = (Ok info, fs, t) ∧
    info_encrypted info = encrypted_at fs p ∧ encrypted_warning ∉ t.
Proof.
  unfold encrypted_at.
  destruct (node_at fs p) as [[sz [m|d]|]|] eqn:E;
    unfold get_file_info, try_except, path_exists, stat_size, fitz_open, fitz_close, log,
      emit, get, raise, ret, bind; run_with E.
  all: do 2 eexists; (split; [reflexivity|]); split; [done|].
  all: intros H; mem_inv H.
Qed.

Lemma convert_prepare_warning (self : PDFToDOCXConverter) (fs : FS) r1 s1 t1 :
  convert_prepare (self, fs) = (r1, s1, t1) →
  encrypted_warning ∈ t1 ↔ encrypted_at fs (pdf_path self) = true.
Proof.
  unfold convert_prepare. unfold bind at 1.
  destruct (log_file_info_trace self fs) as (info & ti & Hinfo & ->).
  destruct (get_file_info_encrypted (pdf_path self) fs) as (info' & ti' & Hinfo' & Henc & Hti).
  rewrite Hinfo in Hinfo'. injection Hinfo' as <- <-. rewrite <- Henc.
  set (tl := ti ++ _ ++ _).
  assert (encrypted_warning ∈ tl ↔ info_encrypted info = true) as Htl.
  { unfold tl. rewrite !elem_of_app. split.
    - intros [Hin|[Hin|Hin]]; [done|unfold info_records in Hin; mem_inv Hin|].
      destruct (info_encrypted info); [done|mem_inv Hin].
    - intros ->. right. right. mem. }
  rewrite create_backup_if_needed_cases.
  assert (∀ r s tb, encrypted_warning ∉ tb →
            (let '(r2, s2, t2) := (r, s, tb) : result unit * St * list event in
             (r2, s2, tl ++ t2)) = (r1, s1, t1) →
            encrypted_warning ∈ t1 ↔ info_encrypted info = true) as Hpack.
  { intros r s tb Htb [= <- <- <-]. rewrite elem_of_app, Htl. tauto. }
  destruct (node_at fs (docx_path self)) as [nd|] eqn:Hout.
  2: { apply Hpack. intros H. mem_inv H. }
  destruct (Config.create_backup (config self)).
  2: { apply Hpack. intros H. mem_inv H. }
  assert (node_at fs (docx_path self) ≠ None) as Hex by (by rewrite Hout).
  assert (∀ t, only [ChRead] t → encrypted_warning ∉ t) as Hread.
  { intros t Ht. apply (only_not_elem _ _ _ Ht). cbn. intros Hc. mem_inv Hc. }
  destruct (create_backup_run (docx_path self) fs Hex)
    as [(e & t & Hwf & Ht & ->)|(n & tp & Hn & Hfree & Htp & [(sz & c & Hp & ->)|(msg & ->)])].
  - apply Hpack. intros [H|H]%elem_of_cons; [done|]. by apply Hread in H.
  - apply Hpack. intros H. cbn in H.
    rewrite !elem_of_cons, !elem_of_app, !elem_of_cons, elem_of_nil in H.
    destruct_or! H; try done. by apply Hread in H.
  - apply Hpack. intros H. cbn in H.
    rewrite !elem_of_cons, !elem_of_app, !elem_of_cons, elem_of_nil in H.
    destruct_or! H; try done. by apply Hread in H.
Qed.


(** X14. The calls of a progress callback, for any configuration. A callback
    registered with [set_progress_callback] replaces any earlier one and is
    called first with [(0, total)], before any call into pdf2docx, and once
    more when [convert] is over: with [(total, total)] after a success, with
    [(0, total)] after an [Exception], and not at all after an interruption.
    The outcome and the final state are those of [convert]. The total is
    [end_page - start_page + 1] when a last page other than 0 is set,
    whatever the number of pages of the document, and
    [pages - start_page + 1] otherwise; it is computed, and the callback
    called, before the configuration is validated. *)
Theorem progress_callback_protocol (self : PDFToDOCXConverter) (cb : callback)
    (fs : FS) (r : result Path) (s : St) (t : list event) :
  converter self = None →
  let self' := set_progress_callback cb self in
  convert_with_progress (self', fs) = (r, s, t) →
  let pages := Z.of_nat (pages_at fs (pdf_path self)) in
  let start := start_page (config self) in
  let total :=
    match end_page (config self) with
    | Some e => if e =? 0 then pages - start + 1 else e - start + 1
    | None => pages - start + 1
    end in
  r = (convert (self', fs)).1.1 ∧ s = (convert (self', fs)).1.2 ∧ s.1 = self' ∧
  callbacks t =
    match r with
    | Ok _ => [(cb, 0, total); (cb, total, total)]
    | Raise e => if is_Exception e then [(cb, 0, total); (cb, 0, total)] else [(cb, 0, total)]
    | OutOfFuel => []
    end ∧
  r ≠ OutOfFuel ∧
  (∃ ti tc, t = ti ++ EvCallback cb 0 total :: tc ∧ quiet ti) ∧
  (validate (config self) ≠ [] →
   (∃ msg, r = Raise (ValueError msg)) ∧ callbacks t = [(cb, 0, total); (cb, 0, total)]).
Proof.
  intros Hc self' Hrun pages start total.
  assert (converter self' = None) as Hc' by done.
  destruct (convert_with_progress_run self' fs Hc') as (ti & Hti & Hprog).
  assert (pages_to_convert (config self') (Z.of_nat (pages_at fs (pdf_path self'))) = total)
    as Htotal.
  { unfold pages_to_convert, or_int, total, pages, start. cbn.
    destruct (end_page (config self)) as [e|]; [|done]. by destruct (e =? 0). }
  rewrite Htotal in Hprog.
  destruct (convert (self', fs)) as [[rc sc] tc] eqn:Hconv.
  destruct (convert_state self' fs Hc' _ _ _ Hconv) as [Hs Hfuel].
  pose proof (convert_no_callbacks self' fs Hc' _ _ _ Hconv) as Hcb.
  rewrite Hrun in Hprog. injection Hprog as -> -> ->.
  change (report self' 0 total) with [EvCallback cb 0 total].
  change (report self' total total) with [EvCallback cb total total].
  assert (∀ l, callbacks (ti ++ EvCallback cb 0 total :: tc ++ l)
               = (cb, 0, total) :: callbacks l) as Hcalls.
  { intros l. change (EvCallback cb 0 total :: tc ++ l)
      with ([EvCallback cb 0 total] ++ tc ++ l).
    by rewrite !callbacks_app, (quiet_callbacks ti Hti), Hcb. }
  split; [done|]. split; [done|]. split; [done|]. split; [|split; [done|split]].
  - rewrite Hcalls. destruct rc as [a|e|]; [done| |done]. by destruct (is_Exception e).
  - exists ti. eexists. split; [reflexivity|done].
  - intros Hv. rewrite (convert_invalid self' fs Hv) in Hconv.
    injection Hconv as <- <- <-. split; [by eexists|]. by rewrite Hcalls.
Qed.

(** X15. Without a callback [convert_with_progress] is [convert] after one
    more inspection of the PDF: the same outcome and final state, the calls
    of [convert] in the same order after those of the inspection, which
    calls neither pdf2docx nor anything else that changes a file. *)
Theorem progress_without_callback (self : PDFToDOCXConverter) (fs : FS)
    (r : result Path) (s : St) (t : list event) :
  converter self = None →
  progress_callback self = None →
  convert_with_progress (self, fs) = (r, s, t) →
  ∃ info ti tc,
    get_file_info (pdf_path self) fs = (Ok info, fs, ti) ∧
    convert (self, fs) = (r, s, tc) ∧
    t = ti ++ tc ∧
    only [ChRead; ChFitz; ChLogging] ti ∧
    callbacks t = [].
Proof.
  intros Hc Hcb Hrun.
  destruct (get_file_info_run (pdf_path self) fs) as (info & ti & Hinfo & Hq & _).
  destruct (convert (self, fs)) as [[rc [self1 fs1]] tc] eqn:Hconv.
  pose proof (convert_no_callbacks self fs Hc _ _ _ Hconv) as Hcbs.
  destruct (convert_state self fs Hc _ _ _ Hconv) as [Hs _]. cbn in Hs. subst self1.
  exists info, ti, tc. split; [done|].
  revert Hrun.
  unfold convert_with_progress, try_except, report_progress, get_self, lift_fs, bind,
    emit, ret, raise.
  cbn. rewrite Hinfo. cbn. rewrite Hcb. cbn. rewrite Hconv.
  assert (callbacks (ti ++ tc) = []) as Hnone
    by (by rewrite callbacks_app, (quiet_callbacks ti Hq), Hcbs).
  pose proof (confined_run _ _ _ _ _ _ (confined_get_file_info _) Hinfo) as Hti.
  destruct rc as [a|e|]; cbn; rewrite ?Hcb; cbn.
  - rewrite ?app_nil_r. by intros [= <- <- <-].
  - destruct (is_Exception e); cbn; rewrite ?Hcb; cbn; rewrite ?app_nil_r;
      by intros [= <- <- <-].
  - by intros [= <- <- <-].
Qed.

End WithServices.

Import Samples Samples2.

Lemma doc_docx_wf_name : wf_name ["doc.docx"].
Proof. by split. Qed.

Lemma interrupt_passes_unwrapped_witness :
  ∃ t1,
    convert_prepare (sv := sv_interrupt) (conv0 DEFAULT_CONFIG None, fs_doc)
      = (Ok tt, (conv0 DEFAULT_CONFIG None, fs_doc), t1) ∧
    convert (sv := sv_interrupt) (conv0 DEFAULT_CONFIG None, fs_doc)
      = (Raise KeyboardInterrupt, (conv0 DEFAULT_CONFIG None, fs_doc),
         t1 ++ convert_announce (conv0 DEFAULT_CONFIG None) ++
           [EvSessionOpen ["doc.pdf"] true;
            EvSessionConvert ["doc.pdf"] ["doc.docx"] 0 None;
            EvSessionClose ["doc.pdf"]]).
Proof.
  assert (∃ t1, convert_prepare (sv := sv_interrupt) (conv0 DEFAULT_CONFIG None, fs_doc)
                = (Ok tt, (conv0 DEFAULT_CONFIG None, fs_doc), t1)) as [t1 E1]
    by (eexists; reflexivity).
  exists t1. split; [exact E1|].
  destruct (interrupt_passes_unwrapped (sv := sv_interrupt) (conv0 DEFAULT_CONFIG None)
              fs_doc fs_doc t1 KeyboardInterrupt eq_refl eq_refl E1 eq_refl) as [_ Hconv].
  destruct (Hconv fs_doc eq_refl eq_refl) as [Hrun _]. exact Hrun.
Defined.

Lemma convert_effects_witness :
  let '(_, _, t) := convert (sv := sv_ok) (conv0 DEFAULT_CONFIG None, fs_doc) in
  conversions t = [] ∨ conversions t = [(["doc.pdf"], ["doc.docx"], 0, None)].
Proof.
  destruct (convert (sv := sv_ok) (conv0 DEFAULT_CONFIG None, fs_doc)) as [[r s] t] eqn:E.
  destruct (convert_effects (sv := sv_ok) (conv0 DEFAULT_CONFIG None) fs_doc r s t eq_refl E)
    as (fs1 & _ & [[Hnone _]|[Hone _]] & _); [by left|by right].
Defined.


Lemma convert_reads_four_settings_witness :
  ∃ r fs' t,
    convert (sv := sv_ok) (conv0 DEFAULT_CONFIG None, fs_doc)
      = (r, (conv0 DEFAULT_CONFIG None, fs'), t) ∧
    convert (sv := sv_ok) (conv0 cfg_parallel None, fs_doc)
      = (r, (conv0 cfg_parallel None, fs'), t).
Proof.
  exact (convert_reads_four_settings (sv := sv_ok) (conv0 DEFAULT_CONFIG None) cfg_parallel
           fs_doc eq_refl eq_refl eq_refl eq_refl eq_refl).
Defined.


Lemma progress_callback_protocol_witness :
  let '(_, _, t) :=
    convert_with_progress (sv := sv_ok)
      (set_progress_callback (Callback 1) (conv0 DEFAULT_CONFIG (Some (Callback 0))),
       fs_doc) in
  ∃ ti tc, t = ti ++ EvCallback (Callback 1) 0 6 :: tc ∧ quiet ti.
Proof.
  destruct (convert_with_progress (sv := sv_ok)
              (set_progress_callback (Callback 1)
                 (conv0 DEFAULT_CONFIG (Some (Callback 0))), fs_doc))
    as [[r s] t] eqn:E.
  destruct (progress_callback_protocol (sv := sv_ok)
              (conv0 DEFAULT_CONFIG (Some (Callback 0))) (Callback 1) fs_doc r s t
              eq_refl E) as (_ & _ & _ & _ & _ & Hfirst & _).
  exact Hfirst.
Defined.

Lemma progress_without_callback_witness :
  let '(_, _, t) :=
    convert_with_progress (sv := sv_ok) (conv0 DEFAULT_CONFIG None, fs_doc) in
  callbacks t = [].
Proof.
  destruct (convert_with_progress (sv := sv_ok) (conv0 DEFAULT_CONFIG None, fs_doc))
    as [[r s] t] eqn:E.
  destruct (progress_without_callback (sv := sv_ok) (conv0 DEFAULT_CONFIG None) fs_doc
              r s t eq_refl eq_refl E) as (_ & _ & _ & _ & _ & _ & _ & Hnone).
  exact Hnone.
Defined.

End ConverterExtra.

(** ** What is raised *)

Module RaiseSpec.

Import PyStr Pathlib Config Utils Converter Observed Channels.
Import PathlibSpec TraceSpec UtilsSpec ConverterSpec InitSpec.

Section Combinators.
Context {S : Type} (P : exn → Prop).

Lemma raises_ret {A} (a : A) : raises (S := S) P (ret a).
Proof. by intros s s' t e [=]. Qed.

Lemma raises_raise {A} (e : exn) : P e → raises (S := S) (A := A) P (raise e).
Proof. by intros He s s' t e' [= <- _ _]. Qed.

Lemma raises_emit (ev : event) : raises (S := S) P (emit ev).
Proof. by intros s s' t e [=]. Qed.

Lemma raises_get : raises (S := S) P get.
Proof. by intros s s' t e [=]. Qed.

Lemma raises_put (s0 : S) : raises P (put s0).
Proof. by intros s s' t e [=]. Qed.

Lemma raises_bind {A B} (m : M S A) (k : A → M S B) :
  raises P m → (∀ a, raises P (k a)) → raises P (bind m k).
Proof.
  intros Hm Hk s s' t e. unfold bind.
  destruct (m s) as [[[a|e1|] s1] t1] eqn:Hrun; [| |done].
  - destruct (k a s1) as [[r s2] t2] eqn:Hrun2. intros [= -> _ _]. by eapply Hk.
  - intros [= <- _ _]. by eapply Hm.
Qed.

Lemma raises_try_except {A} (m : M S A) (h : exn → M S A) :
  raises (λ e, is_Exception e = false → P e) m → (∀ e, raises P (h e)) →
  raises P (try_except m h).
Proof.
  intros Hm Hh s s' t e. unfold try_except.
  destruct (m s) as [[[a|e1|] s1] t1] eqn:Hrun; [done| |done].
  destruct (is_Exception e1) eqn:He1.
  - destruct (h e1 s1) as [[r s2] t2] eqn:Hrun2. intros [= -> _ _]. by eapply Hh.
  - intros [= <- _ _]. by eapply Hm.
Qed.

Lemma raises_of_sum {A} (x : exn + A) :
  (∀ e, x = inl e → P e) → raises (S := S) P (of_sum x).
Proof. intros Hx s s' t e. destruct x as [e'|a]; [|done]. intros [= <- _ _]. by apply Hx. Qed.

Lemma raises_mono {A} (Q : exn → Prop) (m : M S A) :
  (∀ e, Q e → P e) → raises Q m → raises P m.
Proof. intros HQ Hm s s' t e Hrun. by eapply HQ, Hm. Qed.

End Combinators.

Lemma raises_lift_fs {O A : Type} (P : exn → Prop) (m : M FS A) :
  raises P m → raises P (lift_fs (O := O) m).
Proof.
  intros Hm [o fs] s' t e. unfold lift_fs.
  destruct (m fs) as [[r fs'] t'] eqn:Hrun. intros [= -> _ _]. by eapply Hm.
Qed.

Lemma raises_with_self {O A : Type} (P : exn → Prop) (o : O) (m : M (O * FS) A) :
  raises P m → raises P (with_self o m).
Proof.
  intros Hm fs fs' t e. unfold with_self.
  destruct (m (o, fs)) as [[r [o' fs1]] t'] eqn:Hrun. intros [= -> _ _]. by eapply Hm.
Qed.

Section WithServices.
Context {sv : Services}.

Lemma with_suffix_raises (p : Path) (sfx : string) (e : exn) :
  with_suffix p sfx = inl e → ∃ msg, e = ValueError msg.
Proof.
  unfold with_suffix. repeat case_match; intros [= <-]; by eexists.
Qed.

Lemma validate_pdf_raises (P : exn → Prop) (p : Path) : raises P (validate_pdf p).
Proof.
  intros fs fs' t e Hrun.
  destruct (validate_pdf_cases p fs) as (b & msg & t' & Hrun' & _). by rewrite Hrun' in Hrun.
Qed.

Lemma validate_output_path_raises (P : exn → Prop) (p : Path) (ow : bool) :
  raises P (validate_output_path p ow).
Proof.
  intros fs fs' t e Hrun.
  destruct (validate_output_path_cases p ow fs) as (b & msg & fs1 & t' & Hrun' & _).
  by rewrite Hrun' in Hrun.
Qed.

Lemma get_file_info_raises (P : exn → Prop) (p : Path) : raises P (get_file_info p).
Proof.
  intros fs fs' t e Hrun.
  destruct (get_file_info_run p fs) as (info & t' & Hrun' & _). by rewrite Hrun' in Hrun.
Qed.

(** The constructor raises [ValueError] or [OSError] and nothing else. *)
Lemma init_raises (pdf : Path) (docx : option Path) (cfg : option ConversionConfig) :
  raises (λ e, ∃ msg, e = ValueError msg ∨ e = OSError msg) (__init__ pdf docx cfg).
Proof.
  unfold __init__.
  apply raises_bind; [apply validate_pdf_raises|intros [b msg]].
  destruct (negb b); [apply raises_raise; eauto|].
  apply raises_bind.
  { destruct docx; [apply raises_ret|]. apply raises_of_sum.
    intros e [m ->]%with_suffix_raises. eauto. }
  intros out. apply raises_bind; [apply validate_output_path_raises|intros [b' msg']].
  destruct (negb b'); [apply raises_raise; eauto|].
  apply raises_bind; [|intros ?; apply raises_ret].
  unfold setup_logging. apply raises_bind; [apply raises_emit|intros _].
  apply raises_bind; [|intros ?; apply raises_ret].
  destruct (log_file (default DEFAULT_CONFIG cfg)) as [f|]; [|apply raises_ret].
  unfold open_log_file. apply raises_bind; [apply raises_get|intros fs].
  repeat case_match; first [apply raises_ret | apply raises_put | apply raises_raise; eauto].
Qed.

Lemma init_ends (pdf : Path) (docx : option Path) (cfg : option ConversionConfig) :
  ends (__init__ pdf docx cfg).
Proof.
  intros fs fs' t Hrun. by destruct (init_cases _ _ _ _ _ _ _ Hrun) as (_ & _ & _ & ? & _).
Qed.

End WithServices.

End RaiseSpec.

(** ** The constructor *)

Module InitExtra.

Import PyStr Pathlib Config Utils Converter Observed Channels.
Import PathlibSpec TraceSpec UtilsSpec ConverterSpec InitSpec.
Import ChannelSpec UtilsFootprint UtilsExtra ConverterFootprint RaiseSpec.

Local Arguments validate_pdf : simpl never.
Local Arguments validate_output_path : simpl never.

Section WithServices.
Context {sv : Services}.

Lemma setup_logging_effect (v : bool) (lf : option Path) (fs : FS) r fs' t :
  setup_logging v lf fs = (r, fs', t) →
  (∀ q x, fs !! q = Some x → fs' !! q = Some x) ∧
  (∀ q x, fs' !! q = Some x → fs !! q = Some x ∨ (lf = Some q ∧ ∃ c, x = File 0 c)) ∧
  match r with
  | Ok l => l = {| logger_verbose := v; logger_file := lf |}
  | Raise e => (∃ msg, e = OSError msg) ∧ lf ≠ None ∧ fs' = fs
  | OutOfFuel => False
  end.
Proof.
  unfold setup_logging, open_log_file, emit, get, put, raise, ret, bind.
  destruct lf as [f|]; cbn.
  2: { intros [= <- <- <-]. split; [done|]. split; [by left|done]. }
  destruct (node_at fs f) as [[sz c|]|] eqn:Hf; cbn.
  - intros [= <- <- <-]. split; [done|]. split; [by left|done].
  - intros [= <- <- <-]. split; [done|]. split; [by left|]. split; [by eexists|done].
  - assert (f ≠ []) as Hne by (intros ->; done).
    rewrite node_at_cons in Hf by done.
    destruct (node_at fs (parent f)) as [[sz c|]|]; cbn; intros [= <- <- <-].
    + split; [done|]. split; [by left|]. split; [by eexists|done].
    + split; [|split; [|done]].
      * intros q x Hq. rewrite lookup_insert_ne; [done|]. intros <-. by rewrite Hf in Hq.
      * intros q x. destruct (decide (f = q)) as [<-|Hfq].
        -- rewrite lookup_insert_eq. intros [= <-]. right. split; [done|]. by eexists.
        -- rewrite lookup_insert_ne by done. by left.
    + split; [done|]. split; [by left|]. split; [by eexists|done].
Qed.

(** A run of the constructor: the file system it leaves, its outcome and
    its calls. *)
Lemma init_run_summary (pdf : Path) (docx : option Path)
    (cfg : option ConversionConfig) (fs : FS) r fs' t :
  __init__ pdf docx cfg fs = (r, fs', t) →
  let cfg0 := default DEFAULT_CONFIG cfg in
  (∀ q x, fs !! q = Some x → fs' !! q = Some x) ∧
  (∀ q x, fs' !! q = Some x →
     fs !! q = Some x ∨ x = Dir ∨ (log_file cfg0 = Some q ∧ ∃ c, x = File 0 c)) ∧
  match r with
  | Ok self => converter self = None ∧ progress_callback self = None ∧ config self = cfg0
  | Raise e => ∃ msg, e = ValueError msg ∨ (e = OSError msg ∧ log_file cfg0 ≠ None)
  | OutOfFuel => False
  end ∧
  only [ChRead; ChFitz; ChMkdir; ChLogging] t.
Proof.
  intros Hrun cfg0.
  pose proof (confined_run _ _ _ _ _ _ (confined_init pdf docx cfg) Hrun) as Honly.
  split; [|split; [|split; [|done]]]; revert Hrun; unfold __init__; fold cfg0.
  all: unfold bind at 1;
    destruct (validate_pdf_cases pdf fs) as (b & msg & tv & -> & _);
    destruct b; cbn [negb]; [|intros [= <- <- <-]; first [done | by left | by eexists; left]].
  all: unfold bind at 1.
  all: destruct (match docx with Some p => ret p | None => of_sum _ end fs)
         as [[[out|e|] fs0] t0] eqn:Hout;
    [ assert (fs0 = fs) as -> by (destruct docx; [by injection Hout|];
                                  revert Hout; unfold of_sum; case_match;
                                  by intros [= _ <- _])
    | assert (fs0 = fs ∧ ∃ m, e = ValueError m) as [-> [m ->]]
        by (destruct docx; [done|]; revert Hout; unfold of_sum;
            destruct (with_suffix pdf ".docx") as [e'|] eqn:Hws; [|done];
            intros [= <- <- _]; split; [done|]; by eapply with_suffix_raises)
    | destruct docx; [done|]; revert Hout; unfold of_sum; by case_match ].
  all: try (intros [= <- <- <-]; first [done | by left | by eexists; left]).
  all: unfold bind at 1;
    destruct (validate_output_path_run out (overwrite cfg0) fs)
      as (b & msg' & fs1 & t1 & -> & _ & _ & Hkeep & Hnew & _);
    destruct b; cbn [negb].
  all: try (intros [= <- <- <-]; first [done | by eexists; left]).
  all: try (intros [= <- <- <-]; intros q x Hq; destruct (Hnew q x Hq) as [?|[? _]];
            [by left | right; by left]).
  all: unfold bind at 1;
    destruct (setup_logging (verbose cfg0) (log_file cfg0) fs1) as [[rl fs2] tl] eqn:Hlog;
    destruct (setup_logging_effect _ _ _ _ _ _ Hlog) as (Hkeep2 & Hnew2 & Hrl);
    destruct rl as [l|e|]; [| |done].
  all: cbn; intros [= <- <- <-].
  all: try (intros q x Hq; by apply Hkeep2, Hkeep).
  all: try (intros q x Hq; destruct (Hnew2 q x Hq) as [Hq1|[? ?]];
            [destruct (Hnew q x Hq1) as [?|[? _]]; [by left | right; by left]
            |right; by right]).
  all: try done.
  destruct Hrl as ([m ->] & ? & _). exists m. by right.
Qed.

End WithServices.

End InitExtra.

(** ** The context manager and the examples *)

Module ExamplesSpec.

Import PyStr Pathlib Config Utils Converter Naming Observed Observed2 Faults Trace Channels.
Import Examples.
Import PathlibSpec TraceSpec UtilsSpec ConverterSpec InitSpec.
Import ChannelSpec UtilsFootprint UtilsExtra ConverterFootprint ConverterExtra RaiseSpec.

Local Arguments get_file_info : simpl never.
Local Arguments validate_pdf : simpl never.
Local Arguments __init__ : simpl never.
Local Arguments convert : simpl never.
Local Arguments with_suffix : simpl never.
Local Arguments of_string : simpl never.

Section WithServices.
Context {sv : Services}.

Lemma with_statement_run (body : M St unit) (self : PDFToDOCXConverter) (fs : FS)
    (r : result unit) (s : St) (t : list event) :
  body (self, fs) = (r, s, t) →
  r ≠ OutOfFuel →
  with_statement body (self, fs) =
    (r, (set_converter None s.1, s.2),
     t ++ match converter s.1 with
          | Some session => [EvSessionClose session]
          | None => []
          end).
Proof.
  intros Hrun Hfuel. unfold with_statement, __enter__, bind, ret. cbn -[__exit__].
  rewrite Hrun. destruct s as [self1 fs1]. rewrite exit_run. cbn.
  destruct r as [[]|e|]; done.
Qed.

(** X17. The [with] statement over a converter: whatever the body does to
    it, the session it holds on leaving the body is closed, once, after the
    last call of the body, and the converter holds none afterwards; the file
    system is as the body left it. [__exit__] never swallows an exception:
    the statement ends as the body did, with its result or its exception. *)
Theorem with_statement_closes_and_propagates (body : M St unit)
    (self : PDFToDOCXConverter) (fs : FS)
    (r : result unit) (s : St) (t : list event) :
  body (self, fs) = (r, s, t) →
  r ≠ OutOfFuel →
  ∃ s' t',
    with_statement body (self, fs) = (r, s', t ++ t') ∧
    converter s'.1 = None ∧ s'.2 = s.2 ∧
    pdf_path s'.1 = pdf_path s.1 ∧ docx_path s'.1 = docx_path s.1 ∧
    config s'.1 = config s.1 ∧ progress_callback s'.1 = progress_callback s.1 ∧
    t' = match converter s.1 with
         | Some session => [EvSessionClose session]
         | None => []
         end.
Proof.
  intros Hrun Hfuel. rewrite (with_statement_run body self fs r s t Hrun Hfuel).
  by eexists _, _.
Qed.

(** X18. The two basic examples do the same: around [convert] the context
    manager has nothing left to close, so [context_manager_example] makes the
    calls of [simple_conversion] in the same order and ends in the same way,
    in every file system and whatever pdf2docx does. *)
Theorem context_manager_example_is_simple_conversion (fs : FS) :
  context_manager_example fs = simple_conversion fs.
Proof.
  unfold context_manager_example, simple_conversion. unfold bind at 1 3.
  destruct (__init__ _ _ _ fs) as [[[conv|e|] fs1] t1] eqn:Hinit; [|done..].
  destruct (init_cases _ _ _ _ _ _ _ Hinit) as (_ & _ & Hok & _).
  destruct (Hok conv eq_refl) as (_ & _ & _ & _ & _ & Hc & _).
  f_equal. unfold with_self.
  destruct (convert (conv, fs1)) as [[rc [self1 fs2]] tc] eqn:Hconv.
  destruct (convert_state conv fs1 Hc _ _ _ Hconv) as [Hs Hfuel]. cbn in Hs. subst self1.
  set (body := bind convert _).
  assert (∃ r, body (conv, fs1) = r) as [[[rb [selfb fsb]] tb] Hbody] by eauto.
  assert (rb ≠ OutOfFuel ∧ selfb = conv ∧
          bind (λ fs0, let '(r, (_, fs'), t) := convert (conv, fs0) in (r, fs', t))
               (λ result, print ("Converted to: " +:+ str result)) fs1 = (rb, fsb, tb))
    as (Hfuelb & -> & Heq).
  { revert Hbody. unfold body, bind, print, emit. rewrite Hconv.
    destruct rc as [out|e|]; [|by intros [= <- <- <- <-]|done].
    by intros [= <- <- <- <-]. }
  rewrite (with_statement_run body conv fs1 _ _ _ Hbody Hfuelb). cbn. rewrite Hc.
  rewrite app_nil_r. unfold with_self in Heq. by rewrite Heq.
Qed.

(** The constructor as [conversion_with_validation] calls it, after its own
    validation of the input: nothing is left that could fail. *)
Lemma init_after_validation (fs : FS) (msg : option string) (tv : list event) :
  validate_pdf ["input.pdf"] fs = (Ok (true, msg), fs, tv) →
  ∃ conv t,
    __init__ ["input.pdf"] (Some ["input.docx"]) (Some validation_config) fs
      = (Ok conv, fs, t) ∧
    converter conv = None ∧ docx_path conv = ["input.docx"] ∧
    pdf_path conv = ["input.pdf"] ∧ config conv = validation_config ∧
    only [ChRead; ChFitz; ChLogging] t.
Proof.
  intros Hv.
  pose proof (confined_run _ _ _ _ _ _ (confined_validate_pdf _) Hv) as Htv.
  unfold __init__. unfold bind at 1. rewrite Hv. cbn.
  unfold validate_output_path.
  rewrite (bool_decide_eq_true_2 (lower (suffix ["input.docx"]) = ".docx")) by reflexivity.
  unfold path_exists, path_is_dir, emit, get, ret, bind. cbn.
  destruct (fs !! ["input.docx"]); cbn.
  all: eexists _, _; split; [reflexivity|]; repeat split; try done.
  all: apply only_app; [eapply only_mono; [|exact Htv]; chans|].
  all: repeat (apply only_cons; [chan|]); apply only_nil.
Qed.


End WithServices.

Import Samples.

Lemma with_statement_closes_and_propagates_witness :
  ∃ s',
    with_statement (update_self (set_converter (Some ["doc.pdf"])))
      (conv0 DEFAULT_CONFIG None, fs_doc)
    = (Ok tt, s', [EvSessionClose ["doc.pdf"]]) ∧
    converter s'.1 = None.
Proof.
  assert (Ok tt ≠ @OutOfFuel unit) as Hfuel by discriminate.
  destruct (with_statement_closes_and_propagates
              (update_self (set_converter (Some ["doc.pdf"])))
              (conv0 DEFAULT_CONFIG None) fs_doc (Ok tt)
              (set_converter (Some ["doc.pdf"]) (conv0 DEFAULT_CONFIG None), fs_doc) []
              eq_refl Hfuel)
    as (s' & t' & Hrun & Hc & _ & _ & _ & _ & _ & Ht').
  exists s'. rewrite Ht' in Hrun. split; [exact Hrun|exact Hc].
Defined.


End ExamplesSpec.

(** ** cli.py: more of its behaviour *)

Module CliExtra.

Import PyStr Pathlib Config Utils Converter Cli Naming Observed Observed2 Faults Trace.
Import Channels.
Import PathlibSpec TraceSpec UtilsSpec ConverterSpec InitSpec CliSpec.
Import ChannelSpec UtilsFootprint UtilsExtra ConverterFootprint ConverterExtra RaiseSpec.

Local Arguments get_file_info : simpl never.
Local Arguments print_file_info : simpl never.
Local Arguments __init__ : simpl never.
Local Arguments convert : simpl never.
Local Arguments with_suffix : simpl never.
Local Arguments of_string : simpl never.

Section WithServices.
Context {sv : Services}.

Lemma confined_print_file_info (p : Path) :
  confined [ChRead; ChFitz; ChLogging; ChStdout] (print_file_info p).
Proof. unfold print_file_info. confine. Qed.

Lemma elem_of_conversions (t : list event) p out start stop :
  EvSessionConvert p out start stop ∈ t ↔ (p, out, start, stop) ∈ conversions t.
Proof.
  unfold conversions. rewrite list_elem_of_omap. split.
  - intros H. by exists (EvSessionConvert p out start stop).
  - intros (e & He & Heq). destruct e; try done. by injection Heq as -> -> -> ->.
Qed.

(** The run of [main_body] on an input path that exists: the report, the
    construction, the conversion and the summary, one after the other. *)
Lemma main_body_run (args : Args) (verbose : bool) (fs : FS) :
  let pdf := of_string (args_pdf_path args) in
  let cfg := args_config args verbose in
  node_at fs pdf ≠ None →
  match args_docx_path args with
  | inl e => main_body args verbose fs = (Raise e, fs, [EvExists pdf])
  | inr docx =>
      ∃ tp,
        only [ChRead; ChFitz; ChLogging; ChStdout] tp ∧ quiet tp ∧
        (verbose = false → tp = []) ∧
        match __init__ pdf (Some docx) (Some cfg) fs with
        | (Ok conv, fsi, ti) =>
            match convert (conv, fsi) with
            | (Ok out, (_, fsc), tc) =>
                ∃ ts,
                  only [ChRead; ChStdout] ts ∧ (verbose = false → ts = []) ∧
                  main_body args verbose fs = (Ok 0, fsc, EvExists pdf :: tp ++ ti ++ tc ++ ts)
            | (Raise e, (_, fsc), tc) =>
                main_body args verbose fs = (Raise e, fsc, EvExists pdf :: tp ++ ti ++ tc)
            | (OutOfFuel, _, _) => False
            end
        | (Raise e, fsi, ti) =>
            main_body args verbose fs = (Raise e, fsi, EvExists pdf :: tp ++ ti)
        | (OutOfFuel, _, _) => False
        end
  end.
Proof.
  intros pdf cfg Hex.
  destruct (print_file_info_run pdf fs) as (tpr & Hpr & Hqpr).
  pose proof (confined_run _ _ _ _ _ _ (confined_print_file_info pdf) Hpr) as Hopr.
  pose proof (eq_refl (main_body args verbose fs)) as Hmb.
  unfold main_body in Hmb at 2. fold pdf in Hmb.
  unfold bind at 1 in Hmb. rewrite path_exists_run in Hmb.
  destruct (node_at fs pdf) as [nd|] eqn:Hpdf; [|done]. cbn [negb] in Hmb.
  unfold bind at 1 in Hmb. unfold args_docx_path. fold pdf.
  assert (∃ x, x = match truthy_opt (args_output args) with
                   | Some o => inr (of_string o)
                   | None => with_suffix pdf ".docx"
                   end ∧
               match truthy_opt (args_output args) with
               | Some o => ret (of_string o)
               | None => of_sum (with_suffix pdf ".docx")
               end fs = of_sum x fs) as (x & <- & Hx).
  { eexists. split; [reflexivity|]. by destruct (truthy_opt _). }
  rewrite Hx in Hmb. clear Hx.
  destruct x as [e|docx]; [exact Hmb|]. cbn [of_sum] in Hmb.
  unfold ret at 1 in Hmb. cbn iota beta in Hmb.
  exists (if verbose then tpr else []).
  split; [destruct verbose; [done|apply only_nil]|].
  split; [destruct verbose; [done|apply quiet_nil]|].
  split; [by intros ->|].
  unfold bind at 1 in Hmb.
  assert ((if verbose then print_file_info pdf else ret ()) fs
          = (Ok tt, fs, if verbose then tpr else [])) as Hrep
    by (by destruct verbose).
  rewrite Hrep in Hmb. clear Hrep.
  unfold bind at 1 in Hmb. unfold cfg, args_config.
  destruct (__init__ pdf (Some docx) _ fs) as [[[conv|e|] fsi] ti] eqn:Hinit.
  3: { by destruct (init_ends _ _ _ _ _ _ Hinit). }
  2: { rewrite Hmb. by rewrite app_nil_l. }
  destruct (init_cases _ _ _ _ _ _ _ Hinit) as (_ & _ & Hok & _).
  destruct (Hok conv eq_refl) as (_ & _ & _ & _ & _ & Hc & _).
  unfold bind at 1, with_self in Hmb.
  destruct (convert (conv, fsi)) as [[rc [selfc fsc]] tc] eqn:Hconv.
  destruct (convert_state conv fsi Hc _ _ _ Hconv) as [_ Hfuel].
  destruct rc as [out|e|]; [| |done].
  2: { rewrite Hmb. by rewrite app_nil_l. }
  destruct (convert_ok conv fsi Hc _ _ _ Hconv) as (_ & Hout & _). cbn in Hout.
  destruct verbose.
  - revert Hmb. unfold stat_size, print, emit, get, ret, raise, bind. cbn.
    destruct (node_at fsc out) as [[sz c|]|]; [| |done].
    all: cbn; intros ->; refine (ex_intro _ _ (conj _ (conj _ eq_refl))); [|done].
    all: repeat (apply only_cons; [chan|]); apply only_nil.
  - revert Hmb. unfold ret, bind. cbn. intros ->. exists [].
    split; [apply only_nil|]. split; [done|]. by rewrite !app_nil_r.
Qed.

(** [main] in terms of the outcome of its [try] block. *)
Lemma main_run (args : Args) (fs : FS) :
  let verbose := args_verbose args && negb (args_quiet args) in
  main args fs =
    let '(rb, fsb, tb) := main_body args verbose fs in
    match rb with
    | Ok code => (Ok code, fsb, tb)
    | Raise e =>
        if is_Exception e then
          (Ok 1, fsb,
           tb ++ EvPrint true (nl +:+ "Error: " +:+ exn_str e)
              :: (if verbose then [EvTraceback] else []))
        else
          (Ok 130, fsb, tb ++ [EvPrint true (nl +:+ nl +:+ "Conversion cancelled by user.")])
    | OutOfFuel => (OutOfFuel, fsb, tb)
    end.
Proof.
  intros verbose. unfold main, try_except_interrupt. fold verbose.
  destruct (main_body args verbose fs) as [[[code|e|] fsb] tb]; [done| |done].
  unfold eprint, emit, ret, bind. destruct e; cbn; try done.
  all: by destruct verbose.
Qed.

(** The events of a run of [main] that are not those of the conversion. *)
Lemma main_trace (args : Args) (fs : FS) r fs' t :
  let verbose := args_verbose args && negb (args_quiet args) in
  let pdf := of_string (args_pdf_path args) in
  main args fs = (r, fs', t) →
  (∃ code, r = Ok code) ∧
  ((r = Ok 1 ∧ conversions t = [] ∧ opens t = 0%nat ∧
    only ([ChRead; ChFitz; ChMkdir; ChLogging; ChStderr]
          ++ if verbose then [ChStdout; ChTraceback] else []) t) ∨
   ∃ docx conv fsi ti,
     args_docx_path args = inr docx ∧
     __init__ pdf (Some docx) (Some (args_config args verbose)) fs = (Ok conv, fsi, ti) ∧
     ∃ rc sc tc t1 t2,
       convert (conv, fsi) = (rc, sc, tc) ∧ t = t1 ++ tc ++ t2 ∧
       validate (args_config args verbose) = [] ∧
       only ([ChRead; ChFitz; ChMkdir; ChLogging]
             ++ if verbose then [ChStdout] else []) t1 ∧
       only ([ChRead; ChStderr]
             ++ if verbose then [ChStdout; ChTraceback] else []) t2 ∧
       (r = Ok 0 ↔ ∃ out, rc = Ok out) ∧
       (r = Ok 130 ↔ ∃ e, rc = Raise e ∧ is_Exception e = false)).
Proof.
  intros verbose pdf. rewrite main_run. fold verbose.
  destruct (decide (node_at fs pdf = None)) as [Hnone|Hex].
  { rewrite (main_body_missing args verbose fs Hnone). fold pdf.
    intros [= <- <- <-]. split; [by eexists|]. left. split; [done|].
    split; [done|]. split; [done|]. repeat (apply only_cons; [chan|]). apply only_nil. }
  pose proof (main_body_run args verbose fs Hex) as Hbody. fold pdf in Hbody.
  clearbody verbose.
  assert (∀ tp, only [ChRead; ChFitz; ChLogging; ChStdout] tp → (verbose = false → tp = []) →
            only ([ChRead; ChFitz; ChMkdir; ChLogging] ++ if verbose then [ChStdout] else [])
              tp) as Hreport.
  { intros tp Htp Hnil. destruct verbose; [|rewrite Hnil by done; apply only_nil].
    eapply only_mono; [|exact Htp]. chans. }
  assert (∀ e, only ([ChRead; ChStderr] ++ if verbose then [ChStdout; ChTraceback] else [])
                 (EvPrint true (nl +:+ "Error: " +:+ exn_str e)
                  :: (if verbose then [EvTraceback] else []))) as Herr.
  { intros e. destruct verbose; repeat (apply only_cons; [chan|]); apply only_nil. }
  assert (∀ tb e,
            quiet tb →
            only ([ChRead; ChFitz; ChMkdir; ChLogging] ++ if verbose then [ChStdout] else [])
              tb →
            let t0 := tb ++ EvPrint true (nl +:+ "Error: " +:+ exn_str e)
                         :: (if verbose then [EvTraceback] else []) in
            conversions t0 = [] ∧ opens t0 = 0%nat ∧
            only ([ChRead; ChFitz; ChMkdir; ChLogging; ChStderr]
                  ++ if verbose then [ChStdout; ChTraceback] else []) t0) as Hleft.
  { intros tb e Hq Htb t0. unfold t0.
    rewrite conversions_app, opens_app, (quiet_conversions tb Hq), (quiet_opens tb Hq).
    split; [by destruct verbose|]. split; [by destruct verbose|].
    apply only_app.
    - eapply only_mono; [|exact Htb]. destruct verbose; chans.
    - eapply only_mono; [|exact (Herr e)]. destruct verbose; chans. }
  destruct (args_docx_path args) as [e|docx] eqn:Hdocx.
  { rewrite Hbody. assert (is_Exception e = true) as ->.
    { unfold args_docx_path in Hdocx. destruct (truthy_opt _); [done|].
      by destruct (with_suffix_raises _ _ _ Hdocx) as [m ->]. }
    intros [= <- <- <-]. split; [by eexists|]. left. split; [done|].
    refine (Hleft [EvExists pdf] e _ _).
    - by repeat constructor.
    - apply only_cons; [chan|apply only_nil]. }
  destruct Hbody as (tp & Htp & Hqtp & Htpnil & Hbody).
  destruct (__init__ pdf (Some docx) _ fs) as [[[conv|e|] fsi] ti] eqn:Hinit; [| |done].
  all: pose proof (confined_run _ _ _ _ _ _ (confined_init _ _ _) Hinit) as Hti.
  all: destruct (init_cases _ _ _ _ _ _ _ Hinit) as (_ & _ & Hok & _ & Hqi).
  all: assert (quiet (EvExists pdf :: tp ++ ti)) as Hq1
         by (apply quiet_cons; [done|]; by apply quiet_app).
  all: assert (only ([ChRead; ChFitz; ChMkdir; ChLogging]
                     ++ if verbose then [ChStdout] else []) (EvExists pdf :: tp ++ ti)) as Ht1
         by (apply only_cons; [chan|]; apply only_app;
             [by apply Hreport
             |eapply only_mono; [|exact Hti]; intros c Hin; apply elem_of_app; by left]).
  2: { rewrite Hbody.
       assert (is_Exception e = true) as ->
         by (by destruct (init_raises _ _ _ _ _ _ _ Hinit) as [m [->| ->]]).
       intros [= <- <- <-]. split; [by eexists|]. left. split; [done|].
       exact (Hleft (EvExists pdf :: tp ++ ti) _ Hq1 Ht1). }
  destruct (Hok conv eq_refl) as (_ & _ & _ & _ & Hcfg & Hc & _). cbn in Hcfg.
  destruct (convert (conv, fsi)) as [[rc [selfc fsc]] tc] eqn:Hconv.
  destruct (decide (validate (config conv) = [])) as [Hv|Hv].
  2: { rewrite (convert_invalid conv fsi Hv) in Hconv. injection Hconv as <- <- <- <-.
       rewrite Hbody. cbn [is_Exception]. intros [= <- <- <-]. split; [by eexists|]. left.
       split; [done|]. rewrite app_nil_r.
       exact (Hleft (EvExists pdf :: tp ++ ti)
                (ValueError ("Invalid configuration: " +:+ join ", " (validate (config conv))))
                Hq1 Ht1). }
  rewrite Hcfg in Hv.
  destruct (convert_state conv fsi Hc _ _ _ Hconv) as [_ Hfuel].
  destruct rc as [out|e|]; [| |done].
  - destruct Hbody as (ts & Hts & Htsnil & ->). intros [= <- <- <-].
    split; [by eexists|]. right.
    exists docx, conv, fsi, ti. split; [done|]. split; [done|].
    exists (Ok out), (selfc, fsc), tc, (EvExists pdf :: tp ++ ti), ts.
    split; [done|]. split; [cbn; by rewrite <- !app_assoc|]. split; [done|].
    split; [done|]. split.
    { destruct verbose; [|rewrite Htsnil by done; apply only_nil].
      eapply only_mono; [|exact Hts]. chans. }
    split; [split; [by eexists|done]|].
    split; [done|]. by intros (e & ? & _).
  - rewrite Hbody. destruct (is_Exception e) eqn:He; intros [= <- <- <-].
    + split; [by eexists|]. right.
      exists docx, conv, fsi, ti. split; [done|]. split; [done|].
      eexists (Raise e), (selfc, fsc), tc, (EvExists pdf :: tp ++ ti), _.
      split; [done|]. split; [cbn; by rewrite <- !app_assoc|]. split; [done|].
      split; [done|]. split; [apply Herr|].
      split; [split; [done|by intros [? ?]]|].
      split; [done|]. intros (e' & [= <-] & He'). congruence.
    + split; [by eexists|]. right.
      exists docx, conv, fsi, ti. split; [done|]. split; [done|].
      eexists (Raise e), (selfc, fsc), tc, (EvExists pdf :: tp ++ ti), _.
      split; [done|]. split; [cbn; by rewrite <- !app_assoc|]. split; [done|].
      split; [done|]. split.
      { destruct verbose; repeat (apply only_cons; [chan|]); apply only_nil. }
      split; [split; [done|by intros [? ?]]|].
      split; [intros _; by exists e|done].
Qed.

(** X21. What [main] writes and where. It never registers or calls a
    progress callback. With [--quiet], or with verbose output switched off,
    it prints nothing to stdout and no traceback: what is left are the error
    messages it prints to stderr, the records of logging, and the exit
    code. *)
Theorem main_quiet_prints_nothing (args : Args) (fs : FS) r fs' t :
  main args fs = (r, fs', t) →
  only [ChRead; ChFitz; ChMkdir; ChCopy; ChSession; ChLogging;
        ChStdout; ChStderr; ChTraceback] t ∧
  (args_quiet args = true ∨ args_verbose args = false →
   only [ChRead; ChFitz; ChMkdir; ChCopy; ChSession; ChLogging; ChStderr] t).
Proof.
  intros Hrun. destruct (main_trace args fs r fs' t Hrun) as [_ Htrace].
  set (verbose := args_verbose args && negb (args_quiet args)) in *.
  assert (args_quiet args = true ∨ args_verbose args = false → verbose = false) as Hquiet.
  { unfold verbose. intros [-> | ->]; [by rewrite andb_false_r|done]. }
  clearbody verbose.
  destruct Htrace as [(_ & _ & _ & Honly)
                     |(docx & conv & fsi & ti & _ & _ & rc & sc & tc & t1 & t2 & Hconv & ->
                       & _ & Ht1 & Ht2 & _)].
  - split; [eapply only_mono; [|exact Honly]; destruct verbose; chans|].
    intros ->%Hquiet. eapply only_mono; [|exact Honly]. chans.
  - pose proof (confined_run _ _ _ _ _ _ confined_convert Hconv) as Htc.
    split.
    + repeat apply only_app.
      * eapply only_mono; [|exact Ht1]. destruct verbose; chans.
      * eapply only_mono; [|exact Htc]. chans.
      * eapply only_mono; [|exact Ht2]. destruct verbose; chans.
    + intros ->%Hquiet. repeat apply only_app.
      * eapply only_mono; [|exact Ht1]. chans.
      * eapply only_mono; [|exact Htc]. chans.
      * eapply only_mono; [|exact Ht2]. chans.
Qed.

(** X22. The conversion [main] asks for. In one run it calls the conversion
    of pdf2docx at most once, on the input path, with [--start-page] and
    [--end-page] as given, and with the output path it settled on: the
    [--output] argument, or the input path with the extension replaced by
    [.docx] when that argument is absent or empty. Exit code 0 means that
    this call was made; no call is made with an invalid page range or
    CPU count. *)
Theorem main_conversion_arguments (args : Args) (fs : FS) r fs' t :
  main args fs = (r, fs', t) →
  let verbose := args_verbose args && negb (args_quiet args) in
  let pdf := of_string (args_pdf_path args) in
  (conversions t = [] ∨
   ∃ out, args_docx_path args = inr out ∧
          conversions t = [(pdf, out, args_start_page args, args_end_page args)]) ∧
  (r = Ok 0 → conversions t ≠ []) ∧
  (conversions t ≠ [] → validate (args_config args verbose) = []).
Proof.
  intros Hrun verbose pdf.
  destruct (main_trace args fs r fs' t Hrun) as [_ Htrace]. fold verbose pdf in Htrace.
  destruct Htrace as [(-> & Hnone & _)
                     |(docx & conv & fsi & ti & Hdocx & Hinit & rc & sc & tc & t1 & t2 & Hconv
                       & -> & Hv & Ht1 & Ht2 & Hzero & _)].
  { split; [by left|]. by rewrite Hnone. }
  destruct (init_cases _ _ _ _ _ _ _ Hinit) as (_ & _ & Hok & _).
  destruct (Hok conv eq_refl) as (_ & Hout & _ & Hpdf & Hcfg & Hc & _).
  cbn in Hout, Hcfg. injection Hout as Hout.
  destruct (convert_run_summary conv fsi rc sc tc Hc Hconv) as (fs1 & _ & Hcalls & Hres).
  rewrite Hpdf, <- Hout, Hcfg in Hcalls, Hres. cbn in Hcalls, Hres.
  assert (conversions t1 = []) as Hc1.
  { apply (only_conversions _ _ Ht1). destruct (verbose); intros H; mem_inv H. }
  assert (conversions t2 = []) as Hc2.
  { apply (only_conversions _ _ Ht2). destruct (verbose); intros H; mem_inv H. }
  rewrite !conversions_app, Hc1, Hc2, app_nil_r, app_nil_l.
  split; [|split; [|done]].
  - destruct Hcalls as [[-> _]|[-> _]]; [by left|]. right. by exists docx.
  - intros [out ->]%Hzero. destruct (Hres out eq_refl) as (_ & -> & _). done.
Qed.

(** X23. A bad page range or CPU count on the command line. [main] ends
    with exit code 1 and never reaches pdf2docx: no session is opened,
    nothing is converted and no backup is made. The configuration is checked
    by [convert], after the constructor ran: the directories above the
    output file and the log file may have been created by then. *)
Theorem main_rejects_invalid_config (args : Args) (fs : FS) r fs' t :
  let verbose := args_verbose args && negb (args_quiet args) in
  validate (args_config args verbose) ≠ [] →
  main args fs = (r, fs', t) →
  r = Ok 1 ∧ conversions t = [] ∧ opens t = 0%nat ∧
  only [ChRead; ChFitz; ChMkdir; ChLogging; ChStdout; ChStderr; ChTraceback] t ∧
  (∀ q x, fs !! q = Some x → fs' !! q = Some x).
Proof.
  intros verbose Hv Hrun.
  destruct (main_trace args fs r fs' t Hrun) as [_ Htrace]. fold verbose in Htrace.
  destruct Htrace as [(-> & Hnone & Hopens & Honly)
                     |(docx & conv & fsi & ti & _ & _ & rc & sc & tc & t1 & t2 & _ & _
                       & Hv' & _)]; [|done].
  split; [done|]. split; [done|]. split; [done|]. split.
  { eapply only_mono; [|exact Honly]. destruct verbose; chans. }
  revert Hrun. rewrite main_run. fold verbose.
  destruct (decide (node_at fs (of_string (args_pdf_path args)) = None)) as [Hmiss|Hex].
  { rewrite (main_body_missing args verbose fs Hmiss). intros Heq%(f_equal (λ x, x.1.2)); cbn in Heq; by subst. }
  pose proof (main_body_run args verbose fs Hex) as Hbody.
  destruct (args_docx_path args) as [e|docx].
  { rewrite Hbody. destruct (is_Exception e); intros Heq%(f_equal (λ x, x.1.2)); cbn in Heq; by subst. }
  destruct Hbody as (tp & _ & _ & _ & Hbody).
  destruct (__init__ _ (Some docx) _ fs) as [[[conv|e|] fsi] ti] eqn:Hinit; [| |done].
  all: destruct (InitExtra.init_run_summary _ _ _ _ _ _ _ Hinit) as (Hkeep & _).
  2: { rewrite Hbody. destruct (is_Exception e); intros Heq%(f_equal (λ x, x.1.2)); cbn in Heq; by subst. }
  destruct (init_cases _ _ _ _ _ _ _ Hinit) as (_ & _ & Hok & _).
  destruct (Hok conv eq_refl) as (_ & _ & _ & _ & Hcfg & _). cbn in Hcfg.
  rewrite <- Hcfg in Hv. rewrite (convert_invalid conv fsi Hv) in Hbody.
  rewrite Hbody. cbn. intros Heq%(f_equal (λ x, x.1.2)); cbn in Heq; by subst.
Qed.

End WithServices.

Import Samples Samples2.

Lemma main_quiet_prints_nothing_witness :
  args_quiet args_quiet_doc = true ∧
  let '(_, _, t) := main (sv := sv_ok) args_quiet_doc fs_doc in
  only [ChRead; ChFitz; ChMkdir; ChCopy; ChSession; ChLogging; ChStderr] t.
Proof.
  split; [reflexivity|].
  destruct (main (sv := sv_ok) args_quiet_doc fs_doc) as [[r fs'] t] eqn:E.
  destruct (main_quiet_prints_nothing (sv := sv_ok) args_quiet_doc fs_doc r fs' t E)
    as [_ Hquiet].
  exact (Hquiet (or_introl eq_refl)).
Defined.

Lemma main_conversion_arguments_witness :
  let '(r, _, t) := main (sv := sv_ok) args_doc fs_doc in
  r = Ok 0 → conversions t ≠ [].
Proof.
  destruct (main (sv := sv_ok) args_doc fs_doc) as [[r fs'] t] eqn:E.
  destruct (main_conversion_arguments (sv := sv_ok) args_doc fs_doc r fs' t E)
    as (_ & Hzero & _).
  exact Hzero.
Defined.

Lemma main_rejects_invalid_config_witness :
  validate (args_config args_bad_range true) ≠ [] ∧
  let '(r, _, t) := main (sv := sv_ok) args_bad_range fs_doc in
  r = Ok 1 ∧ conversions t = [].
Proof.
  assert (validate (args_config args_bad_range true) ≠ []) as Hv by discriminate.
  split; [exact Hv|].
  destruct (main (sv := sv_ok) args_bad_range fs_doc) as [[r fs'] t] eqn:E.
  destruct (main_rejects_invalid_config (sv := sv_ok) args_bad_range fs_doc r fs' t Hv E)
    as (Hr & Hnone & _).
  by split.
Defined.

End CliExtra.

(** ** The output path and the configuration *)

Module OutputSpec.

Import PyStr Pathlib Config Utils Converter Observed.
Import PathlibSpec TraceSpec UtilsSpec ConverterSpec InitSpec ConfigSpec.

Lemma rfind_absent (c : ascii) (s : string) : contains c s = false → rfind c s = -1.
Proof.
  induction s as [|a s IH]; [done|]. cbn. intros [Ha Hs]%orb_false_elim.
  rewrite (IH Hs). cbn. by rewrite Ha.
Qed.

Lemma rfind_app_last (c : ascii) (a b : string) :
  contains c b = false → rfind c (a +:+ String c b) = len a.
Proof.
  intros Hb. induction a as [|x a IH].
  - rewrite app_empty_l. cbn [rfind]. rewrite (rfind_absent c b Hb). cbn.
    by rewrite Ascii.eqb_refl.
  - rewrite app_cons. cbn [rfind]. rewrite IH. unfold len. cbn [String.length].
    destruct (Z.leb_spec 0 (Z.of_nat (String.length a))); lia.
Qed.

Lemma drop_app_length (a b : string) : drop (String.length a) (a +:+ b) = b.
Proof. induction a as [|x a IH]; [done|]. by rewrite app_cons. Qed.

Lemma name_suffix_app (a : string) :
  a ≠ "" → name_suffix (a +:+ ".docx") = ".docx".
Proof.
  intros Ha. unfold name_suffix.
  change (a +:+ ".docx") with (a +:+ String "."%char "docx").
  rewrite rfind_app_last by done. unfold len. rewrite length_app_str. cbn [String.length].
  assert (0 < Z.of_nat (String.length a)) by (destruct a; [done|cbn; lia]).
  rewrite (proj2 (Z.ltb_lt 0 _)) by done.
  rewrite (proj2 (Z.ltb_lt _ _)) by lia. cbn [andb].
  rewrite Nat2Z.id. apply drop_app_length.
Qed.

Lemma name_app (l : list string) (x : string) : name (l ++ [x]) = x.
Proof. unfold name. apply last_last. Qed.

(** The path [with_suffix] builds for the extension [.docx]. *)
Lemma with_suffix_docx (p q : Path) :
  with_suffix p ".docx" = inr q →
  suffix q = ".docx" ∧ parent q = parent p ∧
  name q = name_stem (name p) +:+ ".docx".
Proof.
  unfold with_suffix. cbn [contains startswith truthy negb andb orb Ascii.eqb].
  rewrite bool_decide_eq_false_2 by done. cbn [orb].
  destruct (truthy (name p)) eqn:Hnm; cbn [negb]; [|done].
  apply truthy_true in Hnm.
  assert (name_stem (name p) ≠ "" ∧
          (if negb (truthy (suffix p)) then name p +:+ ".docx"
           else take (String.length (name p) - String.length (suffix p)) (name p)
                  +:+ ".docx") = name_stem (name p) +:+ ".docx") as [Hstem ->].
  { unfold suffix, name_stem.
    destruct (name_suffix_cases (name p)) as [Hs|(_ & _ & Hlen)].
    - rewrite Hs. cbn. rewrite Nat.sub_0_r.
      assert (take (String.length (name p)) (name p) = name p) as ->.
      { rewrite <- (app_empty_r (name p)) at 2. apply take_app_length. }
      done.
    - unfold name_stem in Hlen. split.
      + intros Heq. rewrite Heq in Hlen. cbn in Hlen. lia.
      + destruct (name_suffix (name p)) eqn:Hs; [|done]. cbn. rewrite Nat.sub_0_r.
        assert (take (String.length (name p)) (name p) = name p) as ->.
        { rewrite <- (app_empty_r (name p)) at 2. apply take_app_length. }
        done. }
  intros [= <-]. unfold suffix, parent. rewrite name_app, removelast_last.
  split; [by apply name_suffix_app|done].
Qed.

Section WithServices.
Context {sv : Services}.

(** X24. The output path of a converter is never its input path: a
    constructed converter has an input path ending in [.pdf] and an output
    path ending in [.docx], in any case, so that a conversion cannot
    overwrite the PDF it reads. The output path that is derived when none is
    given lies in the directory of the input, bears the name of the input
    with its extension replaced by [.docx], and so always passes the
    extension check. *)
Theorem output_is_never_the_input (pdf : Path) (docx : option Path)
    (cfg : option ConversionConfig) (fs : FS) self fs' t :
  __init__ pdf docx cfg fs = (Ok self, fs', t) →
  pdf_path self = pdf ∧
  lower (suffix (pdf_path self)) = ".pdf" ∧
  lower (suffix (docx_path self)) = ".docx" ∧
  docx_path self ≠ pdf_path self ∧
  (docx = None →
   suffix (docx_path self) = ".docx" ∧
   parent (docx_path self) = parent pdf ∧
   name (docx_path self) = name_stem (name pdf) +:+ ".docx") ∧
  (∀ p, docx = Some p → docx_path self = p).
Proof.
  intros Hrun.
  destruct (init_cases _ _ _ _ _ _ _ Hrun) as (_ & _ & Hok & _).
  destruct (Hok self eq_refl) as (Hpdf & Hout & Hdocx & Hp & _).
  assert (lower (suffix pdf) = ".pdf") as Hs1.
  { destruct (decide (lower (suffix pdf) = ".pdf")) as [|Hne]; [done|].
    destruct Hpdf. unfold pdf_rejected. auto. }
  assert (lower (suffix (docx_path self)) = ".docx") as Hs2.
  { destruct (decide (lower (suffix (docx_path self)) = ".docx")) as [|Hne]; [done|].
    destruct Hdocx. unfold output_rejected. auto. }
  rewrite Hp. split; [done|]. split; [done|]. split; [done|]. split.
  { intros Heq. rewrite Heq, Hs1 in Hs2. done. }
  split.
  - intros ->. cbn in Hout. by apply with_suffix_docx.
  - intros p ->. cbn in Hout. by injection Hout.
Qed.

End WithServices.

Import Samples.

Lemma output_is_never_the_input_witness :
  let '(r, _, _) := __init__ (sv := sv_ok) ["doc.pdf"] None None fs_doc in
  ∀ self, r = Ok self → docx_path self ≠ pdf_path self.
Proof.
  destruct (__init__ (sv := sv_ok) ["doc.pdf"] None None fs_doc) as [[r fs'] t] eqn:E.
  intros self ->.
  by destruct (output_is_never_the_input (sv := sv_ok) ["doc.pdf"] None None fs_doc
                 self fs' t E) as (_ & _ & _ & Hne & _).
Defined.

(** X25. The order and the scope of the configuration check. The messages
    of [validate] always come in the order of its three checks, each at most
    once, and depend on [start_page], [end_page] and [cpu_count] alone: a
    [cpu_count] below one is a violation also when [multi_processing] is
    off, and no other setting is ever checked. *)
Theorem validate_order_and_scope (c : ConversionConfig) :
  sublist (validate c) [err_start_page; err_end_page; err_cpu_count] ∧
  (∀ c', start_page c' = start_page c → end_page c' = end_page c →
         cpu_count c' = cpu_count c → validate c' = validate c) ∧
  (∀ n, cpu_count c = Some n → n < 1 → err_cpu_count ∈ validate c).
Proof.
  split; [|split].
  - rewrite validate_cases.
    destruct (start_page c <? 0); destruct (end_page c) as [e|];
      destruct (cpu_count c) as [n|];
      try destruct (e <? start_page c); try destruct (n <? 1); cbn;
      eauto 10 using sublist_nil, sublist_skip, sublist_cons.
  - intros c' Hs He Hc. by rewrite !validate_cases, Hs, He, Hc.
  - intros n Hn Hlt. rewrite validate_cases, Hn.
    rewrite (proj2 (Z.ltb_lt n 1)) by done.
    rewrite !elem_of_app. right. right. by left.
Qed.

End OutputSpec.

(** ** utils.py under an operating system that may refuse a file test *)

Module OsUtilsSpec.

Import PyStr Pathlib Config Utils Naming Observed Observed2 Trace.
Import PathlibSpec TraceSpec UtilsSpec InitSpec RaiseSpec.

Local Arguments mkdir_parents : simpl never.
Local Arguments copy2 : simpl never.
Local Arguments parent : simpl never.

Section WithServices.
Context {sv : Services} {os : Os}.

(** *** The file tests *)

Lemma os_path_exists_run (p : Path) (fs : FS) :
  OsUtils.path_exists p fs =
    match stat_refused p with
    | Some m => (Raise (OSError m), fs, [EvExists p])
    | None => path_exists p fs
    end.
Proof.
  unfold OsUtils.path_exists, OsUtils.stat_node, path_exists, emit, get, raise, ret, bind.
  by destruct (stat_refused p).
Qed.

Lemma os_path_is_file_run (p : Path) (fs : FS) :
  OsUtils.path_is_file p fs =
    match stat_refused p with
    | Some m => (Raise (OSError m), fs, [EvIsFile p])
    | None => path_is_file p fs
    end.
Proof.
  unfold OsUtils.path_is_file, OsUtils.stat_node, path_is_file, emit, get, raise, ret, bind.
  by destruct (stat_refused p).
Qed.

Lemma os_path_is_dir_run (p : Path) (fs : FS) :
  OsUtils.path_is_dir p fs =
    match stat_refused p with
    | Some m => (Raise (OSError m), fs, [EvIsDir p])
    | None => path_is_dir p fs
    end.
Proof.
  unfold OsUtils.path_is_dir, OsUtils.stat_node, path_is_dir, emit, get, raise, ret, bind.
  by destruct (stat_refused p).
Qed.

Lemma os_stat_size_run (p : Path) (fs : FS) :
  OsUtils.stat_size p fs =
    match stat_refused p with
    | Some m => (Raise (OSError m), fs, [EvStat p])
    | None =>
        match node_at fs p with
        | Some Dir => (Ok (dir_size p), fs, [EvStat p])
        | _ => stat_size p fs
        end
    end.
Proof.
  unfold OsUtils.stat_size, OsUtils.stat_node, stat_size, emit, get, raise, ret, bind.
  destruct (stat_refused p); [done|]. cbn. by destruct (node_at fs p) as [[]|].
Qed.

(** *** validate_pdf *)

(** Both tests of [validate_pdf] are on the path itself: it raises when the
    path is refused, and is [Utils.validate_pdf] when it is not. *)
Lemma os_validate_pdf_run (p : Path) (fs : FS) :
  OsUtils.validate_pdf p fs =
    match stat_refused p with
    | Some m => (Raise (OSError m), fs, [EvExists p])
    | None => validate_pdf p fs
    end.
Proof.
  unfold OsUtils.validate_pdf, validate_pdf, OsUtils.path_exists, OsUtils.path_is_file,
    OsUtils.stat_node, path_exists, path_is_file, emit, get, raise, ret, bind.
  destruct (stat_refused p) as [m|] eqn:Hp; [done|]. cbn.
  by destruct (node_at fs p) as [[]|].
Qed.

(** *** validate_output_path *)

(** [validate_output_path] tests the path and then its parent. *)
Lemma os_validate_output_path_run (p : Path) (ow : bool) (fs : FS) :
  OsUtils.validate_output_path p ow fs =
    if negb (bool_decide (lower (suffix p) = ".docx")) then validate_output_path p ow fs
    else
      match stat_refused p with
      | Some m => (Raise (OSError m), fs, [EvExists p])
      | None =>
          if match node_at fs p with Some _ => true | None => false end && negb ow
          then validate_output_path p ow fs
          else
            match stat_refused (parent p) with
            | Some m => (Raise (OSError m), fs, [EvExists p; EvExists (parent p)])
            | None => validate_output_path p ow fs
            end
      end.
Proof.
  unfold OsUtils.validate_output_path, validate_output_path, OsUtils.path_exists,
    OsUtils.path_is_dir, OsUtils.stat_node, path_exists, path_is_dir, try_except,
    emit, get, raise, ret, bind.
  destruct (negb (bool_decide (lower (suffix p) = ".docx"))); [done|].
  destruct (stat_refused p) as [m|] eqn:Hp; [done|]. cbn.
  destruct (node_at fs p) as [ndp|]; destruct ow; cbn; try done;
    (destruct (stat_refused (parent p)) as [m|] eqn:Hpar; [done|]); cbn;
    (destruct (node_at fs (parent p)) as [nd|]; cbn; [done|]);
    destruct (mkdir_parents (parent p) fs) as [[[[]|e|] fs1] t1]; cbn; try done;
    by destruct (is_Exception e).
Qed.

(** When the path and its parent are not refused, the outcome is that of
    [Utils.validate_output_path]. *)
Lemma os_validate_output_path_answered (p : Path) (ow : bool) (fs : FS) :
  stat_refused p = None → stat_refused (parent p) = None →
  OsUtils.validate_output_path p ow fs = validate_output_path p ow fs.
Proof.
  intros Hp Hpar. rewrite os_validate_output_path_run, Hp, Hpar.
  by repeat case_match.
Qed.

(** *** get_file_info *)

Lemma os_get_file_info_run (p : Path) (fs : FS) :
  match stat_refused p with
  | Some m => OsUtils.get_file_info p fs = (Raise (OSError m), fs, [EvExists p])
  | None =>
      ∃ info t,
        OsUtils.get_file_info p fs = (Ok info, fs, t) ∧ quiet t ∧
        info_pages info = pages_at fs p ∧
        info_encrypted info = encrypted_at fs p ∧
        info_name info = name p ∧
        info_size info = match node_at fs p with
                         | Some (File sz _) => sz
                         | Some Dir => dir_size p
                         | None => 0
                         end
  end.
Proof.
  destruct (stat_refused p) as [m|] eqn:Hp;
    unfold OsUtils.get_file_info; unfold bind at 1; rewrite os_path_exists_run, Hp;
    [done|].
  rewrite path_exists_run. unfold bind at 1.
  unfold pages_at, encrypted_at.
  destruct (node_at fs p) as [[sz [msg|d]|]|] eqn:E;
    rewrite ?os_stat_size_run, ?Hp, ?E;
    unfold try_except, bind, stat_size, fitz_open, fitz_close, log, emit, get, ret, raise;
    run_with E;
    eexists _, _; (split; [reflexivity|]); (split; [auto 10 with quiet | done]).
Qed.

(** *** create_backup *)

(** One turn of the loop of [create_backup]. *)
Lemma os_backup_probe_step (fuel : nat) (p b : Path) (c : Z) (fs : FS) :
  OsUtils.backup_probe (S fuel) p b c fs =
    match stat_refused b with
    | Some m => (Raise (OSError m), fs, [EvExists b])
    | None =>
        match node_at fs b with
        | None => (Ok b, fs, [EvExists b])
        | Some _ =>
            match with_suffix p (suffix p +:+ ".bak." +:+ pretty c) with
            | inl e => (Raise e, fs, [EvExists b])
            | inr q =>
                let '(r, s, t) := OsUtils.backup_probe fuel p q (c + 1) fs in
                (r, s, EvExists b :: t)
            end
        end
    end.
Proof.
  cbn [OsUtils.backup_probe]. unfold bind at 1. rewrite os_path_exists_run.
  destruct (stat_refused b); [done|]. rewrite path_exists_run.
  destruct (node_at fs b); [|done]. unfold bind.
  destruct (with_suffix p _); [done|]. cbn.
  by destruct (OsUtils.backup_probe fuel p _ (c + 1) fs) as [[r s] t].
Qed.

(** The loop of [create_backup] from the [j]-th backup name on: it stops at
    the first name that is free, or that the operating system refuses. *)
Lemma os_backup_probe_spec (p : Path) (fs : FS) (fuel : nat) :
  ∀ (j : Z) (X : gset Path),
  0 ≤ j →
  (∀ i, j ≤ i → is_Some (fs !! nth_backup p i) → nth_backup p i ∈ X) →
  (size X < fuel)%nat →
  ∃ n t,
    j ≤ n ∧
    (∀ i, j ≤ i < n →
          is_Some (fs !! nth_backup p i) ∧ stat_refused (nth_backup p i) = None) ∧
    quiet t ∧
    ((stat_refused (nth_backup p n) = None ∧ fs !! nth_backup p n = None ∧
      OsUtils.backup_probe fuel p (nth_backup p j) (j + 1) fs = (Ok (nth_backup p n), fs, t))
     ∨ (∃ m, stat_refused (nth_backup p n) = Some m ∧
             OsUtils.backup_probe fuel p (nth_backup p j) (j + 1) fs
             = (Raise (OSError m), fs, t))
     ∨ (¬ wf_name p ∧
        ∃ msg, OsUtils.backup_probe fuel p (nth_backup p j) (j + 1) fs
               = (Raise (ValueError msg), fs, t))).
Proof.
  induction fuel as [|fuel IH]; intros j X Hj HX Hsize; [lia|].
  rewrite os_backup_probe_step.
  destruct (stat_refused (nth_backup p j)) as [m|] eqn:Href.
  { exists j, [EvExists (nth_backup p j)]. split; [lia|]. split; [intros; lia|].
    split; [by repeat constructor|]. right. left. exists m. by rewrite Href. }
  rewrite node_at_nth_backup.
  destruct (fs !! nth_backup p j) as [v|] eqn:Hlook.
  - assert (bak_suffix (j + 1) = ".bak." +:+ pretty (j + 1)) as Hsfx.
    { unfold bak_suffix. destruct (Z.eqb_spec (j + 1) 0); [lia | done]. }
    rewrite <- Hsfx.
    destruct (with_suffix p (suffix p +:+ bak_suffix (j + 1))) as [e|q] eqn:Hws.
    + exists j, [EvExists (nth_backup p j)]. split; [lia|]. split; [intros; lia|].
      split; [by repeat constructor|]. right. right. split.
      * intros Hwf. destruct (bak_suffix_shape (j + 1)) as (? & ? & ? & ?).
        by rewrite with_suffix_append in Hws.
      * destruct (with_suffix_raises _ _ _ Hws) as [msg ->]. by exists msg.
    + apply with_suffix_inr in Hws as ->. fold (nth_backup p (j + 1)).
      destruct (IH (j + 1) (X ∖ {[nth_backup p j]})) as (n & t & Hn & Hall & Hq & Hrun).
      * lia.
      * intros i Hi Hsome. apply elem_of_difference. split; [apply HX; [lia | done]|].
        rewrite elem_of_singleton. intros Heq%(inj (nth_backup p)). lia.
      * assert (nth_backup p j ∈ X) as Hin by (apply HX; [lia | by eexists]).
        pose proof (size_difference X {[nth_backup p j]}) as Hd.
        rewrite size_singleton in Hd.
        rewrite Hd by (by apply singleton_subseteq_l).
        assert (size X ≠ 0%nat) by (intros ?%size_empty_inv; set_solver).
        lia.
      * exists n, (EvExists (nth_backup p j) :: t).
        split; [lia|]. split.
        { intros i Hi. destruct (decide (i = j)) as [->|]; [|apply Hall; lia].
          split; [by eexists | done]. }
        split; [by constructor|].
        destruct Hrun as [(? & ? & ->)|[(m & ? & ->)|(Hwf & msg & ->)]];
          [by left | right; left; by exists m | right; right; eauto].
  - exists j, [EvExists (nth_backup p j)]. split; [lia|]. split; [intros; lia|].
    split; [by repeat constructor|]. left. by rewrite Href.
Qed.

Local Arguments OsUtils.backup_probe : simpl never.

(** [create_backup] step by step. *)
Lemma os_create_backup_run (p : Path) (fs : FS) :
  OsUtils.create_backup p fs =
    match stat_refused p with
    | Some m => (Raise (OSError m), fs, [EvExists p])
    | None =>
        match node_at fs p with
        | None => (Ok None, fs, [EvExists p])
        | Some _ =>
            match with_suffix p (suffix p +:+ ".bak") with
            | inl e => (Raise e, fs, [EvExists p])
            | inr b =>
                let '(r, s, t) := OsUtils.backup_probe (S (size fs)) p b 1 fs in
                match r with
                | Ok b' =>
                    let '(r2, s2, t2) := backup_copy p b' s in
                    (r2, s2, EvExists p :: t ++ t2)
                | Raise e => (Raise e, s, EvExists p :: t)
                | OutOfFuel => (OutOfFuel, s, EvExists p :: t)
                end
            end
        end
    end.
Proof.
  unfold OsUtils.create_backup. unfold bind at 1. rewrite os_path_exists_run.
  destruct (stat_refused p) as [m|]; [done|]. rewrite path_exists_run.
  destruct (node_at fs p) as [v|]; [|done]. cbn [negb]. unfold bind at 1.
  destruct (with_suffix p (suffix p +:+ ".bak")) as [e|b]; [done|]. cbn.
  unfold bind at 1. cbn. unfold bind at 1.
  destruct (OsUtils.backup_probe (S (size fs)) p b 1 fs) as [[[b'|e|] s] t]; cbn;
    [|done..].
  unfold backup_copy, bind.
  by destruct (try_except _ _ s) as [[r2 s2] t2].
Qed.

(** The five ways [create_backup] can go: the test of the file is refused;
    the file is not there; the file has a name no suffix can be added to; the
    test of a backup name is refused; or a free name is found and the copy is
    tried. Only in the last one is the [try] statement reached. *)
Lemma os_create_backup_cases (p : Path) (fs : FS) :
  (∃ m, stat_refused p = Some m ∧
        OsUtils.create_backup p fs = (Raise (OSError m), fs, [EvExists p])) ∨
  (stat_refused p = None ∧ node_at fs p = None ∧
   OsUtils.create_backup p fs = (Ok None, fs, [EvExists p])) ∨
  (stat_refused p = None ∧ node_at fs p ≠ None ∧ ¬ wf_name p ∧
   ∃ msg t, quiet t ∧ OsUtils.create_backup p fs = (Raise (ValueError msg), fs, t)) ∨
  (stat_refused p = None ∧ node_at fs p ≠ None ∧
   ∃ n m t,
     0 ≤ n ∧
     (∀ i, 0 ≤ i < n →
           is_Some (fs !! nth_backup p i) ∧ stat_refused (nth_backup p i) = None) ∧
     stat_refused (nth_backup p n) = Some m ∧ quiet t ∧
     OsUtils.create_backup p fs = (Raise (OSError m), fs, t)) ∨
  (stat_refused p = None ∧ node_at fs p ≠ None ∧
   ∃ n tp,
     0 ≤ n ∧
     (∀ i, 0 ≤ i < n →
           is_Some (fs !! nth_backup p i) ∧ stat_refused (nth_backup p i) = None) ∧
     stat_refused (nth_backup p n) = None ∧ fs !! nth_backup p n = None ∧ quiet tp ∧
     OsUtils.create_backup p fs =
       let '(r, fs', t) := backup_copy p (nth_backup p n) fs in
       (r, fs', EvExists p :: tp ++ t)).
Proof.
  rewrite os_create_backup_run.
  destruct (stat_refused p) as [m|] eqn:Href; [left; by exists m|].
  right.
  destruct (node_at fs p) as [v|] eqn:Hp; [|by left].
  right.
  destruct (with_suffix p (suffix p +:+ ".bak")) as [e|q] eqn:Hws.
  - left. do 2 (split; [done|]). split.
    + intros Hwf. by rewrite with_suffix_append in Hws.
    + destruct (with_suffix_raises _ _ _ Hws) as [msg ->].
      exists msg, [EvExists p]. split; [by repeat constructor | done].
  - apply (with_suffix_inr p q ".bak") in Hws as ->.
    change (append_name p ".bak") with (nth_backup p 0).
    destruct (os_backup_probe_spec p fs (S (size fs)) 0 (dom fs))
      as (n & t & Hn & Hall & Hq & Hrun).
    + lia.
    + intros i _ Hsome. by apply elem_of_dom.
    + rewrite size_dom. lia.
    + change (0 + 1) with 1 in Hrun.
      destruct Hrun as [(Hans & Hnone & ->)|[(m & Hm & ->)|(Hwf & msg & ->)]].
      * right. right. do 2 (split; [done|]). exists n, t. by do 5 (split; [done|]).
      * right. left. do 2 (split; [done|]). exists n, m, (EvExists p :: t).
        do 3 (split; [done|]). split; [by constructor | done].
      * left. do 3 (split; [done|]). exists msg, (EvExists p :: t).
        split; [by constructor | done].
Qed.

End WithServices.

End OsUtilsSpec.

(** ** converter.py under an operating system that may refuse a file test *)

Module OsConverterSpec.

Import PyStr Pathlib Config Utils Converter Naming Observed Observed2 Faults Trace.
Import PathlibSpec TraceSpec UtilsSpec ConverterSpec InitSpec RaiseSpec OsUtilsSpec.

Local Arguments OsUtils.get_file_info : simpl never.
Local Arguments OsUtils.create_backup : simpl never.
Local Arguments OsConverter._log_file_info : simpl never.
Local Arguments OsConverter._create_backup_if_needed : simpl never.
Local Arguments OsConverter.convert_try : simpl never.
Local Arguments validate : simpl never.
Local Arguments OsConverter.convert : simpl never.
Local Arguments parent : simpl never.

Section WithServices.
Context {sv : Services} {os : Os}.

(** What the [try] statement of [convert] does, case by case. A refused test
    of the output is an [Exception] raised inside the [try] block: it is
    wrapped as every other failure. *)
Lemma os_convert_try_cases (self : PDFToDOCXConverter) (fs : FS) :
  converter self = None →
  let p := pdf_path self in
  let out := docx_path self in
  let start := start_page (config self) in
  let stop := end_page (config self) in
  OsConverter.convert_try (self, fs) =
    match session_open fs p with
    | Some e =>
        if is_Exception e then
          (Raise (ConversionFailed e), (self, fs),
           [EvSessionOpen p false;
            EvLog "pdf_to_docx" ERROR ("Conversion failed: " +:+ exn_str e)])
        else (Raise e, (self, fs), [EvSessionOpen p false])
    | None =>
        let '(r, fs2) := session_convert fs p out start stop in
        match r with
        | Some e =>
            if is_Exception e then
              (Raise (ConversionFailed e), (self, fs2),
               [EvSessionOpen p true; EvSessionConvert p out start stop;
                EvLog "pdf_to_docx" ERROR ("Conversion failed: " +:+ exn_str e);
                EvSessionClose p])
            else
              (Raise e, (self, fs2),
               [EvSessionOpen p true; EvSessionConvert p out start stop;
                EvSessionClose p])
        | None =>
            match stat_refused out with
            | Some m =>
                (Raise (ConversionFailed (OSError m)), (self, fs2),
                 [EvSessionOpen p true; EvSessionConvert p out start stop;
                  EvExists out;
                  EvLog "pdf_to_docx" ERROR ("Conversion failed: " +:+ m);
                  EvSessionClose p])
            | None =>
                match node_at fs2 out with
                | None =>
                    (Raise (ConversionFailed OutputNotProduced), (self, fs2),
                     [EvSessionOpen p true; EvSessionConvert p out start stop;
                      EvExists out;
                      EvLog "pdf_to_docx" ERROR ("Conversion failed: " +:+ msg_not_created);
                      EvSessionClose p])
                | Some nd =>
                    (Ok out, (self, fs2),
                     [EvSessionOpen p true; EvSessionConvert p out start stop;
                      EvExists out; EvStat out;
                      EvLog "pdf_to_docx" INFO "Conversion complete!";
                      EvLog "pdf_to_docx" INFO ("Output file: " +:+ Pathlib.str out);
                      EvLog "pdf_to_docx" INFO
                        ("Output size: " +:+ format_file_size
                           (match nd with File sz _ => sz | Dir => dir_size out end));
                      EvSessionClose p])
                end
            end
        end
    end.
Proof.
  intros Hc p out start stop. subst p out start stop.
  destruct self as [p out cfg lg cv cb]. cbn in Hc. subst cv.
  unfold OsConverter.convert_try, try_finally, try_except, OsConverter.convert_body,
    convert_handler, convert_finally, Converter_open, Converter_convert, Converter_close,
    get_self, update_self, lift_fs, OsUtils.path_exists, OsUtils.stat_size,
    OsUtils.stat_node, logger_info, logger_error, log, emit, get, raise, ret, bind.
  cbn.
  destruct (session_open fs p) as [e|] eqn:Hopen; cbn.
  - destruct (is_Exception e) eqn:He; cbn; [done|]. by destruct e.
  - destruct (session_convert fs p out (start_page cfg) (end_page cfg))
      as [[e|] fs2] eqn:Hconv; cbn.
    + destruct (is_Exception e) eqn:He; cbn; [done|]. by destruct e.
    + destruct (stat_refused out) as [m|] eqn:Href; cbn; [done|].
      by destruct (node_at fs2 out) as [[sz c|]|] eqn:Hout; run_with Hout.
Qed.

(** The [try] statement opens the session first and, when that succeeds,
    calls the conversion with the pages of the configuration; [self] is as
    before and the outcome is not [OutOfFuel]. *)
Lemma os_convert_try_head (self : PDFToDOCXConverter) (fs : FS) :
  converter self = None →
  ∀ r s t, OsConverter.convert_try (self, fs) = (r, s, t) →
  s.1 = self ∧ r ≠ OutOfFuel ∧
  match session_open fs (pdf_path self) with
  | None =>
      ∃ t', t = EvSessionOpen (pdf_path self) true
                :: EvSessionConvert (pdf_path self) (docx_path self)
                     (start_page (config self)) (end_page (config self)) :: t'
  | Some _ => ∃ t', t = EvSessionOpen (pdf_path self) false :: t'
  end.
Proof.
  intros Hc r s t. rewrite (os_convert_try_cases self fs Hc).
  destruct (session_open fs (pdf_path self)) as [e|].
  { destruct (is_Exception e); intros [= <- <- <-]; do 2 (split; [done|]);
      by eexists. }
  destruct (session_convert _ _ _ _ _) as [[e|] fs2].
  { destruct (is_Exception e); intros [= <- <- <-]; do 2 (split; [done|]);
      by eexists. }
  destruct (stat_refused (docx_path self)) as [m|];
    [|destruct (node_at fs2 (docx_path self)) as [nd|]];
    intros [= <- <- <-]; do 2 (split; [done|]); by eexists.
Qed.

(** [_log_file_info] tests the input path outside of any [try]. *)
Lemma os_log_file_info_run (self : PDFToDOCXConverter) (fs : FS) :
  match stat_refused (pdf_path self) with
  | Some m =>
      OsConverter._log_file_info (self, fs)
      = (Raise (OSError m), (self, fs), [EvExists (pdf_path self)])
  | None =>
      ∃ t, OsConverter._log_file_info (self, fs) = (Ok tt, (self, fs), t) ∧ quiet t
  end.
Proof.
  pose proof (os_get_file_info_run (pdf_path self) fs) as Hinfo.
  destruct (stat_refused (pdf_path self)) as [m|];
    unfold OsConverter._log_file_info, get_self, lift_fs, logger_info, logger_warning,
      log, emit, ret, bind; cbn.
  - by rewrite Hinfo.
  - destruct Hinfo as (info & t & -> & Hq & _).
    destruct (info_encrypted info); cbn; eexists; (split; [reflexivity|]);
      auto 10 with quiet.
Qed.

(** [create_backup] ends, touches neither pdf2docx nor a callback, keeps every
    file there is, and raises nothing but an [Exception]. *)
Lemma os_create_backup_keeps (p : Path) (fs : FS) :
  ∀ r fs' t, OsUtils.create_backup p fs = (r, fs', t) →
  r ≠ OutOfFuel ∧ quiet t ∧ (∀ q v, fs !! q = Some v → fs' !! q = Some v) ∧
  (∀ e, r = Raise e → fs' = fs ∧ ∃ m, e = OSError m ∨ e = ValueError m).
Proof.
  intros r fs' t Hrun.
  destruct (os_create_backup_cases p fs)
    as [(m & _ & E)|[(_ & _ & E)|[(_ & _ & _ & msg & t0 & Hq & E)
       |[(_ & _ & n & m & t0 & _ & _ & _ & Hq & E)
        |(_ & _ & n & tp & _ & _ & _ & Habs & Hq & E)]]]];
    rewrite E in Hrun.
  - injection Hrun as <- <- <-. split; [done|]. split; [by repeat constructor|].
    split; [done|]. intros e [= <-]. eauto.
  - injection Hrun as <- <- <-. split; [done|]. split; [by repeat constructor|]. done.
  - injection Hrun as <- <- <-. do 3 (split; [done|]). intros e [= <-]. eauto.
  - injection Hrun as <- <- <-. do 3 (split; [done|]). intros e [= <-]. eauto.
  - pose proof (backup_copy_cases p (nth_backup p n) fs Habs (append_name_ne_nil _ _)) as Hc.
    destruct (node_at fs p) as [[sz c|]|];
      [destruct (copy_error fs p (nth_backup p n))| destruct Hc as [msg Hc] ..];
      rewrite Hc in Hrun; injection Hrun as <- <- <-;
      (split; [done|]); (split; [auto 10 with quiet|]);
      try done.
    split; [|done].
    intros q v Hqv. rewrite lookup_insert_ne; [done|]. congruence.
Qed.

Lemma os_create_backup_if_needed_run (self : PDFToDOCXConverter) (fs : FS) :
  ∃ r fs' t,
    OsConverter._create_backup_if_needed (self, fs) = (r, (self, fs'), t) ∧
    r ≠ OutOfFuel ∧ quiet t ∧
    (∀ q v, fs !! q = Some v → fs' !! q = Some v) ∧
    (∀ e, r = Raise e → fs' = fs ∧ ∃ m, e = OSError m ∨ e = ValueError m).
Proof.
  unfold OsConverter._create_backup_if_needed. unfold bind at 1, get_self. cbn.
  unfold bind at 1, lift_fs. rewrite os_path_exists_run.
  destruct (stat_refused (docx_path self)) as [m|] eqn:Href.
  { eexists _, _, _. split; [reflexivity|]. split; [done|].
    split; [by repeat constructor|]. split; [done|]. intros e [= <-]. eauto. }
  rewrite path_exists_run.
  destruct (node_at fs (docx_path self)) as [nd|] eqn:Hout; cbn;
    [|eexists _, _, _; split; [reflexivity|]; fin].
  destruct (Config.create_backup (config self)); cbn;
    [|eexists _, _, _; split; [reflexivity|]; fin].
  unfold bind, logger_info, logger_warning, log, emit.
  destruct (OsUtils.create_backup (docx_path self) fs) as [[r fs'] t] eqn:Hrun.
  destruct (os_create_backup_keeps _ _ _ _ _ Hrun) as (Hr & Hq & Hkeep & Hraise).
  destruct r as [[b|]|e|]; [| | |done]; cbn;
    eexists _, _, _; (split; [reflexivity|]); fin.
  all: injection H as <-; by destruct (Hraise e eq_refl).
Qed.

Lemma os_convert_prepare_run (self : PDFToDOCXConverter) (fs : FS) :
  ∃ r fs' t,
    OsConverter.convert_prepare (self, fs) = (r, (self, fs'), t) ∧
    r ≠ OutOfFuel ∧ quiet t ∧
    (∀ q v, fs !! q = Some v → fs' !! q = Some v) ∧
    (∀ e, r = Raise e → fs' = fs ∧ ∃ m, e = OSError m ∨ e = ValueError m).
Proof.
  pose proof (os_log_file_info_run self fs) as Hrun1.
  unfold OsConverter.convert_prepare, bind.
  destruct (stat_refused (pdf_path self)) as [m|].
  { rewrite Hrun1. eexists _, _, _. split; [reflexivity|]. split; [done|].
    split; [by repeat constructor|]. split; [done|]. intros e [= <-]. eauto. }
  destruct Hrun1 as (t1 & -> & Hq1).
  destruct (os_create_backup_if_needed_run self fs)
    as (r & fs' & t2 & -> & Hr & Hq2 & Hk & Hraise).
  exists r, fs', (t1 ++ t2).
  split; [by destruct r|]. split; [by destruct r|]. split; [by apply quiet_app|].
  split; [done|]. intros e ->. by apply Hraise.
Qed.

(** [convert] with a valid configuration: the preparation, the two log
    lines, the [try] statement. *)
Lemma os_convert_valid (self : PDFToDOCXConverter) (fs : FS) :
  validate (config self) = [] →
  OsConverter.convert (self, fs) =
    let '(r1, s1, t1) := OsConverter.convert_prepare (self, fs) in
    match r1 with
    | Ok _ =>
        let '(r, s2, t2) := OsConverter.convert_try s1 in
        (r, s2, t1 ++ convert_announce self ++ t2)
    | Raise e => (Raise e, s1, t1)
    | OutOfFuel => (OutOfFuel, s1, t1)
    end.
Proof.
  intros Hv. unfold OsConverter.convert. unfold bind at 1. cbn. rewrite Hv.
  unfold OsConverter.convert_prepare, bind, logger_info, log, emit.
  destruct (OsConverter._log_file_info (self, fs)) as [[[[]|e|] s1] t1]; [|done..].
  destruct (OsConverter._create_backup_if_needed s1) as [[[[]|e|] s2] t2]; [|done..].
  destruct (OsConverter.convert_try s2) as [[r s3] t3]. cbn.
  by rewrite <- !app_assoc.
Qed.

Lemma os_convert_invalid (self : PDFToDOCXConverter) (fs : FS) :
  validate (config self) ≠ [] →
  OsConverter.convert (self, fs) =
    (Raise (ValueError ("Invalid configuration: "
                        +:+ PyStr.join ", " (validate (config self)))),
     (self, fs), []).
Proof.
  intros Hv. unfold OsConverter.convert. unfold bind at 1. cbn.
  by destruct (validate (config self)).
Qed.

(** [convert] ends and leaves [self] as it was. *)
Lemma os_convert_state (self : PDFToDOCXConverter) (fs : FS) :
  converter self = None →
  ∀ r s t, OsConverter.convert (self, fs) = (r, s, t) → s.1 = self ∧ r ≠ OutOfFuel.
Proof.
  intros Hc r s t Hrun.
  destruct (decide (validate (config self) = [])) as [Hv|Hv].
  - rewrite (os_convert_valid self fs Hv) in Hrun.
    destruct (os_convert_prepare_run self fs) as (r1 & fs1 & t1 & Hrun1 & Hr1 & _).
    rewrite Hrun1 in Hrun.
    destruct r1 as [[]|e|]; [|by injection Hrun as <- <- <-|done].
    destruct (OsConverter.convert_try (self, fs1)) as [[r2 s2] t2] eqn:Htry.
    destruct (os_convert_try_head self fs1 Hc _ _ _ Htry) as (? & ? & _).
    by injection Hrun as <- <- <-.
  - rewrite (os_convert_invalid self fs Hv) in Hrun. by injection Hrun as <- <- <-.
Qed.

(** A normal return of [convert]: the configuration was valid, no test was
    refused, the conversion was called and the output file exists. *)
Lemma os_convert_ok (self : PDFToDOCXConverter) (fs : FS) :
  converter self = None →
  ∀ out s t, OsConverter.convert (self, fs) = (Ok out, s, t) →
  out = docx_path self ∧ node_at s.2 out ≠ None ∧ stat_refused out = None ∧
  validate (config self) = [] ∧
  EvSessionConvert (pdf_path self) out (start_page (config self)) (end_page (config self))
    ∈ t.
Proof.
  intros Hc out s t Hrun.
  destruct (decide (validate (config self) = [])) as [Hv|Hv];
    [|by rewrite (os_convert_invalid self fs Hv) in Hrun].
  rewrite (os_convert_valid self fs Hv) in Hrun.
  destruct (os_convert_prepare_run self fs) as (r1 & fs1 & t1 & Hrun1 & _).
  rewrite Hrun1 in Hrun. destruct r1 as [[]|e|]; [|done..].
  rewrite (os_convert_try_cases self fs1 Hc) in Hrun.
  destruct (session_open fs1 (pdf_path self)) as [e|];
    [by destruct (is_Exception e)|].
  destruct (session_convert _ _ _ _ _) as [[e|] fs2];
    [by destruct (is_Exception e)|].
  destruct (stat_refused (docx_path self)) as [m|] eqn:Href; [done|].
  destruct (node_at fs2 (docx_path self)) as [nd|] eqn:Hout; [|done].
  injection Hrun as <- <- <-. cbn. rewrite Hout. do 4 (split; [done|]).
  apply elem_of_app. right. cbn.
  repeat first [apply list_elem_of_here | apply list_elem_of_further].
Qed.

(** What [convert] raises: the [ValueError] of the configuration or of a
    name no suffix can be added to, the [OSError] of a refused test, or what
    the [try] statement raises. *)
Lemma os_convert_raise (self : PDFToDOCXConverter) (fs : FS) :
  converter self = None →
  ∀ e s t, OsConverter.convert (self, fs) = (Raise e, s, t) →
  (∃ m, e = ValueError m ∨ e = OSError m) ∧ s = (self, fs) ∧ quiet t
  ∨ ∃ fs1 t1 t2,
      OsConverter.convert_prepare (self, fs) = (Ok tt, (self, fs1), t1) ∧
      OsConverter.convert_try (self, fs1) = (Raise e, s, t2) ∧
      t = t1 ++ convert_announce self ++ t2.
Proof.
  intros Hc e s t Hrun.
  destruct (decide (validate (config self) = [])) as [Hv|Hv].
  2: { rewrite (os_convert_invalid self fs Hv) in Hrun. injection Hrun as <- <- <-.
       left. split; [eauto|]. split; [done|]. apply quiet_nil. }
  rewrite (os_convert_valid self fs Hv) in Hrun.
  destruct (os_convert_prepare_run self fs) as (r1 & fs1 & t1 & Hrun1 & _ & Hq & _ & Hraise).
  rewrite Hrun1 in Hrun. destruct r1 as [[]|e1|]; [| |done].
  - right. destruct (OsConverter.convert_try (self, fs1)) as [[r2 s2] t2] eqn:Htry.
    injection Hrun as -> <- <-. by exists fs1, t1, t2.
  - injection Hrun as <- <- <-. left.
    destruct (Hraise e1 eq_refl) as [-> [m [->| ->]]]; (split; [eauto|]); done.
Qed.

(** [_create_backup_if_needed] on an output that is there, with the backup
    asked for: the test of the output, then [create_backup] and the record of
    its result. *)
Lemma os_create_backup_if_needed_on (self : PDFToDOCXConverter) (fs : FS) (nd : node) :
  stat_refused (docx_path self) = None →
  node_at fs (docx_path self) = Some nd →
  Config.create_backup (config self) = true →
  OsConverter._create_backup_if_needed (self, fs) =
    let '(r, fs', t) := OsUtils.create_backup (docx_path self) fs in
    match r with
    | Ok (Some b) =>
        (Ok tt, (self, fs'),
         EvExists (docx_path self) :: t
           ++ [EvLog "pdf_to_docx" INFO ("Created backup: " +:+ Pathlib.str b)])
    | Ok None =>
        (Ok tt, (self, fs'),
         EvExists (docx_path self) :: t
           ++ [EvLog "pdf_to_docx" WARNING "Failed to create backup"])
    | Raise e => (Raise e, (self, fs'), EvExists (docx_path self) :: t)
    | OutOfFuel => (OutOfFuel, (self, fs'), EvExists (docx_path self) :: t)
    end.
Proof.
  intros Href Hout Hflag.
  unfold OsConverter._create_backup_if_needed. unfold bind at 1, get_self. cbn.
  unfold bind at 1, lift_fs. rewrite os_path_exists_run, Href, path_exists_run, Hout, Hflag.
  cbn. unfold bind, logger_info, logger_warning, log, emit.
  by destruct (OsUtils.create_backup (docx_path self) fs) as [[[[b|]|e|] fs'] t].
Qed.

(** [_create_backup_if_needed] without an earlier output, or without a
    backup asked for: the test of the output and nothing else. *)
Lemma os_create_backup_if_needed_skip (self : PDFToDOCXConverter) (fs : FS) :
  stat_refused (docx_path self) = None →
  node_at fs (docx_path self) = None ∨ Config.create_backup (config self) = false →
  OsConverter._create_backup_if_needed (self, fs)
  = (Ok tt, (self, fs), [EvExists (docx_path self)]).
Proof.
  intros Href Hskip.
  unfold OsConverter._create_backup_if_needed. unfold bind at 1, get_self. cbn.
  unfold bind at 1, lift_fs. rewrite os_path_exists_run, Href, path_exists_run.
  destruct Hskip as [-> | ->]; [done|].
  by destruct (node_at fs (docx_path self)).
Qed.

(** The preparation returns when the tests it makes are answered: those of
    the two paths and, when a backup is asked for, those of the backup
    names. *)
Lemma os_convert_prepare_ok (self : PDFToDOCXConverter) (fs : FS) :
  stat_refused (pdf_path self) = None →
  stat_refused (docx_path self) = None →
  (Config.create_backup (config self) = true →
   wf_name (docx_path self) ∧
   ∀ i, stat_refused (nth_backup (docx_path self) i) = None) →
  ∃ fs' t, OsConverter.convert_prepare (self, fs) = (Ok tt, (self, fs'), t) ∧ quiet t.
Proof.
  intros Hpdf Hout Hbak.
  pose proof (os_log_file_info_run self fs) as Hinfo. rewrite Hpdf in Hinfo.
  destruct Hinfo as (ti & Hinfo & Hqi).
  unfold OsConverter.convert_prepare, bind. rewrite Hinfo.
  destruct (node_at fs (docx_path self)) as [nd|] eqn:Hnode.
  2: { rewrite (os_create_backup_if_needed_skip self fs Hout) by (by left).
       eexists _, _. split; [reflexivity|]. auto 10 with quiet. }
  destruct (Config.create_backup (config self)) eqn:Hflag.
  2: { rewrite (os_create_backup_if_needed_skip self fs Hout) by (by right).
       eexists _, _. split; [reflexivity|]. auto 10 with quiet. }
  destruct (Hbak eq_refl) as [Hwf Hans].
  rewrite (os_create_backup_if_needed_on self fs nd Hout Hnode Hflag).
  destruct (os_create_backup_cases (docx_path self) fs)
    as [(m & Hm & _)|[(_ & Hnone & _)|[(_ & _ & Hnwf & _)
       |[(_ & _ & n & m & t0 & _ & _ & Hm & _)
        |(_ & _ & n & tp & _ & _ & _ & Habs & Hq & E)]]]];
    [congruence | congruence | done | by rewrite Hans in Hm |].
  rewrite E.
  pose proof (backup_copy_cases (docx_path self) (nth_backup (docx_path self) n) fs
                Habs (append_name_ne_nil _ _)) as Hcp.
  rewrite Hnode in Hcp.
  destruct nd as [sz c|];
    [destruct (copy_error fs (docx_path self) _)| destruct Hcp as [msg Hcp]];
    rewrite Hcp; eexists _, _; (split; [reflexivity|]); auto 20 with quiet.
Qed.

(** With a valid configuration and answered tests [convert] gets as far as
    opening the session, whatever the state of the two paths by then. *)
Lemma os_convert_reaches_open (self : PDFToDOCXConverter) (fs : FS) :
  converter self = None → validate (config self) = [] →
  stat_refused (pdf_path self) = None →
  stat_refused (docx_path self) = None →
  (Config.create_backup (config self) = true →
   wf_name (docx_path self) ∧
   ∀ i, stat_refused (nth_backup (docx_path self) i) = None) →
  ∀ r s t, OsConverter.convert (self, fs) = (r, s, t) →
  ∃ ok, EvSessionOpen (pdf_path self) ok ∈ t.
Proof.
  intros Hc Hv Hpdf Hout Hbak r s t. rewrite (os_convert_valid self fs Hv).
  destruct (os_convert_prepare_ok self fs Hpdf Hout Hbak) as (fs1 & t1 & -> & _).
  destruct (OsConverter.convert_try (self, fs1)) as [[r2 s2] t2] eqn:Htry.
  destruct (os_convert_try_head self fs1 Hc _ _ _ Htry) as (_ & _ & Hhead).
  intros [= <- <- <-].
  destruct (session_open fs1 (pdf_path self)); destruct Hhead as [t' ->];
    eexists; apply elem_of_app; right; cbn;
    repeat first [apply list_elem_of_here | apply list_elem_of_further].
Qed.


End WithServices.

Import Samples OsSamples.



End OsConverterSpec.

(** ** The constructor under an operating system that may refuse a file test *)

Module OsInitSpec.

Import PyStr Pathlib Config Utils Converter Naming Observed Observed2 Faults Trace.
Import PathlibSpec TraceSpec UtilsSpec ConverterSpec InitSpec RaiseSpec InitExtra.
Import OsUtilsSpec OsConverterSpec.

Local Arguments validate_pdf : simpl never.
Local Arguments validate_output_path : simpl never.
Local Arguments OsUtils.validate_pdf : simpl never.
Local Arguments OsUtils.validate_output_path : simpl never.
Local Arguments setup_logging : simpl never.
Local Arguments __init__ : simpl never.
Local Arguments parent : simpl never.
Local Arguments validate : simpl never.
Local Arguments OsConverter.convert : simpl never.

Section WithServices.
Context {sv : Services} {os : Os}.

(** [__init__] makes its file tests in this order: the input, the output,
    the parent of the output. At the first one that is refused the [OSError]
    leaves the constructor; when none is, it is [Converter.__init__]. *)
Lemma os_init_run (pdf : Path) (docx : option Path)
    (cfg : option ConversionConfig) (fs : FS) :
  let ow := overwrite (default DEFAULT_CONFIG cfg) in
  OsConverter.__init__ pdf docx cfg fs =
    match stat_refused pdf with
    | Some m => (Raise (OSError m), fs, [EvExists pdf])
    | None =>
        match validate_pdf pdf fs, output_path pdf docx with
        | (Ok (true, _), fs1, t1), inr out =>
            if negb (bool_decide (lower (suffix out) = ".docx"))
            then __init__ pdf docx cfg fs
            else
              match stat_refused out with
              | Some m => (Raise (OSError m), fs1, t1 ++ [EvExists out])
              | None =>
                  if match node_at fs1 out with Some _ => true | None => false end
                     && negb ow
                  then __init__ pdf docx cfg fs
                  else
                    match stat_refused (parent out) with
                    | Some m =>
                        (Raise (OSError m), fs1,
                         t1 ++ [EvExists out; EvExists (parent out)])
                    | None => __init__ pdf docx cfg fs
                    end
              end
        | _, _ => __init__ pdf docx cfg fs
        end
    end.
Proof.
  intros ow.
  assert (∀ fs1 : FS, match docx with
                 | Some p => ret p
                 | None => of_sum (with_suffix pdf ".docx")
                 end fs1 =
                 match output_path pdf docx with
                 | inr out => (Ok out, fs1, [])
                 | inl e => (Raise e, fs1, [])
                 end) as Hpath.
  { intros fs1. unfold output_path. destruct docx; [done|].
    by destruct (with_suffix pdf ".docx"). }
  remember (__init__ pdf docx cfg fs) as old eqn:Hold.
  unfold __init__ in Hold. fold ow in Hold. unfold bind at 1 in Hold.
  unfold OsConverter.__init__. fold ow.
  unfold bind at 1. rewrite os_validate_pdf_run.
  destruct (stat_refused pdf) as [m|]; [done|].
  destruct (validate_pdf pdf fs) as [[[[[] msg]|e|] fs1] t1]; try (by subst old).
  cbn [negb] in *. unfold bind at 1. unfold bind at 1 in Hold.
  rewrite Hpath in *.
  destruct (output_path pdf docx) as [e|out]; [by subst old|].
  unfold bind at 1. unfold bind at 1 in Hold. rewrite os_validate_output_path_run.
  destruct (negb (bool_decide (lower (suffix out) = ".docx"))); [by subst old|].
  destruct (stat_refused out) as [m|]; [done|].
  destruct (match node_at fs1 out with Some _ => true | None => false end && negb ow);
    [by subst old|].
  destruct (stat_refused (parent out)) as [m|]; [done|]. by subst old.
Qed.

(** The constructor ends, calls neither pdf2docx nor a callback, raises
    [ValueError] or [OSError] and nothing else, and returns a converter only
    after the tests of the input and of the output were answered. *)
Lemma os_init_summary (pdf : Path) (docx : option Path)
    (cfg : option ConversionConfig) (fs : FS) :
  ∀ r fs' t, OsConverter.__init__ pdf docx cfg fs = (r, fs', t) →
  r ≠ OutOfFuel ∧ quiet t ∧
  (∀ e, r = Raise e → ∃ m, e = ValueError m ∨ e = OSError m) ∧
  (∀ self, r = Ok self →
           pdf_path self = pdf ∧ config self = default DEFAULT_CONFIG cfg ∧
           output_path pdf docx = inr (docx_path self) ∧
           converter self = None ∧ progress_callback self = None ∧
           stat_refused pdf = None ∧ stat_refused (docx_path self) = None).
Proof.
  intros r fs' t Hrun. rewrite os_init_run in Hrun.
  assert (∀ (P : Prop), P →
            __init__ pdf docx cfg fs = (r, fs', t) →
            r ≠ OutOfFuel ∧ quiet t ∧
            (∀ e, r = Raise e → ∃ m, e = ValueError m ∨ e = OSError m) ∧
            (∀ self, r = Ok self →
                     pdf_path self = pdf ∧ config self = default DEFAULT_CONFIG cfg ∧
                     output_path pdf docx = inr (docx_path self) ∧
                     converter self = None ∧ progress_callback self = None ∧ P)) as Hold.
  { intros P HP Hinit.
    destruct (init_cases pdf docx cfg fs r fs' t Hinit) as (_ & _ & H3 & Hr & Hq).
    do 2 (split; [done|]). split.
    - intros e ->. by apply (init_raises pdf docx cfg fs fs' t e).
    - intros self Hself.
      by destruct (H3 self Hself) as (_ & ? & _ & ? & ? & ? & ?). }
  destruct (stat_refused pdf) as [m|] eqn:Hpdf.
  { injection Hrun as <- <- <-. split; [done|]. split; [by repeat constructor|].
    split; [intros e [= <-]; eauto | done]. }
  destruct (validate_pdf_cases pdf fs) as (b & msg & t1 & Hv1 & Hq1 & Hb1 & _).
  rewrite Hv1 in Hrun.
  destruct b.
  2: { destruct (Hold True I Hrun) as (? & ? & ? & _). do 3 (split; [done|]).
       intros self ->.
       destruct (init_cases pdf docx cfg fs _ fs' t Hrun) as (Hrej1 & _).
       by destruct (Hrej1 (proj1 Hb1 eq_refl)) as (? & ? & _). }
  destruct (output_path pdf docx) as [e|out] eqn:Hop.
  { destruct (Hold True I Hrun) as (? & ? & ? & Hself4). do 3 (split; [done|]).
    intros self Hself. by destruct (Hself4 self Hself) as (_ & _ & ? & _). }
  destruct (negb (bool_decide (lower (suffix out) = ".docx"))) eqn:Hs.
  { destruct (Hold True I Hrun) as (? & ? & ? & Hself4). do 3 (split; [done|]).
    intros self Hself.
    destruct (init_cases pdf docx cfg fs r fs' t Hrun) as (_ & _ & Hacc & _).
    destruct (Hacc self Hself) as (_ & Hp & Hn & _).
    rewrite Hop in Hp. injection Hp as ->. destruct Hn. left.
    apply negb_true_iff, bool_decide_eq_false in Hs. done. }
  destruct (stat_refused out) as [m|] eqn:Hout.
  { injection Hrun as <- <- <-. split; [done|].
    split; [apply quiet_app; [done | by repeat constructor]|].
    split; [intros e [= <-]; eauto | done]. }
  destruct (match node_at fs out with Some _ => true | None => false end
            && negb (overwrite (default DEFAULT_CONFIG cfg))).
  { destruct (Hold (stat_refused out = None) Hout Hrun) as (? & ? & ? & Hself4).
    do 3 (split; [done|]). intros self Hself.
    destruct (Hself4 self Hself) as (? & ? & Hp & ? & ? & ?).
    injection Hp as ->. done. }
  destruct (stat_refused (parent out)) as [m|] eqn:Hpar.
  { injection Hrun as <- <- <-. split; [done|].
    split; [apply quiet_app; [done | by repeat constructor]|].
    split; [intros e [= <-]; eauto | done]. }
  destruct (Hold (stat_refused out = None) Hout Hrun) as (? & ? & ? & Hself4).
  do 3 (split; [done|]). intros self Hself.
  destruct (Hself4 self Hself) as (? & ? & Hp & ? & ? & ?).
    injection Hp as ->. done.
Qed.

(** A converter that [__init__] returned passes no test again: with a valid
    configuration [convert] goes on to open the session in whatever state the
    file system is by then. *)
Lemma os_init_then_convert (pdf : Path) (self : PDFToDOCXConverter) :
  pdf_path self = pdf → converter self = None →
  stat_refused pdf = None → stat_refused (docx_path self) = None →
  ∀ fs2 r2 s2 t2,
    validate (config self) = [] →
    (Config.create_backup (config self) = true →
     wf_name (docx_path self) ∧
     ∀ i, stat_refused (nth_backup (docx_path self) i) = None) →
    OsConverter.convert (self, fs2) = (r2, s2, t2) →
    ∃ ok, EvSessionOpen pdf ok ∈ t2.
Proof.
  intros <- Hc Hpdf Hout fs2 r2 s2 t2 Hv Hbak Hrun.
  by apply (os_convert_reaches_open self fs2 Hc Hv Hpdf Hout Hbak r2 s2 t2).
Qed.

(** C10. [__init__] validates both paths before an object exists. Its file
    tests are those of the input, of the output and of the parent of the
    output, in this order, and none is inside a [try] statement: the first one
    the operating system refuses leaves the constructor as the [OSError] it
    is. When the tests are answered, an input path that is missing, not a
    regular file, without the [.pdf] extension, not opened by PyMuPDF or
    without pages makes it raise [ValueError]; so does, for a valid input, an
    output path with the wrong extension, existing without leave to overwrite,
    or whose parent cannot serve as a directory. A converter is returned only
    when every test was answered and both paths passed, for the file system
    as it was then, and it holds no session. [convert] itself validates
    neither path: with a valid configuration it goes on to open the session
    in whatever state the file system is by then. *)
Theorem init_validates_eagerly (pdf : Path) (docx : option Path)
    (cfg : option ConversionConfig) (fs : FS) :
  let cfg0 := default DEFAULT_CONFIG cfg in
  ∀ r fs' t, OsConverter.__init__ pdf docx cfg fs = (r, fs', t) →
  (∀ m, stat_refused pdf = Some m → r = Raise (OSError m) ∧ fs' = fs) ∧
  (stat_refused pdf = None → pdf_rejected fs pdf →
   ∃ msg, r = Raise (ValueError ("Invalid PDF file: " +:+ msg)) ∧ fs' = fs) ∧
  (∀ out, stat_refused pdf = None → ¬ pdf_rejected fs pdf →
          output_path pdf docx = inr out →
     (lower (suffix out) ≠ ".docx" →
      ∃ msg, r = Raise (ValueError ("Invalid output path: " +:+ msg)) ∧ fs' = fs) ∧
     (∀ m, lower (suffix out) = ".docx" → stat_refused out = Some m →
           r = Raise (OSError m) ∧ fs' = fs) ∧
     (stat_refused out = None → node_at fs out ≠ None → overwrite cfg0 = false →
      ∃ msg, r = Raise (ValueError ("Invalid output path: " +:+ msg)) ∧ fs' = fs) ∧
     (∀ m, lower (suffix out) = ".docx" → stat_refused out = None →
           ¬ (node_at fs out ≠ None ∧ overwrite cfg0 = false) →
           stat_refused (parent out) = Some m →
           r = Raise (OSError m) ∧ fs' = fs) ∧
     (stat_refused out = None → stat_refused (parent out) = None →
      output_rejected fs out (overwrite cfg0) →
      ∃ msg, r = Raise (ValueError ("Invalid output path: " +:+ msg)) ∧ fs' = fs)) ∧
  (∀ self, r = Ok self →
           stat_refused pdf = None ∧ ¬ pdf_rejected fs pdf ∧
           output_path pdf docx = inr (docx_path self) ∧
           stat_refused (docx_path self) = None ∧
           stat_refused (parent (docx_path self)) = None ∧
           ¬ output_rejected fs (docx_path self) (overwrite cfg0) ∧
           pdf_path self = pdf ∧ converter self = None ∧
           ∀ fs2 r2 s2 t2,
             validate (config self) = [] →
             (Config.create_backup (config self) = true →
              wf_name (docx_path self) ∧
              ∀ i, stat_refused (nth_backup (docx_path self) i) = None) →
             OsConverter.convert (self, fs2) = (r2, s2, t2) →
             ∃ ok, EvSessionOpen pdf ok ∈ t2).
Proof.
  intros cfg0 r fs' t Hrun. rewrite os_init_run in Hrun. fold cfg0 in Hrun.
  destruct (stat_refused pdf) as [m|] eqn:Hpdf.
  { injection Hrun as <- <- <-. split; [by intros ? [= <-]|]. by repeat split. }
  split; [done|].
  destruct (validate_pdf_cases pdf fs) as (b & msg & t1 & Hv1 & _ & Hb1 & _).
  rewrite Hv1 in Hrun.
  assert (__init__ pdf docx cfg fs = (r, fs', t) →
            (pdf_rejected fs pdf →
             ∃ msg, r = Raise (ValueError ("Invalid PDF file: " +:+ msg)) ∧ fs' = fs) ∧
            (∀ out, ¬ pdf_rejected fs pdf → output_path pdf docx = inr out →
                    output_rejected fs out (overwrite cfg0) →
                    ∃ msg, r = Raise (ValueError ("Invalid output path: " +:+ msg))
                           ∧ fs' = fs) ∧
            (∀ self, r = Ok self →
                     ¬ pdf_rejected fs pdf ∧
                     output_path pdf docx = inr (docx_path self) ∧
                     ¬ output_rejected fs (docx_path self) (overwrite cfg0) ∧
                     pdf_path self = pdf ∧ converter self = None)) as Hold.
  { intros Hinit.
    destruct (init_cases pdf docx cfg fs r fs' t Hinit) as (H1 & H2 & H3 & _).
    do 2 (split; [done|]). intros self Hself.
    by destruct (H3 self Hself) as (? & ? & ? & ? & _ & ? & _). }
  destruct b.
  2: { destruct (Hold Hrun) as (H1 & _ & H3).
       assert (pdf_rejected fs pdf) as Hrej by (by apply Hb1).
       split; [done|]. split; [by intros out _ Hn|].
       intros self Hself. by destruct (H3 self Hself) as [Hn _]. }
  assert (¬ pdf_rejected fs pdf) as Hok by (intros ?%Hb1; done).
  split; [done|].
  destruct (output_path pdf docx) as [e|out] eqn:Hop.
  { destruct (Hold Hrun) as (_ & _ & H3).
    split; [done|]. intros self Hself. by destruct (H3 self Hself) as (_ & ? & _). }
  destruct (decide (lower (suffix out) = ".docx")) as [Hs|Hs];
    [rewrite (bool_decide_eq_true_2 _ Hs) in Hrun
    |rewrite (bool_decide_eq_false_2 _ Hs) in Hrun]; cbn [negb] in Hrun.
  2: { destruct (Hold Hrun) as (_ & H2 & H3).
       assert (output_rejected fs out (overwrite cfg0)) as Hrej by (by left).
       split.
       - intros out' _ _ [= <-]. split; [by eauto|]. split; [done|].
         split; [by eauto|]. split; [done|]. by eauto.
       - intros self Hself. destruct (H3 self Hself) as (_ & [= <-] & Hn & _). done. }
  destruct (stat_refused out) as [m|] eqn:Hout.
  { injection Hrun as <- <- <-. split; [|done].
    intros out' _ _ [= <-]. rewrite Hout. split; [done|].
    split; [by intros ? _ [= <-]|]. by repeat split. }
  destruct (node_at fs out) as [nd|] eqn:Hnode; cbn in Hrun;
    [destruct (overwrite cfg0) eqn:How; cbn in Hrun|].
  2: { destruct (Hold Hrun) as (_ & H2 & H3).
       assert (output_rejected fs out false) as Hrej by (right; left; by rewrite Hnode).
       split.
       - intros out' _ _ [= <-]. rewrite Hout. split; [done|]. split; [done|].
         split; [by eauto|]. split; [|by eauto].
         intros m _ _ Hn. destruct Hn. by rewrite Hnode.
       - intros self Hself. destruct (H3 self Hself) as (_ & [= <-] & Hn & _). done. }
  all: destruct (stat_refused (parent out)) as [m|] eqn:Hpar.
  1, 3: injection Hrun as <- <- <-; (split; [|done]);
    intros out' _ _ [= <-]; rewrite Hout, Hpar, ?Hnode; (split; [done|]);
    (split; [done|]); (split; [by intros _ ? ?|]);
    (split; [by intros ? _ _ _ [= <-]|]); done.
  all: destruct (Hold Hrun) as (_ & H2 & H3); split.
  1, 3: intros out' _ _ [= <-]; rewrite Hout, Hpar, ?Hnode; (split; [done|]);
    (split; [done|]); (split; [by intros _ ? ?|]); (split; [done|]); by eauto.
  all: intros self Hself; destruct (H3 self Hself) as (_ & Hp & Hn & Hpd & Hc);
    injection Hp as ->;
    do 8 (split; [done|]); by apply os_init_then_convert.
Qed.

End WithServices.

Import Samples OsSamples.

(** C10, at a concrete input: the input path does not exist and its name has
    256 characters, where a name may have no more than 255. The test of the
    path is refused, and the constructor raises the [OSError] of the test, not
    a [ValueError]. *)
Lemma refused_input_test_is_no_ValueError :
  let run :=
    OsConverter.__init__ (sv := sv_ok) (os := os_name_max) long_pdf None None fs_doc in
  pdf_rejected fs_doc long_pdf ∧
  run.1.1 = Raise (OSError ("[Errno 36] File name too long: " +:+ PyStr.repr (str long_pdf))) ∧
  ∀ msg, run.1.1 ≠ Raise (ValueError msg).
Proof.
  split; [left; vm_compute; reflexivity|].
  split; [vm_compute; reflexivity|].
  intros msg. vm_compute. discriminate.
Qed.

Lemma init_validates_eagerly_witness :
  let '(r, fs', _) :=
    OsConverter.__init__ (sv := sv_ok) (os := os_name_max) ["missing.pdf"] None None fs_doc in
  stat_refused (Os := os_name_max) ["missing.pdf"] = None ∧
  pdf_rejected fs_doc ["missing.pdf"] ∧
  ∃ msg, r = Raise (ValueError ("Invalid PDF file: " +:+ msg)) ∧ fs' = fs_doc.
Proof.
  destruct (OsConverter.__init__ (sv := sv_ok) (os := os_name_max)
              ["missing.pdf"] None None fs_doc)
    as [[r fs'] t] eqn:E.
  assert (pdf_rejected fs_doc ["missing.pdf"]) as Hrej by (left; reflexivity).
  split; [reflexivity|]. split; [exact Hrej|].
  destruct (init_validates_eagerly (sv := sv_ok) (os := os_name_max)
              ["missing.pdf"] None None fs_doc r fs' t E) as (_ & Hpdf & _).
  exact (Hpdf eq_refl Hrej).
Defined.

Example os_init_accepts_doc :
  (OsConverter.__init__ (sv := sv_ok) (os := os_name_max) ["doc.pdf"] None None fs_doc).1.1
  = Ok (conv0 DEFAULT_CONFIG None).
Proof. vm_compute. reflexivity. Qed.

End OsInitSpec.

(** ** cli.py under an operating system that may refuse a file test *)

Module OsCliSpec.

Import PyStr Pathlib Config Utils Converter Cli Naming Observed Observed2 Faults Trace.
Import PathlibSpec TraceSpec UtilsSpec ConverterSpec InitSpec CliSpec RaiseSpec.
Import OsUtilsSpec OsConverterSpec OsInitSpec.

Local Arguments OsUtils.get_file_info : simpl never.
Local Arguments OsCli.print_file_info : simpl never.
Local Arguments OsConverter.__init__ : simpl never.
Local Arguments OsConverter.convert : simpl never.
Local Arguments with_suffix : simpl never.
Local Arguments of_string : simpl never.

Section WithServices.
Context {sv : Services} {os : Os}.

Lemma os_print_file_info_run (p : Path) (fs : FS) :
  stat_refused p = None →
  ∃ t, OsCli.print_file_info p fs = (Ok tt, fs, t) ∧ quiet t.
Proof.
  intros Hp. pose proof (os_get_file_info_run p fs) as Hinfo. rewrite Hp in Hinfo.
  destruct Hinfo as (info & t & Hrun & Hq & _).
  unfold OsCli.print_file_info, print, emit, ret, bind. rewrite Hrun. cbn.
  destruct (info_encrypted info); cbn; eexists; (split; [reflexivity|]);
    auto 12 with quiet.
Qed.

(** The [try] block of [main] when the test of the input is refused. *)
Lemma os_main_body_refused (args : Args) (verbose : bool) (fs : FS) (m : string) :
  let pdf := of_string (args_pdf_path args) in
  stat_refused pdf = Some m →
  OsCli.main_body args verbose fs = (Raise (OSError m), fs, [EvExists pdf]).
Proof.
  intros pdf Href. unfold OsCli.main_body. fold pdf.
  unfold bind at 1. by rewrite os_path_exists_run, Href.
Qed.

(** The [try] block of [main] on a missing input. *)
Lemma os_main_body_missing (args : Args) (verbose : bool) (fs : FS) :
  let pdf := of_string (args_pdf_path args) in
  stat_refused pdf = None → node_at fs pdf = None →
  OsCli.main_body args verbose fs =
    (Ok 1, fs, [EvExists pdf; EvPrint true ("Error: PDF file not found: " +:+ str pdf)]).
Proof.
  intros pdf Href Hnone. unfold OsCli.main_body. fold pdf.
  unfold bind at 1. rewrite os_path_exists_run, Href, path_exists_run, Hnone.
  reflexivity.
Qed.

(** The run of the [try] block of [main] on an input path that exists: the
    report, the construction, the conversion and the summary, one after the
    other. *)
Lemma os_main_body_run (args : Args) (verbose : bool) (fs : FS) :
  let pdf := of_string (args_pdf_path args) in
  let cfg := args_config args verbose in
  stat_refused pdf = None → node_at fs pdf ≠ None →
  match args_docx_path args with
  | inl e => OsCli.main_body args verbose fs = (Raise e, fs, [EvExists pdf])
  | inr docx =>
      ∃ tp,
        quiet tp ∧ (verbose = false → tp = []) ∧
        match OsConverter.__init__ pdf (Some docx) (Some cfg) fs with
        | (Ok conv, fsi, ti) =>
            match OsConverter.convert (conv, fsi) with
            | (Ok out, (_, fsc), tc) =>
                ∃ ts,
                  quiet ts ∧ (verbose = false → ts = []) ∧
                  OsCli.main_body args verbose fs
                  = (Ok 0, fsc, EvExists pdf :: tp ++ ti ++ tc ++ ts)
            | (Raise e, (_, fsc), tc) =>
                OsCli.main_body args verbose fs
                = (Raise e, fsc, EvExists pdf :: tp ++ ti ++ tc)
            | (OutOfFuel, _, _) => False
            end
        | (Raise e, fsi, ti) =>
            OsCli.main_body args verbose fs = (Raise e, fsi, EvExists pdf :: tp ++ ti)
        | (OutOfFuel, _, _) => False
        end
  end.
Proof.
  intros pdf cfg Href Hex.
  destruct (os_print_file_info_run pdf fs Href) as (tpr & Hpr & Hqpr).
  pose proof (eq_refl (OsCli.main_body args verbose fs)) as Hmb.
  unfold OsCli.main_body in Hmb at 2. fold pdf in Hmb.
  unfold bind at 1 in Hmb. rewrite os_path_exists_run, Href, path_exists_run in Hmb.
  destruct (node_at fs pdf) as [nd|] eqn:Hpdf; [|done]. cbn [negb] in Hmb.
  unfold bind at 1 in Hmb. unfold args_docx_path. fold pdf.
  assert (∃ x, x = match truthy_opt (args_output args) with
                   | Some o => inr (of_string o)
                   | None => with_suffix pdf ".docx"
                   end ∧
               match truthy_opt (args_output args) with
               | Some o => ret (of_string o)
               | None => of_sum (with_suffix pdf ".docx")
               end fs = of_sum x fs) as (x & <- & Hx).
  { eexists. split; [reflexivity|]. by destruct (truthy_opt _). }
  rewrite Hx in Hmb. clear Hx.
  destruct x as [e|docx]; [exact Hmb|]. cbn [of_sum] in Hmb.
  unfold ret at 1 in Hmb. cbn iota beta in Hmb.
  exists (if verbose then tpr else []).
  split; [destruct verbose; [done|apply quiet_nil]|].
  split; [by intros ->|].
  unfold bind at 1 in Hmb.
  assert ((if verbose then OsCli.print_file_info pdf else ret ()) fs
          = (Ok tt, fs, if verbose then tpr else [])) as Hrep
    by (by destruct verbose).
  rewrite Hrep in Hmb. clear Hrep.
  unfold bind at 1 in Hmb. unfold cfg, args_config.
  destruct (OsConverter.__init__ pdf (Some docx) _ fs) as [[[conv|e|] fsi] ti] eqn:Hinit.
  3: { by destruct (os_init_summary _ _ _ _ _ _ _ Hinit) as (? & _). }
  2: { rewrite Hmb. by rewrite app_nil_l. }
  destruct (os_init_summary _ _ _ _ _ _ _ Hinit) as (_ & _ & _ & Hok).
  destruct (Hok conv eq_refl) as (_ & _ & _ & Hc & _).
  unfold bind at 1, with_self in Hmb.
  destruct (OsConverter.convert (conv, fsi)) as [[rc [selfc fsc]] tc] eqn:Hconv.
  destruct (os_convert_state conv fsi Hc _ _ _ Hconv) as [_ Hfuel].
  destruct rc as [out|e|]; [| |done].
  2: { rewrite Hmb. by rewrite app_nil_l. }
  destruct (os_convert_ok conv fsi Hc _ _ _ Hconv) as (_ & Hout & Hans & _). cbn in Hout.
  destruct verbose.
  - revert Hmb.
    unfold OsUtils.stat_size, OsUtils.stat_node, print, emit, get, ret, raise, bind.
    cbn. rewrite Hans. cbn.
    destruct (node_at fsc out) as [[sz c|]|]; [| |done].
    all: cbn; intros ->; refine (ex_intro _ _ (conj _ (conj _ eq_refl))); [|done].
    all: auto 10 with quiet.
  - revert Hmb. unfold ret, bind. cbn. intros ->. exists [].
    split; [apply quiet_nil|]. split; [done|]. by rewrite !app_nil_r.
Qed.

(** [main] in terms of the outcome of its [try] block. *)
Lemma os_main_run (args : Args) (fs : FS) :
  let verbose := args_verbose args && negb (args_quiet args) in
  OsCli.main args fs =
    let '(rb, fsb, tb) := OsCli.main_body args verbose fs in
    match rb with
    | Ok code => (Ok code, fsb, tb)
    | Raise e =>
        if is_Exception e then
          (Ok 1, fsb,
           tb ++ EvPrint true (nl +:+ "Error: " +:+ exn_str e)
              :: (if verbose then [EvTraceback] else []))
        else
          (Ok 130, fsb, tb ++ [EvPrint true (nl +:+ nl +:+ "Conversion cancelled by user.")])
    | OutOfFuel => (OutOfFuel, fsb, tb)
    end.
Proof.
  intros verbose. unfold OsCli.main, try_except_interrupt. fold verbose.
  destruct (OsCli.main_body args verbose fs) as [[[code|e|] fsb] tb]; [done| |done].
  unfold eprint, emit, ret, bind. destruct e; cbn; try done.
  all: by destruct verbose.
Qed.


End WithServices.

Import Samples OsSamples.


(** The exit codes on sample runs, where a name may have no more than 255
    characters: a conversion that succeeds, a missing input, an input whose
    test is refused, a session that cannot be opened, an interrupt. *)
Example os_main_sample_runs :
  (OsCli.main (sv := sv_ok) (os := os_name_max) args_doc fs_doc).1.1 = Ok 0 ∧
  OsCli.main (sv := sv_ok) (os := os_name_max) args_doc ∅ =
    (Ok 1, ∅, [EvExists ["doc.pdf"];
               EvPrint true "Error: PDF file not found: doc.pdf"]) ∧
  (OsCli.main (sv := sv_ok) (os := os_name_max) args_long fs_doc).1.1 = Ok 1 ∧
  (OsCli.main (sv := sv_no_open) (os := os_name_max) args_doc fs_doc).1.1 = Ok 1 ∧
  (OsCli.main (sv := sv_interrupt) (os := os_name_max) args_doc fs_doc).1.1 = Ok 130.
Proof. repeat split; vm_compute; reflexivity. Qed.

End OsCliSpec.

(** ** The calls made when a file test may be refused *)

Module OsFootprint.

Import PyStr Pathlib Config Utils Converter Cli Naming Channels ChannelSpec.
Import UtilsFootprint ConverterFootprint.

Section WithServices.
Context {sv : Services} {os : Os}.

Lemma confined_os_stat_node cs (p : Path) : confined cs (OsUtils.stat_node p).
Proof. unfold OsUtils.stat_node. confine. Qed.

Lemma confined_os_path_exists cs (p : Path) :
  ChRead ∈ cs → confined cs (OsUtils.path_exists p).
Proof. intros. unfold OsUtils.path_exists. pose proof (confined_os_stat_node cs p). confine. Qed.

Lemma confined_os_path_is_file cs (p : Path) :
  ChRead ∈ cs → confined cs (OsUtils.path_is_file p).
Proof. intros. unfold OsUtils.path_is_file. pose proof (confined_os_stat_node cs p). confine. Qed.

Lemma confined_os_path_is_dir cs (p : Path) :
  ChRead ∈ cs → confined cs (OsUtils.path_is_dir p).
Proof. intros. unfold OsUtils.path_is_dir. pose proof (confined_os_stat_node cs p). confine. Qed.

Lemma confined_os_stat_size cs (p : Path) :
  ChRead ∈ cs → confined cs (OsUtils.stat_size p).
Proof. intros. unfold OsUtils.stat_size. pose proof (confined_os_stat_node cs p). confine. Qed.

End WithServices.

#[export] Hint Resolve confined_os_path_exists confined_os_path_is_file
  confined_os_path_is_dir confined_os_stat_size : confined.

Section WithServices.
Context {sv : Services} {os : Os}.

Lemma confined_os_validate_pdf (p : Path) :
  confined [ChRead; ChFitz] (OsUtils.validate_pdf p).
Proof. unfold OsUtils.validate_pdf. confine. Qed.

Lemma confined_os_validate_output_path (p : Path) (ow : bool) :
  confined [ChRead; ChMkdir] (OsUtils.validate_output_path p ow).
Proof. unfold OsUtils.validate_output_path. confine. Qed.

Lemma confined_os_get_file_info (p : Path) :
  confined [ChRead; ChFitz; ChLogging] (OsUtils.get_file_info p).
Proof. unfold OsUtils.get_file_info. confine. Qed.

Lemma confined_os_backup_probe (fuel : nat) (p b : Path) (counter : Z) :
  confined [ChRead] (OsUtils.backup_probe fuel p b counter).
Proof.
  revert b counter. induction fuel as [|fuel IH]; intros b counter;
    cbn [OsUtils.backup_probe].
  - confine.
  - confine.
Qed.

Lemma confined_os_create_backup (p : Path) :
  confined [ChRead; ChCopy; ChLogging] (OsUtils.create_backup p).
Proof.
  unfold OsUtils.create_backup. confine.
  eapply confined_mono; [|apply confined_os_backup_probe]. chans.
Qed.

End WithServices.

#[export] Hint Resolve confined_os_validate_pdf confined_os_validate_output_path
  confined_os_get_file_info confined_os_backup_probe confined_os_create_backup
  : confined_at.

Section WithServices.
Context {sv : Services} {os : Os}.

Lemma confined_os_init (pdf : Path) (docx : option Path) (cfg : option ConversionConfig) :
  confined [ChRead; ChFitz; ChMkdir; ChLogging] (OsConverter.__init__ pdf docx cfg).
Proof. unfold OsConverter.__init__. confine. Qed.

Lemma confined_os_convert :
  confined [ChRead; ChFitz; ChCopy; ChSession; ChLogging] OsConverter.convert.
Proof.
  unfold OsConverter.convert.
  assert (confined [ChRead; ChFitz; ChCopy; ChSession; ChLogging]
            OsConverter._log_file_info)
    by (unfold OsConverter._log_file_info; confine).
  assert (confined [ChRead; ChFitz; ChCopy; ChSession; ChLogging]
            OsConverter._create_backup_if_needed)
    by (unfold OsConverter._create_backup_if_needed; confine).
  assert (confined [ChRead; ChFitz; ChCopy; ChSession; ChLogging]
            OsConverter.convert_try)
    by (unfold OsConverter.convert_try, OsConverter.convert_body, convert_handler,
          convert_finally; confine).
  confine.
Qed.

End WithServices.

#[export] Hint Resolve confined_os_init confined_os_convert : confined_at.

End OsFootprint.

(** ** utils.py: what its functions do and what they raise *)

Module OsUtilsExtra.

Import PyStr Pathlib Utils Naming Observed Observed2 Trace Channels.
Import PathlibSpec TraceSpec UtilsSpec InitSpec ChannelSpec UtilsFootprint UtilsExtra.
Import RaiseSpec OsUtilsSpec OsFootprint.

Local Arguments mkdir_parents : simpl never.
Local Arguments OsUtils.backup_probe : simpl never.
Local Arguments parent : simpl never.

Section WithServices.
Context {sv : Services} {os : Os}.

(** X1. [validate_pdf] makes its tests on the path itself and outside of
    any [try] statement: when the operating system refuses the path, the
    [OSError] of the first test leaves the function. Otherwise it does not
    raise and leaves the file system as it is. It accepts exactly a regular
    file whose extension is [.pdf] in any case and which PyMuPDF opens with at
    least one page; a verdict carries a message exactly when it rejects.
    PyMuPDF is asked only about a regular file with that extension, a document
    it opened is closed, and nothing but file system tests and PyMuPDF is
    called. *)
Theorem validate_pdf_outcomes (p : Path) (fs : FS) :
  match stat_refused p with
  | Some m => OsUtils.validate_pdf p fs = (Raise (OSError m), fs, [EvExists p])
  | None =>
      ∃ b msg t,
        OsUtils.validate_pdf p fs = (Ok (b, msg), fs, t) ∧
        (b = true ↔ msg = None) ∧
        (b = true ↔
           ∃ sz d, node_at fs p = Some (File sz (inr d)) ∧
                   lower (suffix p) = ".pdf" ∧ doc_pages d ≠ 0%nat) ∧
        (EvFitzOpen p ∈ t ↔
           (∃ sz c, node_at fs p = Some (File sz c)) ∧ lower (suffix p) = ".pdf") ∧
        (EvFitzClose p ∈ t ↔
           EvFitzOpen p ∈ t ∧ ∃ sz d, node_at fs p = Some (File sz (inr d))) ∧
        only [ChRead; ChFitz] t
  end.
Proof.
  rewrite os_validate_pdf_run. destruct (stat_refused p); [done|].
  apply validate_pdf_answered.
Qed.


(** X3. [get_file_info] tests the path outside of any [try] statement: when
    the operating system refuses it, the [OSError] of the test leaves the
    function. Otherwise it does not raise, whatever is at the path, and
    leaves the file system as it is. The size is the one [stat] reports, that
    of the file or of the directory, read only when the path exists, and [0]
    for a missing path; pages, encryption and metadata are those of the
    document when PyMuPDF opens it, which is then closed, and the defaults [0],
    [False] and an empty dictionary otherwise, with one warning logged on the
    root logger. *)
Theorem get_file_info_outcomes (p : Path) (fs : FS) :
  match stat_refused p with
  | Some m => OsUtils.get_file_info p fs = (Raise (OSError m), fs, [EvExists p])
  | None =>
      ∃ info t,
        OsUtils.get_file_info p fs = (Ok info, fs, t) ∧
        info_path info = str p ∧ info_name info = name p ∧
        info_size info = match node_at fs p with
                         | Some (File sz _) => sz
                         | Some Dir => dir_size p
                         | None => 0
                         end ∧
        (EvStat p ∈ t ↔ node_at fs p ≠ None) ∧
        match node_at fs p with
        | Some (File _ (inr d)) =>
            info_pages info = doc_pages d ∧ info_encrypted info = doc_encrypted d ∧
            info_metadata info = doc_metadata d ∧
            EvFitzClose p ∈ t ∧ (∀ l msg, EvLog l WARNING msg ∉ t)
        | _ =>
            info_pages info = 0%nat ∧ info_encrypted info = false ∧
            info_metadata info = [] ∧
            (EvFitzClose p ∉ t) ∧
            (∃ msg, EvLog "root" WARNING ("Could not read PDF info: " +:+ msg) ∈ t)
        end ∧
        only [ChRead; ChFitz; ChLogging] t
  end.
Proof.
  pose proof (os_get_file_info_run p fs) as Hrefused.
  destruct (stat_refused p) as [m|] eqn:Href; [done|]. clear Hrefused.
  assert (∃ r, OsUtils.get_file_info p fs = r) as [[[r fs'] t] Hrun] by eauto.
  pose proof (confined_run _ _ _ _ _ _ (confined_os_get_file_info p) Hrun) as Honly.
  revert Hrun Honly.
  destruct (node_at fs p) as [[sz [m|d]|]|] eqn:E;
    unfold OsUtils.get_file_info, try_except, OsUtils.path_exists, OsUtils.stat_size,
      OsUtils.stat_node, fitz_open, fitz_close, log, emit, get, raise, ret, bind;
    repeat (cbn; rewrite ?E, ?Href); cbn.
  all: intros [= <- <- <-] Honly; do 2 eexists; (split; [reflexivity|]); cbn.
  all: repeat match goal with |- _ ∧ _ => split end; try done.
  all: try (split; [intros _; congruence | intros _; mem]).
  all: try (split; [intros H; mem_inv H | done]).
  all: try (intros l msg H; mem_inv H).
  all: try (intros H; mem_inv H).
  all: try mem.
  all: try (eexists; mem).
Qed.

(** The [try] statement of [create_backup] does not raise. *)
Lemma backup_copy_returns (p dst : Path) (fs : FS) :
  ∃ b fs' t, backup_copy p dst fs = (Ok b, fs', t).
Proof.
  unfold backup_copy, try_except, copy2, log, emit, get, put, raise, ret, bind. cbn.
  destruct (node_at fs p) as [[sz c|]|]; cbn; [|by eexists _, _, _ ..].
  destruct (copy_error fs p dst); cbn; by eexists _, _, _.
Qed.

(** An exception leaves [create_backup] before the copy is tried. *)
Lemma os_create_backup_raise_no_copy (p : Path) (fs : FS) e fs' t :
  OsUtils.create_backup p fs = (Raise e, fs', t) →
  ∀ src dst, EvCopy src dst ∉ t.
Proof.
  rewrite os_create_backup_run.
  destruct (stat_refused p); [intros [= _ _ <-] ? ? H; mem_inv H|].
  destruct (node_at fs p); [|done].
  destruct (with_suffix p (suffix p +:+ ".bak")) as [e0|b];
    [intros [= _ _ <-] ? ? H; mem_inv H|].
  destruct (OsUtils.backup_probe (S (size fs)) p b 1 fs) as [[[b'|e1|] s] tb] eqn:Hpr;
    [|intros [= _ _ <-]|done].
  - destruct (backup_copy_returns p b' s) as (x & s2 & t2 & ->). done.
  - intros src dst H. apply elem_of_cons in H as [H|H]; [done|].
    pose proof (confined_run _ _ _ _ _ _ (confined_os_backup_probe _ _ _ _) Hpr) as Ho.
    revert H. apply (only_not_elem _ _ _ Ho). cbn.
    rewrite elem_of_cons, elem_of_nil. intros [?|?]; done.
Qed.


End WithServices.

Import Samples OsSamples.


End OsUtilsExtra.

(** ** The constructor: what it does and what it raises *)

Module OsInitExtra.

Import PyStr Pathlib Config Utils Converter Observed Channels.
Import PathlibSpec TraceSpec UtilsSpec ConverterSpec InitSpec.
Import ChannelSpec UtilsFootprint UtilsExtra ConverterFootprint RaiseSpec InitExtra.
Import OsUtilsSpec OsInitSpec OsFootprint.

Local Arguments validate_pdf : simpl never.
Local Arguments validate_output_path : simpl never.
Local Arguments __init__ : simpl never.
Local Arguments parent : simpl never.

Section WithServices.
Context {sv : Services} {os : Os}.

(** X16. What constructing a converter can do. It never deletes or changes
    an entry of the file system: what it may add are the missing directories
    above the output file and an empty log file. It fails with [ValueError],
    or with an [OSError], and with nothing else; the [OSError] is that of a
    log file that cannot be opened, or that of a test the operating system
    refused, on the input, on the output or on the parent of the output. A
    converter it returns holds no session and no callback. It tests files,
    asks PyMuPDF, creates directories and sets up logging, and calls neither
    pdf2docx nor a copy. *)
Theorem constructor_outcomes (pdf : Path) (docx : option Path)
    (cfg : option ConversionConfig) (fs : FS) r fs' t :
  OsConverter.__init__ pdf docx cfg fs = (r, fs', t) →
  let cfg0 := default DEFAULT_CONFIG cfg in
  (∀ q x, fs !! q = Some x → fs' !! q = Some x) ∧
  (∀ q x, fs' !! q = Some x →
     fs !! q = Some x ∨ x = Dir ∨ (log_file cfg0 = Some q ∧ ∃ c, x = File 0 c)) ∧
  match r with
  | Ok self => converter self = None ∧ progress_callback self = None ∧ config self = cfg0
  | Raise e =>
      ∃ msg, e = ValueError msg ∨
             (e = OSError msg ∧
              (log_file cfg0 ≠ None ∨ stat_refused pdf = Some msg ∨
               ∃ out, output_path pdf docx = inr out ∧
                      (stat_refused out = Some msg ∨ stat_refused (parent out) = Some msg)))
  | OutOfFuel => False
  end ∧
  only [ChRead; ChFitz; ChMkdir; ChLogging] t.
Proof.
  intros Hrun cfg0.
  pose proof (confined_run _ _ _ _ _ _ (confined_os_init pdf docx cfg) Hrun) as Honly.
  assert (__init__ pdf docx cfg fs = (r, fs', t) →
          (∀ q x, fs !! q = Some x → fs' !! q = Some x) ∧
          (∀ q x, fs' !! q = Some x →
             fs !! q = Some x ∨ x = Dir ∨ (log_file cfg0 = Some q ∧ ∃ c, x = File 0 c)) ∧
          match r with
          | Ok self =>
              converter self = None ∧ progress_callback self = None ∧ config self = cfg0
          | Raise e =>
              ∃ msg, e = ValueError msg ∨
                     (e = OSError msg ∧
                      (log_file cfg0 ≠ None ∨ stat_refused pdf = Some msg ∨
                       ∃ out, output_path pdf docx = inr out ∧
                              (stat_refused out = Some msg
                               ∨ stat_refused (parent out) = Some msg)))
          | OutOfFuel => False
          end ∧
          only [ChRead; ChFitz; ChMkdir; ChLogging] t) as Hold.
  { intros Hinit.
    destruct (init_run_summary pdf docx cfg fs r fs' t Hinit) as (Hk & Hn & Hr & _).
    do 2 (split; [done|]). split; [|done].
    destruct r as [self|e|]; [done| |done].
    destruct Hr as [msg [-> | [-> ?]]]; exists msg; [by left|right; auto]. }
  rewrite os_init_run in Hrun.
  destruct (stat_refused pdf) as [m|] eqn:Hpdf.
  { injection Hrun as <- <- <-. split; [done|]. split; [by left|]. split; [|done].
    exists m. right. auto. }
  destruct (validate_pdf_cases pdf fs) as (b & msg & t1 & Hv1 & _).
  rewrite Hv1 in Hrun.
  destruct b; [|by apply Hold].
  destruct (output_path pdf docx) as [e|out] eqn:Hop; [by apply Hold|].
  destruct (negb (bool_decide (lower (suffix out) = ".docx"))); [by apply Hold|].
  destruct (stat_refused out) as [m|] eqn:Hout.
  { injection Hrun as <- <- <-. split; [done|]. split; [by left|]. split; [|done].
    exists m. right. split; [done|]. right. right. exists out. auto. }
  destruct (match node_at fs out with Some _ => true | None => false end
            && negb (overwrite (default DEFAULT_CONFIG cfg))); [by apply Hold|].
  destruct (stat_refused (parent out)) as [m|] eqn:Hpar; [|by apply Hold].
  injection Hrun as <- <- <-. split; [done|]. split; [by left|]. split; [|done].
  exists m. right. split; [done|]. right. right. exists out. auto.
Qed.

End WithServices.

Import Samples OsSamples.

Lemma constructor_outcomes_witness :
  let '(_, fs', _) :=
    OsConverter.__init__ (sv := sv_ok) (os := os_name_max) ["doc.pdf"] None None fs_doc in
  ∀ q x, fs_doc !! q = Some x → fs' !! q = Some x.
Proof.
  destruct (OsConverter.__init__ (sv := sv_ok) (os := os_name_max)
              ["doc.pdf"] None None fs_doc) as [[r fs'] t] eqn:E.
  destruct (constructor_outcomes (sv := sv_ok) (os := os_name_max)
              ["doc.pdf"] None None fs_doc r fs' t E) as [Hkeep _].
  exact Hkeep.
Defined.

End OsInitExtra.

(** ** examples/advanced_usage.py: the loop of batch_conversion *)

Module OsExamplesSpec.

Import PyStr Pathlib Config Utils Converter Observed Observed2 Faults Trace Channels.
Import OsObserved.
Import PathlibSpec TraceSpec UtilsSpec ConverterSpec InitSpec ChannelSpec RaiseSpec.
Import OsUtilsSpec OsConverterSpec OsInitSpec OsFootprint.

Local Arguments OsConverter.__init__ : simpl never.
Local Arguments OsConverter.convert : simpl never.
Local Arguments OsUtils.validate_pdf : simpl never.
Local Arguments validate_pdf : simpl never.
Local Arguments with_suffix : simpl never.
Local Arguments of_string : simpl never.

(** A channel is not in a list of channels that is given. *)
Ltac nochan :=
  let H := fresh "H" in
  intros H; repeat (apply elem_of_cons in H as [H|H]; [discriminate H|]);
  by apply elem_of_nil in H.

Lemma prints_app (t1 t2 : list event) : prints (t1 ++ t2) = prints t1 ++ prints t2.
Proof. unfold prints. apply omap_app. Qed.

Lemma only_prints (cs : list channel) (t : list event) :
  only cs t → ChStdout ∉ cs → prints t = [].
Proof.
  intros Ho Hcs. induction Ho as [|e t He _ IH]; [done|].
  cbn. destruct e; try done. destruct to_stderr; [done|]. by destruct Hcs.
Qed.

Section WithServices.
Context {sv : Services} {os : Os}.

(** An exception of [convert] that is not an [Exception] was raised by
    pdf2docx. *)
Lemma os_convert_interrupt (self : PDFToDOCXConverter) (fs : FS) e s t :
  converter self = None →
  OsConverter.convert (self, fs) = (Raise e, s, t) →
  never_interrupted sv → is_Exception e = true.
Proof.
  intros Hc Hrun [Hopen Hconv].
  destruct (os_convert_raise self fs Hc e s t Hrun)
    as [([m [-> | ->]] & _)|(fs1 & t1 & t2 & _ & Htry & _)]; [done..|].
  revert Htry. rewrite (os_convert_try_cases self fs1 Hc).
  destruct (session_open fs1 (pdf_path self)) as [e0|] eqn:Ho.
  { rewrite (Hopen _ _ _ Ho). by intros [= <- _ _]. }
  destruct (session_convert _ _ _ _ _) as [[e0|] fs2] eqn:Hcv.
  { rewrite (Hconv _ _ _ _ _ _ _ Hcv). by intros [= <- _ _]. }
  destruct (stat_refused (docx_path self)); [by intros [= <- _ _]|].
  destruct (node_at fs2 (docx_path self)); [done|]. by intros [= <- _ _].
Qed.

(** The [try] statement of one round: it returns, with the list as it was
    and a line about the failure, or with the output path added and a line
    about the conversion, unless the conversion is interrupted. *)
Lemma os_batch_convert_run (pdf_file : string) (acc : list Path) (fs : FS) :
  let pdf := of_string pdf_file in
  ∃ r fs' t,
    OsExamples.batch_convert pdf_file acc fs = (r, fs', t) ∧
    match r with
    | Ok res =>
        (res = acc ∧
         ∃ why, prints t = ["✗ Failed to convert " +:+ pdf_file +:+ ": " +:+ why])
        ∨ ∃ q, res = acc ++ [q] ∧ with_suffix pdf ".docx" = inr q ∧
               EvSessionConvert pdf q 0 None ∈ t ∧
               prints t = ["✓ Converted: " +:+ pdf_file +:+ " -> " +:+ str q]
    | Raise e => is_Exception e = false ∧ ¬ never_interrupted sv
    | OutOfFuel => False
    end.
Proof.
  intros pdf. unfold OsExamples.batch_convert. fold pdf. unfold try_except.
  unfold bind at 1.
  destruct (with_suffix pdf ".docx") as [e|q] eqn:Hws; cbn [of_sum].
  { destruct (with_suffix_raises _ _ _ Hws) as [m ->]. cbn.
    eexists _, _, _. split; [reflexivity|]. left. split; [done|]. by eexists. }
  unfold ret at 1. cbn iota beta. unfold bind at 1.
  destruct (OsConverter.__init__ pdf (Some q) None fs) as [[[conv|e|] fs1] t1] eqn:Hinit.
  3: { by destruct (os_init_summary _ _ _ _ _ _ _ Hinit) as (? & _). }
  all: pose proof (confined_run _ _ _ _ _ _ (confined_os_init _ _ _) Hinit) as Ho1.
  all: assert (prints t1 = []) as Hp1
    by (apply (only_prints _ _ Ho1); nochan).
  2: { destruct (os_init_summary _ _ _ _ _ _ _ Hinit) as (_ & _ & Hraise & _).
       destruct (Hraise e eq_refl) as [m [-> | ->]]; cbn;
         (eexists _, _, _; split; [reflexivity|]; left; split; [done|]);
         exists m; by rewrite prints_app, Hp1. }
  destruct (os_init_summary _ _ _ _ _ _ _ Hinit) as (_ & _ & _ & Hok).
  destruct (Hok conv eq_refl) as (Hpdf & Hcfg & Hout & Hc & _).
  cbn in Hout. injection Hout as Hout. cbn in Hcfg.
  unfold bind at 1. unfold with_self.
  destruct (OsConverter.convert (conv, fs1)) as [[rc [self1 fs2]] tc] eqn:Hconv.
  pose proof (confined_run _ _ _ _ _ _ confined_os_convert Hconv) as Ho2.
  assert (prints tc = []) as Hp2
    by (apply (only_prints _ _ Ho2); nochan).
  destruct (os_convert_state conv fs1 Hc _ _ _ Hconv) as [_ Hfuel].
  destruct rc as [out|e|]; [| |done].
  - destruct (os_convert_ok conv fs1 Hc _ _ _ Hconv) as (-> & _ & _ & _ & Hin).
    rewrite Hpdf, Hcfg, <- Hout in Hin. cbn in Hin.
    cbn. eexists _, _, _. split; [reflexivity|]. right. exists q.
    rewrite <- Hout. split; [done|]. split; [done|]. split.
    + apply elem_of_app. right. apply elem_of_app. by left.
    + by rewrite !prints_app, Hp1, Hp2.
  - cbn. destruct (is_Exception e) eqn:He; cbn.
    + eexists _, _, _. split; [reflexivity|]. left. split; [done|].
      exists (exn_str e). by rewrite !prints_app, Hp1, Hp2.
    + eexists _, _, _. split; [reflexivity|]. split; [done|].
      intros Hni. pose proof (os_convert_interrupt conv fs1 _ _ _ Hc Hconv Hni). congruence.
Qed.

(** One turn of the loop. The two tests of the file are outside the [try]
    statement: a file the operating system refuses ends the turn with the
    [OSError] of the first test. Otherwise the turn ends normally, with one
    line about the file, unless the conversion is interrupted. *)
Lemma os_batch_round_run (pdf_file : string) (acc : list Path) (fs : FS) :
  let pdf := of_string pdf_file in
  ∃ r fs' t,
    OsExamples.batch_round pdf_file acc fs = (r, fs', t) ∧
    match r with
    | Ok res =>
        stat_refused pdf = None ∧
        (∃ msg, prints t = [msg] ∧ batch_report pdf_file msg) ∧
        (res = acc
         ∨ ∃ q, res = acc ++ [q] ∧ with_suffix pdf ".docx" = inr q ∧
                EvSessionConvert pdf q 0 None ∈ t)
    | Raise e =>
        (∃ m, stat_refused pdf = Some m ∧ e = OSError m ∧ fs' = fs ∧ t = [EvExists pdf])
        ∨ (stat_refused pdf = None ∧ is_Exception e = false ∧ ¬ never_interrupted sv)
    | OutOfFuel => False
    end.
Proof.
  intros pdf. unfold OsExamples.batch_round. fold pdf.
  unfold bind at 1. rewrite os_path_exists_run.
  destruct (stat_refused pdf) as [m|] eqn:Href.
  { eexists _, _, _. split; [reflexivity|]. left. by exists m. }
  rewrite path_exists_run.
  destruct (node_at fs pdf) as [nd|] eqn:Hnode; cbn [negb].
  2: { unfold bind, print, emit, ret. eexists _, _, _. split; [reflexivity|].
       split; [done|]. split; [|by left].
       eexists. split; [reflexivity|]. left. by eexists. }
  unfold bind at 1. rewrite os_validate_pdf_run, Href.
  destruct (validate_pdf_cases pdf fs) as (b & msg & tv & Hv & _ & _ & Hmsg).
  pose proof (confined_run _ _ _ _ _ _ (UtilsFootprint.confined_validate_pdf pdf) Hv)
    as Hov.
  assert (prints tv = []) as Hpv by (apply (only_prints _ _ Hov); nochan).
  rewrite Hv. clear Hov Hv.
  destruct b; cbn [negb].
  2: { unfold bind, print, emit, ret. eexists _, _, _. split; [reflexivity|].
       split; [done|]. split; [|by left].
       eexists. split; [cbn; rewrite prints_app, Hpv; reflexivity|]. left. by eexists. }
  destruct (os_batch_convert_run pdf_file acc fs) as (r & fs' & t & Hrun & Hr).
  fold pdf in Hr. rewrite Hrun.
  eexists _, _, _. split; [reflexivity|].
  destruct r as [res|e|]; [| |done].
  - split; [done|]. split.
    + destruct Hr as [[_ [why Hp]]|(q & _ & _ & _ & Hp)];
        eexists; (split; [cbn; rewrite prints_app, Hpv, Hp; reflexivity|]).
      * right. right. by eexists.
      * right. left. by eexists.
    + destruct Hr as [[-> _]|(q & -> & Hws & Hin & _)]; [by left|].
      right. exists q. do 2 (split; [done|]).
      apply list_elem_of_further, elem_of_app. by right.
  - right. by destruct Hr.
Qed.


End WithServices.

Import Samples OsSamples.


End OsExamplesSpec.
